(** * darkchat: the in-memory room hub of [main.py]

    A shallow embedding of the realtime part of [src/main.py]: the seven
    module-level dictionaries that hold the rooms, [ensure_room],
    [broadcast], the room endpoints ([new_room], [chat_room],
    [destroy_room], [kick_user], [ban_user], [room_online]) and the three
    phases of [websocket_endpoint] (connect, one turn of the receive loop,
    teardown).

    The handlers are given twice.
    - First each handler is a function that runs to its end: what the
      handler does when no other coroutine is resumed before it is over.
      [run] puts such handlers one after the other.
    - Then [websocket_endpoint] is followed from one [await] to the next
      ([wstep], [wrun]), the environment choosing which coroutine goes on.
      The lemmas [join_uninterrupted] and [frame_uninterrupted] show that a
      handler nobody interrupts does what the first reading says.

    Conventions.
    - The hub state is threaded explicitly; every handler returns the new
      state, the list of socket actions it performed, and how it ended.
    - A [WebSocket] object is a handle compared by identity: a [nat].
    - Whether a [send_json] raises is decided by the environment: a handler
      takes a predicate [fails] telling which sockets are broken during it;
      in the second reading each [send_json] has its own outcome.
    - [uuid.UUID], [json.loads] and [float] are library code: they are
      the fields of the class [Library].  [now_iso ()] is an input of each
      handler. *)

From stdpp Require Import gmap strings list fin_maps.
From Stdlib Require Import ZArith.

Set Warnings "-register-all,-clear-no-such-hyp".
Open Scope string_scope.
Open Scope list_scope.

(** ** JSON values and Python dictionaries *)

(** A Python float, as its IEEE-754 binary64 bit pattern. *)
Record float64 := Float64 { float_bits : Z }.

(** What [json.loads] can return.  An object is the association list of its
    dict, in insertion order. *)
Inductive JValue :=
| JNull
| JBool (b : bool)
| JInt (n : Z)
| JFloat (f : float64)
| JStr (s : string)
| JArr (items : list JValue)
| JObj (fields : list (string * JValue)).

(** An outbound event: the dict literal handed to [send_json]. *)
Definition Msg := list (string * JValue).

(** [d.get(key)] on an association list: [None] when the key is absent. *)
Fixpoint dict_get (key : string) (d : list (string * JValue)) : option JValue :=
  match d with
  | [] => None
  | (k, v) :: rest => if String.eqb k key then Some v else dict_get key rest
  end.

(** [d.get(key, dflt)]. *)
Definition dict_get_default (key : string) (dflt : JValue)
  (d : list (string * JValue)) : JValue :=
  match dict_get key d with
  | Some v => v
  | None => dflt
  end.

(** [isinstance(payload, dict)], giving the dict. *)
Definition as_dict (payload : JValue) : option (list (string * JValue)) :=
  match payload with
  | JObj fields => Some fields
  | _ => None
  end.

(** [payload.get("type") == kind]: only a string equal to [kind] compares
    equal to a string. *)
Definition type_is (kind : string) (d : list (string * JValue)) : bool :=
  match dict_get "type" d with
  | Some (JStr s) => String.eqb s kind
  | _ => false
  end.

(** Both zeros of binary64 are falsy; every other float (NaN too) is truthy. *)
Definition float_is_zero (f : float64) : bool :=
  Z.eqb (Z.land (float_bits f) (Z.ones 63)) 0.

(** Python truthiness, [bool(v)], of a decoded JSON value. *)
Definition truthy (v : JValue) : bool :=
  match v with
  | JNull => false
  | JBool b => b
  | JInt n => negb (Z.eqb n 0)
  | JFloat f => negb (float_is_zero f)
  | JStr s => negb (String.eqb s "")
  | JArr items => match items with [] => false | _ => true end
  | JObj fields => match fields with [] => false | _ => true end
  end.

(** ** Users and sockets *)

(** The row [SELECT users.id, users.username, users.avatar_path]. *)
Record User := mkUser {
  user_id : string;
  username : string;
  avatar_path : string
}.

(** The value stored in [rooms_user_meta[room][uid]]. *)
Record Meta := mkMeta {
  meta_username : string;
  meta_avatar : string
}.

(** A [WebSocket] handle. *)
Definition Conn := nat.

(** What a handler does to sockets, in the order it does it.  [Send ws m ok]
    is one [await ws.send_json(m)]; [ok = false] when it raised.
    [Close ws code] is one [await ws.close(code=code)]. *)
Inductive Action :=
| Send (ws : Conn) (m : Msg) (ok : bool)
| Close (ws : Conn) (code : Z).

(** ** Close codes, as written in the source *)

Definition CLOSE_UNAUTHENTICATED : Z := 1008.   (* lines 905, 920 *)
Definition CLOSE_INVALID_ROOM : Z := 1008.      (* line 926 *)
Definition CLOSE_TOMBSTONED : Z := 4100.        (* line 931 *)
Definition CLOSE_BANNED : Z := 4003.            (* lines 934, 840 *)
Definition CLOSE_KICKED : Z := 4000.            (* line 823 *)
Definition CLOSE_DESTROYED : Z := 1000.         (* line 800 *)
Definition CLOSE_SERVER_ERROR : Z := 1011.      (* line 1096 *)

(** ** The hub state: the module-level dictionaries (lines 42-48) *)

Record Hub := mkHub {
  rooms_messages : gmap string (list Msg);
  rooms_connections : gmap string (gset Conn);
  rooms_owner : gmap string string;
  rooms_banned : gmap string (gset string);
  rooms_user_sockets : gmap string (gmap string (gset Conn));
  rooms_user_meta : gmap string (gmap string Meta);
  rooms_deleted : gset string
}.

Definition empty_hub : Hub :=
  mkHub ∅ ∅ ∅ ∅ ∅ ∅ ∅.

(** [d.setdefault(k, v)] for its effect on [d]. *)
Definition setdefault {V} (k : string) (v : V) (d : gmap string V) : gmap string V :=
  match d !! k with
  | Some _ => d
  | None => <[k := v]> d
  end.

(** [ensure_room] (lines 194-199). *)
Definition ensure_room (room_id : string) (h : Hub) : Hub :=
  mkHub (setdefault room_id [] (rooms_messages h))
        (setdefault room_id ∅ (rooms_connections h))
        (rooms_owner h)
        (setdefault room_id ∅ (rooms_banned h))
        (setdefault room_id ∅ (rooms_user_sockets h))
        (setdefault room_id ∅ (rooms_user_meta h))
        (rooms_deleted h).

(** The views with the defaults the source reads them with:
    [rooms_connections.get(room_id, set())] and the like. *)
Definition conns_of (h : Hub) (room_id : string) : gset Conn :=
  default ∅ (rooms_connections h !! room_id).

Definition history_of (h : Hub) (room_id : string) : list Msg :=
  default [] (rooms_messages h !! room_id).

Definition banned_of (h : Hub) (room_id : string) : gset string :=
  default ∅ (rooms_banned h !! room_id).

(** [rooms_user_sockets.get(room_id, {}).get(uid, set())]. *)
Definition user_sockets_of (h : Hub) (room_id uid : string) : gset Conn :=
  default ∅ (default ∅ (rooms_user_sockets h !! room_id) !! uid).

(** [rooms_user_meta.get(room_id, {}).get(uid)]. *)
Definition user_meta_of (h : Hub) (room_id uid : string) : option Meta :=
  default ∅ (rooms_user_meta h !! room_id) !! uid.

(** ** Events *)

(** The server-stamped tail of every content event. *)
Definition stamp (user : User) (ts : string) : Msg :=
  [("user_id", JStr (user_id user)); ("username", JStr (username user));
   ("avatar", JStr (avatar_path user)); ("ts", JStr ts)].

(** [typing] and [read] events carry no avatar. *)
Definition stamp_short (user : User) (ts : string) : Msg :=
  [("user_id", JStr (user_id user)); ("username", JStr (username user));
   ("ts", JStr ts)].

(** [{"type": "system", "text": ..., "ts": now_iso()}]. *)
Definition system_event (text ts : string) : Msg :=
  [("type", JStr "system"); ("text", JStr text); ("ts", JStr ts)].

(** Lines 943-950. *)
Definition joined_event (user : User) (ts : string) : Msg :=
  system_event (username user +:+ " entrou na sala") ts.

(** Lines 1074-1081 and 1087-1094. *)
Definition left_event (user : User) (ts : string) : Msg :=
  system_event (username user +:+ " saiu da sala") ts.

(** Lines 962-974. *)
Definition message_event (d : list (string * JValue)) (user : User) (ts : string) : Msg :=
  [("type", JStr "message");
   ("text", dict_get_default "text" (JStr "") d);
   ("enc", dict_get_default "enc" (JBool false) d);
   ("ct", dict_get_default "ct" (JStr "") d);
   ("iv", dict_get_default "iv" (JStr "") d);
   ("salt", dict_get_default "salt" (JStr "") d);
   ("msg_id", dict_get_default "msg_id" (JStr "") d)] ++ stamp user ts.

(** Lines 976-989. *)
Definition media_event (d : list (string * JValue)) (user : User) (ts : string) : Msg :=
  [("type", JStr "media");
   ("url", dict_get_default "url" (JStr "") d);
   ("kind", dict_get_default "kind" (JStr "application/octet-stream") d);
   ("enc", dict_get_default "enc" (JBool false) d);
   ("iv", dict_get_default "iv" (JStr "") d);
   ("salt", dict_get_default "salt" (JStr "") d);
   ("orig_kind", dict_get_default "orig_kind" (JStr "") d);
   ("msg_id", dict_get_default "msg_id" (JStr "") d)] ++ stamp user ts.

(** Lines 991-1004. *)
Definition album_event (d : list (string * JValue)) (user : User) (ts : string) : Msg :=
  [("type", JStr "album");
   ("url", dict_get_default "url" (JStr "") d);
   ("title", dict_get_default "title" (JStr "") d);
   ("enc", dict_get_default "enc" (JBool false) d);
   ("ct", dict_get_default "ct" (JStr "") d);
   ("iv", dict_get_default "iv" (JStr "") d);
   ("salt", dict_get_default "salt" (JStr "") d);
   ("msg_id", dict_get_default "msg_id" (JStr "") d)] ++ stamp user ts.

(** Lines 1007-1018. *)
Definition location_enc_event (d : list (string * JValue)) (user : User) (ts : string) : Msg :=
  [("type", JStr "location");
   ("enc", JBool true);
   ("ct", dict_get_default "ct" (JStr "") d);
   ("iv", dict_get_default "iv" (JStr "") d);
   ("salt", dict_get_default "salt" (JStr "") d);
   ("msg_id", dict_get_default "msg_id" (JStr "") d)] ++ stamp user ts.

(** Lines 1020-1029, once both [float(...)] calls have returned. *)
Definition location_plain_event (lat lon : float64) (d : list (string * JValue))
  (user : User) (ts : string) : Msg :=
  [("type", JStr "location");
   ("lat", JFloat lat);
   ("lon", JFloat lon);
   ("msg_id", dict_get_default "msg_id" (JStr "") d)] ++ stamp user ts.

(** Lines 1031-1037. *)
Definition typing_event (d : list (string * JValue)) (user : User) (ts : string) : Msg :=
  [("type", JStr "typing");
   ("state", JBool (truthy (dict_get_default "state" (JBool false) d)))]
  ++ stamp_short user ts.

(** Lines 1039-1045. *)
Definition read_event (d : list (string * JValue)) (user : User) (ts : string) : Msg :=
  [("type", JStr "read");
   ("msg_id", dict_get_default "msg_id" (JStr "") d)] ++ stamp_short user ts.

(** Lines 1050-1058: the plaintext event built when [msg is None]. *)
Definition fallback_event (data : string) (user : User) (ts : string) : Msg :=
  [("type", JStr "message"); ("text", JStr data); ("enc", JBool false)]
  ++ stamp user ts.

(** One [if isinstance(payload, dict) and payload.get("type") == kind:
    msg = build(payload)] of the receive loop; [msg] is kept otherwise. *)
Definition when_type (kind : string) (payload : JValue)
  (build : list (string * JValue) → Msg) (msg : option Msg) : option Msg :=
  match as_dict payload with
  | Some d => if type_is kind d then Some (build d) else msg
  | None => msg
  end.

(** The recognized values of [type]. *)
Definition recognized_kinds : list string :=
  ["message"; "media"; "album"; "location"; "typing"; "read"].

(** ** Handlers *)

(** What a handler leaves behind: the hub, the socket actions in the order
    they were performed, and how the handler ended. *)
Record Step (R : Type) := mkStep {
  hub_after : Hub;
  actions : list Action;
  outcome : R
}.
Arguments mkStep {R} _ _ _.
Arguments hub_after {R} _.
Arguments actions {R} _.
Arguments outcome {R} _.

(** How an HTTP endpoint answers: normally, or [HTTPException(status)]. *)
Inductive HttpResult :=
| HttpOk
| HttpRedirect (url : string)
| HttpError (status : Z).

(** How a phase of [websocket_endpoint] ends. *)
Inductive WsOutcome :=
| WsRejected (code : Z)   (* closed before joining, then [return] *)
| WsActive                (* back at the top of the receive loop *)
| WsEnded                 (* an [except] branch ran to its end *)
| WsRaised.               (* an exception left the coroutine *)

(** The three library functions the hub calls. *)
Class Library := {
  (** [uuid.UUID(room_id)] returned instead of raising [ValueError]. *)
  uuid_ok : string → bool;
  (** [json.loads(data)]; [None] when it raises. *)
  json_loads : string → option JValue;
  (** [float(v)]; [None] when it raises. *)
  py_float : JValue → option float64
}.

Section Hub.

Context {lib : Library}.

(** The [location] branch (lines 1005-1029).  The outer [None] is an
    exception out of [float]. *)
Definition location_step (payload : JValue) (user : User) (ts : string)
  (msg : option Msg) : option (option Msg) :=
  match as_dict payload with
  | Some d =>
      if type_is "location" d then
        if truthy (dict_get_default "enc" JNull d) then
          Some (Some (location_enc_event d user ts))
        else
          match py_float (dict_get_default "lat" (JInt 0) d) with
          | None => None
          | Some lat =>
              match py_float (dict_get_default "lon" (JInt 0) d) with
              | None => None
              | Some lon => Some (Some (location_plain_event lat lon d user ts))
              end
          end
      else Some msg
  | None => Some msg
  end.

(** The chain of [if]s of lines 961-1045 on a decoded payload.  The outer
    [None] is an exception raised inside the [try]. *)
Definition classify (payload : JValue) (user : User) (ts : string)
  : option (option Msg) :=
  let msg := None in
  let msg := when_type "message" payload (λ d, message_event d user ts) msg in
  let msg := when_type "media" payload (λ d, media_event d user ts) msg in
  let msg := when_type "album" payload (λ d, album_event d user ts) msg in
  match location_step payload user ts msg with
  | None => None
  | Some msg =>
      let msg := when_type "typing" payload (λ d, typing_event d user ts) msg in
      let msg := when_type "read" payload (λ d, read_event d user ts) msg in
      Some msg
  end.

(** Lines 958-1058: the event built from one inbound text frame.  An
    exception in the [try] resets [msg] to [None]; [msg is None] then
    selects the fallback. *)
Definition build_msg (data : string) (user : User) (ts : string) : Msg :=
  match json_loads data with
  | None => fallback_event data user ts
  | Some payload =>
      match classify payload user ts with
      | Some (Some msg) => msg
      | _ => fallback_event data user ts
      end
  end.

(** A frame that decodes to an object whose [type] is a recognized kind:
    the frames the chain of [if]s can build an event from. *)
Definition recognized_payload (data : string) : bool :=
  match json_loads data with
  | Some (JObj d) => existsb (λ kind, type_is kind d) recognized_kinds
  | _ => false
  end.

(** *** [broadcast] (lines 202-210; lines 1061-1068 repeat its body)

    The pass as it runs when no other coroutine is resumed before it is
    over: the set it walks does not change under it, so that the loop goes
    through the elements the set had when the pass began.  [pass_next],
    further down, follows the same loop from one [await] to the next over
    the set itself. *)

(** The first loop: one [send_json] per socket, failures collected in
    [dead] in the order met.  No state is touched. *)
Fixpoint send_loop (fails : Conn → bool) (msg : Msg) (targets : list Conn)
  (dead : list Conn) : list Action * list Conn :=
  match targets with
  | [] => ([], dead)
  | conn :: rest =>
      let ok := negb (fails conn) in
      let '(acts, dead') :=
        send_loop fails msg rest (if ok then dead else dead ++ [conn]) in
      (Send conn msg ok :: acts, dead')
  end.

(** The second loop: [rooms_connections[room_id].discard(conn)] for each
    collected socket.  [dead] is non-empty only when the first loop ran over
    a non-empty [rooms_connections[room_id]], so the subscript finds its key
    (lemma [send_loop_dead_elem]). *)
Fixpoint discard_loop (room_id : string) (dead : list Conn)
  (conns : gmap string (gset Conn)) : gmap string (gset Conn) :=
  match dead with
  | [] => conns
  | conn :: rest =>
      discard_loop room_id rest (alter (λ s, s ∖ {[conn]}) room_id conns)
  end.

Definition set_connections (h : Hub) (conns : gmap string (gset Conn)) : Hub :=
  mkHub (rooms_messages h) conns (rooms_owner h) (rooms_banned h)
        (rooms_user_sockets h) (rooms_user_meta h) (rooms_deleted h).

Definition broadcast (room_id : string) (msg : Msg) (fails : Conn → bool)
  (h : Hub) : Hub * list Action :=
  let '(acts, dead) := send_loop fails msg (elements (conns_of h room_id)) [] in
  (set_connections h (discard_loop room_id dead (rooms_connections h)), acts).

(** *** Moderation endpoints *)

(** [owner_id and owner_id != user["id"]] with
    [owner_id = rooms_owner.get(room_id)]. *)
Definition owner_forbids (h : Hub) (room_id : string) (user : User) : bool :=
  match rooms_owner h !! room_id with
  | Some owner_id =>
      negb (String.eqb owner_id "") && negb (String.eqb owner_id (user_id user))
  | None => false
  end.

(** [for ws in list(conns): try: await ws.close(code=code) except: pass]. *)
Definition close_all (code : Z) (conns : gset Conn) : list Action :=
  map (λ ws, Close ws code) (elements conns).

(** [new_room] (lines 759-765).  [fresh] is [str(uuid.uuid4())]. *)
Definition new_room (caller : option User) (fresh : string) (h : Hub)
  : Step HttpResult :=
  match caller with
  | None => mkStep h [] (HttpError 401)
  | Some user =>
      mkStep (mkHub (rooms_messages h) (rooms_connections h)
                    (<[fresh := user_id user]> (rooms_owner h))
                    (rooms_banned h) (rooms_user_sockets h) (rooms_user_meta h)
                    (rooms_deleted h ∖ {[fresh]}))
             [] (HttpRedirect ("/room/" +:+ fresh))
  end.

(** [chat_room] (lines 768-788). *)
Definition chat_room (caller : option User) (room_id : string) (h : Hub)
  : Step HttpResult :=
  match caller with
  | None => mkStep h [] (HttpError 401)
  | Some _ =>
      if negb (uuid_ok room_id) then mkStep h [] (HttpRedirect "/app")
      else if decide (room_id ∈ rooms_deleted h)
      then mkStep h [] (HttpRedirect "/app")
      else mkStep (ensure_room room_id h) [] HttpOk
  end.

(** [destroy_room] (lines 791-810). *)
Definition destroy_room (caller : option User) (room_id : string) (h : Hub)
  : Step HttpResult :=
  match caller with
  | None => mkStep h [] (HttpError 401)
  | Some user =>
      if owner_forbids h room_id user then mkStep h [] (HttpError 403)
      else
        mkStep (mkHub (delete room_id (rooms_messages h))
                      (delete room_id (rooms_connections h))
                      (delete room_id (rooms_owner h))
                      (delete room_id (rooms_banned h))
                      (delete room_id (rooms_user_sockets h))
                      (delete room_id (rooms_user_meta h))
                      ({[room_id]} ∪ rooms_deleted h))
               (close_all CLOSE_DESTROYED (conns_of h room_id))
               HttpOk
  end.

(** [kick_user] (lines 813-826). *)
Definition kick_user (caller : option User) (room_id uid : string) (h : Hub)
  : Step HttpResult :=
  match caller with
  | None => mkStep h [] (HttpError 401)
  | Some user =>
      if owner_forbids h room_id user then mkStep h [] (HttpError 403)
      else
        let h1 := ensure_room room_id h in
        mkStep h1 (close_all CLOSE_KICKED (user_sockets_of h1 room_id uid)) HttpOk
  end.

(** [rooms_banned[room_id].add(user_id)], after [ensure_room]. *)
Definition add_ban (room_id uid : string) (h : Hub) : Hub :=
  mkHub (rooms_messages h) (rooms_connections h) (rooms_owner h)
        (alter (λ s, {[uid]} ∪ s) room_id (rooms_banned h))
        (rooms_user_sockets h) (rooms_user_meta h) (rooms_deleted h).

(** [ban_user] (lines 829-843). *)
Definition ban_user (caller : option User) (room_id uid : string) (h : Hub)
  : Step HttpResult :=
  match caller with
  | None => mkStep h [] (HttpError 401)
  | Some user =>
      if owner_forbids h room_id user then mkStep h [] (HttpError 403)
      else
        let h1 := add_ban room_id uid (ensure_room room_id h) in
        mkStep h1 (close_all CLOSE_BANNED (user_sockets_of h1 room_id uid)) HttpOk
  end.

(** *** [websocket_endpoint]: connect (lines 899-953) *)

(** Lines 936-941: the three registrations of an accepted socket.
    [ensure_room] ran just before, so [rooms_connections[room_id]] exists. *)
Definition register (ws : Conn) (user : User) (room_id : string) (h : Hub) : Hub :=
  let sockets := setdefault room_id ∅ (rooms_user_sockets h) in
  let mine := default ∅ (sockets !! room_id) in
  let metas := setdefault room_id ∅ (rooms_user_meta h) in
  mkHub (rooms_messages h)
        (alter (λ s, {[ws]} ∪ s) room_id (rooms_connections h))
        (rooms_owner h)
        (rooms_banned h)
        (<[room_id :=
             <[user_id user := {[ws]} ∪ default ∅ (mine !! user_id user)]> mine]>
           sockets)
        (<[room_id :=
             <[user_id user := mkMeta (username user) (avatar_path user)]>
               (default ∅ (metas !! room_id))]>
           metas)
        (rooms_deleted h).

(** Lines 952-953: [for msg in rooms_messages.get(room_id, []):
    await ws.send_json(msg)].  The loop is outside every [try]: the first
    send that raises ends the coroutine.  The boolean tells whether the loop
    ran to its end.  [broken] is the state of the socket during the whole
    connect; [on_replayed], further down, takes the outcome of each send. *)
Fixpoint replay (ws : Conn) (broken : bool) (history : list Msg)
  : list Action * bool :=
  match history with
  | [] => ([], true)
  | msg :: rest =>
      if broken then ([Send ws msg false], false)
      else
        let '(acts, done) := replay ws broken rest in
        (Send ws msg true :: acts, done)
  end.

(** [session] is the row found for the [session] cookie: [None] when the
    cookie is missing (line 904) or matches no user (line 919). *)
Definition ws_connect (ws : Conn) (session : option User) (room_id : string)
  (ts : string) (fails : Conn → bool) (h : Hub) : Step WsOutcome :=
  match session with
  | None =>
      mkStep h [Close ws CLOSE_UNAUTHENTICATED] (WsRejected CLOSE_UNAUTHENTICATED)
  | Some user =>
      if negb (uuid_ok room_id) then
        mkStep h [Close ws CLOSE_INVALID_ROOM] (WsRejected CLOSE_INVALID_ROOM)
      else
        let h1 := ensure_room room_id h in
        if decide (room_id ∈ rooms_deleted h1) then
          mkStep h1 [Close ws CLOSE_TOMBSTONED] (WsRejected CLOSE_TOMBSTONED)
        else if decide (user_id user ∈ banned_of h1 room_id) then
          mkStep h1 [Close ws CLOSE_BANNED] (WsRejected CLOSE_BANNED)
        else
          let h2 := register ws user room_id h1 in
          let '(h3, announced) := broadcast room_id (joined_event user ts) fails h2 in
          let '(replayed, done) := replay ws (fails ws) (history_of h3 room_id) in
          mkStep h3 (announced ++ replayed) (if done then WsActive else WsRaised)
  end.

(** *** [websocket_endpoint]: teardown (lines 1070-1081 and 1083-1094) *)

(** [rooms_user_sockets.get(room_id, {}).get(uid, set()).discard(ws)]: the
    stored set is changed when both keys exist, a fresh default otherwise. *)
Definition discard_user_socket (ws : Conn) (room_id uid : string)
  (sockets : gmap string (gmap string (gset Conn)))
  : gmap string (gmap string (gset Conn)) :=
  alter (alter (λ s, s ∖ {[ws]}) uid) room_id sockets.

(** [rooms_user_meta.get(room_id, {}).pop(uid, None)]. *)
Definition pop_user_meta (room_id uid : string)
  (metas : gmap string (gmap string Meta)) : gmap string (gmap string Meta) :=
  alter (delete uid) room_id metas.

(** The body shared by the two [except] branches.  [None] is the [KeyError]
    of [rooms_connections[room_id]] on its first line. *)
Definition leave (ws : Conn) (user : User) (room_id : string) (ts : string)
  (fails : Conn → bool) (h : Hub) : option (Hub * list Action) :=
  match rooms_connections h !! room_id with
  | None => None
  | Some conns =>
      let h1 :=
        mkHub (rooms_messages h)
              (<[room_id := conns ∖ {[ws]}]> (rooms_connections h))
              (rooms_owner h) (rooms_banned h)
              (discard_user_socket ws room_id (user_id user) (rooms_user_sockets h))
              (rooms_user_meta h) (rooms_deleted h) in
      if decide (user_sockets_of h1 room_id (user_id user) = ∅) then
        let h2 :=
          mkHub (rooms_messages h1) (rooms_connections h1) (rooms_owner h1)
                (rooms_banned h1) (rooms_user_sockets h1)
                (pop_user_meta room_id (user_id user) (rooms_user_meta h1))
                (rooms_deleted h1) in
        Some (broadcast room_id (left_event user ts) fails h2)
      else Some (h1, [])
  end.

(** [except WebSocketDisconnect] (lines 1069-1081). *)
Definition ws_disconnect (ws : Conn) (user : User) (room_id : string)
  (ts : string) (fails : Conn → bool) (h : Hub) : Step WsOutcome :=
  match leave ws user room_id ts fails h with
  | None => mkStep h [] WsRaised
  | Some (h', acts) => mkStep h' acts WsEnded
  end.

(** [except Exception] (lines 1082-1098). *)
Definition ws_error (ws : Conn) (user : User) (room_id : string)
  (ts : string) (fails : Conn → bool) (h : Hub) : Step WsOutcome :=
  match leave ws user room_id ts fails h with
  | None => mkStep h [] WsRaised
  | Some (h', acts) => mkStep h' (acts ++ [Close ws CLOSE_SERVER_ERROR]) WsEnded
  end.

(** *** [websocket_endpoint]: one turn of the receive loop (lines 957-1068) *)

(** [rooms_messages[room_id].append(msg)]; [None] is its [KeyError]. *)
Definition append_history (room_id : string) (msg : Msg) (h : Hub) : option Hub :=
  match rooms_messages h !! room_id with
  | None => None
  | Some history =>
      Some (mkHub (<[room_id := history ++ [msg]]> (rooms_messages h))
                  (rooms_connections h) (rooms_owner h) (rooms_banned h)
                  (rooms_user_sockets h) (rooms_user_meta h) (rooms_deleted h))
  end.

(** [receive_text] returned [data].  [ts] is the [now_iso ()] of the event,
    [ts'] the one of the teardown when the append raises. *)
Definition ws_receive (ws : Conn) (user : User) (room_id : string)
  (data : string) (ts ts' : string) (fails : Conn → bool) (h : Hub)
  : Step WsOutcome :=
  let msg := build_msg data user ts in
  match append_history room_id msg h with
  | None => ws_error ws user room_id ts' fails h
  | Some h1 =>
      let '(h2, acts) := broadcast room_id msg fails h1 in
      mkStep h2 acts WsActive
  end.

(** ** Runs of the hub *)

(** One request or one socket event, with everything the environment
    decides: who calls, the id [uuid4] draws, the time, the broken sockets. *)
Inductive Op :=
| OpNewRoom (caller : option User) (fresh : string)
| OpChatRoom (caller : option User) (room_id : string)
| OpDestroy (caller : option User) (room_id : string)
| OpKick (caller : option User) (room_id uid : string)
| OpBan (caller : option User) (room_id uid : string)
| OpConnect (ws : Conn) (session : option User) (room_id ts : string)
    (fails : Conn → bool)
| OpReceive (ws : Conn) (user : User) (room_id data ts ts' : string)
    (fails : Conn → bool)
| OpDisconnect (ws : Conn) (user : User) (room_id ts : string)
    (fails : Conn → bool)
| OpError (ws : Conn) (user : User) (room_id ts : string)
    (fails : Conn → bool).

Definition forget {R} (s : Step R) : Hub * list Action :=
  (hub_after s, actions s).

Definition apply_op (op : Op) (h : Hub) : Hub * list Action :=
  match op with
  | OpNewRoom caller fresh => forget (new_room caller fresh h)
  | OpChatRoom caller room_id => forget (chat_room caller room_id h)
  | OpDestroy caller room_id => forget (destroy_room caller room_id h)
  | OpKick caller room_id uid => forget (kick_user caller room_id uid h)
  | OpBan caller room_id uid => forget (ban_user caller room_id uid h)
  | OpConnect ws session room_id ts fails =>
      forget (ws_connect ws session room_id ts fails h)
  | OpReceive ws user room_id data ts ts' fails =>
      forget (ws_receive ws user room_id data ts ts' fails h)
  | OpDisconnect ws user room_id ts fails =>
      forget (ws_disconnect ws user room_id ts fails h)
  | OpError ws user room_id ts fails =>
      forget (ws_error ws user room_id ts fails h)
  end.

(** The handlers run one after the other, each to its end: the runs in
    which no coroutine is resumed between two [await]s of another.  [wrun],
    further down, interleaves the coroutines. *)
Fixpoint run (ops : list Op) (h : Hub) : Hub * list Action :=
  match ops with
  | [] => (h, [])
  | op :: rest =>
      let '(h1, acts1) := apply_op op h in
      let '(h2, acts2) := run rest h1 in
      (h2, acts1 ++ acts2)
  end.

(** The events a socket was successfully sent, in order. *)
Fixpoint delivered_to (ws : Conn) (acts : list Action) : list Msg :=
  match acts with
  | [] => []
  | Send c m true :: rest =>
      if Nat.eqb c ws then m :: delivered_to ws rest else delivered_to ws rest
  | _ :: rest => delivered_to ws rest
  end.

(** The sends attempted in [acts], with their target. *)
Fixpoint attempts (acts : list Action) : list (Conn * Msg) :=
  match acts with
  | [] => []
  | Send c m _ :: rest => (c, m) :: attempts rest
  | Close _ _ :: rest => attempts rest
  end.

End Hub.

Arguments ws_connect : simpl never.
Arguments ws_receive : simpl never.
Arguments ws_disconnect : simpl never.
Arguments ws_error : simpl never.
Arguments broadcast : simpl never.
Arguments ensure_room : simpl never.
Arguments register : simpl never.

(** ** Predicates used to state the properties *)

(** Two hubs show the same membership: in every room the same sockets, the
    same sockets per user, the same user metadata and the same history, read
    with the defaults the handlers read them with. *)
Definition same_membership (h h' : Hub) : Prop :=
  ∀ r u,
    conns_of h' r = conns_of h r ∧
    user_sockets_of h' r u = user_sockets_of h r u ∧
    user_meta_of h' r u = user_meta_of h r u ∧
    history_of h' r = history_of h r.

(** No dictionary has an entry for the room and it is not tombstoned. *)
Definition room_absent (h : Hub) (room_id : string) : Prop :=
  rooms_messages h !! room_id = None ∧
  rooms_connections h !! room_id = None ∧
  rooms_owner h !! room_id = None ∧
  rooms_banned h !! room_id = None ∧
  rooms_user_sockets h !! room_id = None ∧
  rooms_user_meta h !! room_id = None ∧
  room_id ∉ rooms_deleted h.

(** [op] is a [new_room] by a logged-in caller for which [uuid4] drew
    [room_id]. *)
Definition redraws (room_id : string) (op : Op) : bool :=
  match op with
  | OpNewRoom (Some _) fresh => String.eqb fresh room_id
  | _ => false
  end.

(** The frames [datas], received one after the other from one socket. *)
Definition receive_all (ws : Conn) (user : User) (room_id ts ts' : string)
  (fails : Conn → bool) (datas : list string) : list Op :=
  map (λ data, OpReceive ws user room_id data ts ts' fails) datas.

(** Every entry the four membership dictionaries of [h] hold is held
    unchanged by [h']. *)
Definition keeps_entries (h h' : Hub) : Prop :=
  ∀ r,
    (∀ x, rooms_connections h !! r = Some x → rooms_connections h' !! r = Some x) ∧
    (∀ x, rooms_user_sockets h !! r = Some x → rooms_user_sockets h' !! r = Some x) ∧
    (∀ x, rooms_user_meta h !! r = Some x → rooms_user_meta h' !! r = Some x) ∧
    (∀ x, rooms_messages h !! r = Some x → rooms_messages h' !! r = Some x).

(** The room is tombstoned and no socket is registered in it. *)
Definition sealed (room_id : string) (h : Hub) : Prop :=
  room_id ∈ rooms_deleted h ∧ conns_of h room_id = ∅.

(** The code a connect to a tombstoned room is closed with: the tombstone
    check comes after the session and the id checks. *)
Definition sealed_close_code {lib : Library} (session : option User)
  (room_id : string) : Z :=
  match session with
  | None => CLOSE_UNAUTHENTICATED
  | Some _ => if uuid_ok room_id then CLOSE_TOMBSTONED else CLOSE_INVALID_ROOM
  end.

(** Every action of the list closes a socket of [conns] with [code]. *)
Definition only_closes (code : Z) (conns : gset Conn) (acts : list Action) : Prop :=
  ∀ a, a ∈ acts → ∃ ws, a = Close ws code ∧ ws ∈ conns.

(** ** The rest of the room endpoints *)

(** One entry of the list [room_online] answers with. *)
Record OnlineUser := mkOnline {
  online_id : string;
  online_username : string;
  online_avatar : string
}.

(** The answer of an endpoint that returns a body. *)
Inductive Reply (A : Type) :=
| Reply200 (body : A)
| ReplyError (status : Z).
Arguments Reply200 {A} _.
Arguments ReplyError {A} _.

(** Lines 891-894: [info = meta.get(uid, {"username": uid, "avatar": ""})]
    and the dict built from it.  A stored [Meta] has both keys. *)
Definition online_entry (metas : gmap string Meta) (uid : string) : OnlineUser :=
  match metas !! uid with
  | Some info => mkOnline uid (meta_username info) (meta_avatar info)
  | None => mkOnline uid uid ""
  end.

(** The loop of lines 889-894 over [rooms_user_sockets.get(room_id, {}).items()]:
    the users whose socket set is not empty.  The list comes in the order of
    the model's dictionary, not in the insertion order of the source's. *)
Definition online_users (h : Hub) (room_id : string) : list OnlineUser :=
  let metas := default ∅ (rooms_user_meta h !! room_id) in
  omap (λ '(uid, sockets),
          if decide (sockets = (∅ : gset Conn)) then None
          else Some (online_entry metas uid))
       (map_to_list (default ∅ (rooms_user_sockets h !! room_id))).

(** [room_online] (lines 881-895).  [not owner] holds for a missing owner
    and for an empty one. *)
Definition room_online (caller : option User) (room_id : string) (h : Hub)
  : Reply (list OnlineUser) :=
  match caller with
  | None => ReplyError 401
  | Some _ =>
      match rooms_owner h !! room_id with
      | None => ReplyError 404
      | Some owner =>
          if String.eqb owner "" then ReplyError 404
          else Reply200 (online_users h room_id)
      end
  end.

(** The captcha of [home] (lines 257-259): [u1] and [u2] are the two
    [uuid.uuid4().int] drawn; the result is [(a, b)], and the cookie holds
    [str(a + b)]. *)
Definition captcha_terms (u1 u2 : Z) : Z * Z :=
  (u1 `mod` 9 + 1, (u2 `div` 10) `mod` 9 + 1)%Z.

Definition captcha_answer (u1 u2 : Z) : Z :=
  ((captcha_terms u1 u2).1 + (captcha_terms u1 u2).2)%Z.

(** ** More predicates *)

(** One inbound text frame: the socket it came in on, the user of that
    socket, the text, and the time it was stamped with. *)
Record Frame := mkFrame {
  frame_ws : Conn;
  frame_user : User;
  frame_data : string;
  frame_ts : string
}.


(** The events built from a list of frames, in order. *)
Definition events_of {lib : Library} (frames : list Frame) : list Msg :=
  map (λ f, build_msg (frame_data f) (frame_user f) (frame_ts f)) frames.


(** Every socket of a room is in the socket set of some user of that room,
    and every user with a socket has metadata. *)
Definition registered (h : Hub) : Prop :=
  (∀ r c, c ∈ conns_of h r → ∃ u, c ∈ user_sockets_of h r u) ∧
  (∀ r u, user_sockets_of h r u ≠ ∅ → is_Some (user_meta_of h r u)).

(** The event is of one of the six kinds a client can send, stamped with
    the user and the time of the server. *)
Definition content_event (user : User) (ts : string) (msg : Msg) : Prop :=
  (∃ kind, kind ∈ recognized_kinds ∧ dict_get "type" msg = Some (JStr kind)) ∧
  dict_get "user_id" msg = Some (JStr (user_id user)) ∧
  dict_get "username" msg = Some (JStr (username user)) ∧
  dict_get "ts" msg = Some (JStr ts).

(** No stored event is a [system] event. *)
Definition no_system_event (h : Hub) : Prop :=
  ∀ r msg, msg ∈ history_of h r → dict_get "type" msg ≠ Some (JStr "system").

(** [op] is a [destroy_room] of [room_id] called by the user [owner]. *)
Definition destroyed_by (owner room_id : string) (op : Op) : bool :=
  match op with
  | OpDestroy (Some u) r => String.eqb r room_id && String.eqb (user_id u) owner
  | _ => false
  end.

(** [op] is a [destroy_room] of [room_id] by a logged-in caller. *)
Definition destroys (room_id : string) (op : Op) : bool :=
  match op with
  | OpDestroy (Some _) r => String.eqb r room_id
  | _ => false
  end.

(** The frame [op] brings to [room_id], if it is one. *)
Definition frame_in (room_id : string) (op : Op) : option Frame :=
  match op with
  | OpReceive ws user r data ts _ _ =>
      if String.eqb r room_id then Some (mkFrame ws user data ts) else None
  | _ => None
  end.

(** The frames a run brings to [room_id], in order. *)
Definition frames_in (room_id : string) (ops : list Op) : list Frame :=
  omap (frame_in room_id) ops.

(** The user is banned from the room, or the room is tombstoned. *)
Definition shut_out (uid room_id : string) (h : Hub) : Prop :=
  uid ∈ banned_of h room_id ∨ room_id ∈ rooms_deleted h.

(** The hub after the two [discard]s of a teardown (lines 1070-1071),
    [conns] being [rooms_connections[room_id]]. *)
Definition after_discards (ws : Conn) (uid room_id : string) (conns : gset Conn)
  (h : Hub) : Hub :=
  mkHub (rooms_messages h)
        (<[room_id := conns ∖ {[ws]}]> (rooms_connections h))
        (rooms_owner h) (rooms_banned h)
        (discard_user_socket ws room_id uid (rooms_user_sockets h))
        (rooms_user_meta h) (rooms_deleted h).

(** The hub after the [pop] of line 1073. *)
Definition after_pop (uid room_id : string) (h : Hub) : Hub :=
  mkHub (rooms_messages h) (rooms_connections h) (rooms_owner h)
        (rooms_banned h) (rooms_user_sockets h)
        (pop_user_meta room_id uid (rooms_user_meta h))
        (rooms_deleted h).

(** ** The websocket handler as a coroutine

    The handlers above run to their end in one step: they say what a
    request or a socket event does when no other handler runs before it is
    over.  In the source [websocket_endpoint] is a coroutine.  It is
    suspended at every [await], the coroutines of the other sockets run in
    the meantime, and all of them work on the same dictionaries.  The
    definitions below follow each coroutine from one [await] to the next
    and let the environment choose which coroutine goes on.

    - Only the coroutines of [websocket_endpoint] take part; the HTTP
      endpoints are not part of these runs.
    - A coroutine is followed from the moment [ws.accept ()] has returned.
    - A [send_json] is recorded when it returns or raises, not when it is
      called.  A [close] is the last thing a coroutine does where it occurs:
      it is recorded with the step that calls it. *)

(** The loop [for conn in rooms_connections.get(room_id, set())] suspended
    at the [await conn.send_json(msg)] of its body (lines 204-206 and
    1062-1064): the iterator and the list [dead].  The iterator walks the
    set object itself, not a copy of it. *)
Record Pass := mkPass {
  pass_msg : Msg;
  pass_over : gset Conn;     (* the set when the loop began *)
  pass_todo : list Conn;     (* what the iterator has not produced yet *)
  pass_dead : list Conn      (* [dead] *)
}.

(** What asking the iterator of a set for its next element gives. *)
Inductive Next :=
| NextItem (conn : Conn) (rest : list Conn)
| NextStop        (* StopIteration: the loop is over *)
| NextRaise       (* RuntimeError: Set changed size during iteration *)
| NextUnknown.    (* changed, but of the same size *)

(** CPython's set iterator compares the size of the set with the size it
    had when the loop began, and raises [RuntimeError] when they differ;
    it does so before it looks for an element, also when none is left.  On
    a set that was not changed it produces the elements one by one.  On a
    set that has its old size but other elements it goes on without an
    error; what it produces then depends on the layout of the hash table,
    which is not modelled: that is [NextUnknown].  A socket is added to a
    connection set once in its life (line 936), so the elements a set has
    lost do not come back; a set that has the elements it began with again,
    because a socket joined and left in the meantime, is taken for
    unchanged. *)
Definition set_next (over : gset Conn) (todo : list Conn) (now : gset Conn)
  : Next :=
  if decide (size now = size over) then
    if decide (now = over) then
      match todo with
      | [] => NextStop
      | conn :: rest => NextItem conn rest
      end
    else NextUnknown
  else NextRaise.

(** The loop a pass belongs to. *)
Inductive Site :=
| InJoin                          (* [broadcast] called at line 943 *)
| InFanout                        (* the loop of lines 1062-1066 *)
| InLeave (after_error : bool).   (* [broadcast] called at line 1074
                                     ([false]) or at line 1087 ([true]) *)

(** Where a coroutine is suspended, or how it ended. *)
Inductive Pc :=
| AtSend (site : Site) (conn : Conn) (p : Pass)
                          (* at [await conn.send_json(msg)] inside a pass *)
| AtReplay (i : nat) (msg : Msg)
                          (* at [await ws.send_json(msg)], line 953, [msg]
                             being item [i] of the history *)
| AtReceive               (* at [await ws.receive_text ()], line 958 *)
| Returned                (* the coroutine returned *)
| Raised                  (* an exception left the coroutine *)
| Unknown.                (* after [NextUnknown] *)

(** What a coroutine does between two [await]s. *)
Record Turn := mkTurn {
  turn_hub : Hub;
  turn_pc : Pc;
  turn_actions : list Action
}.

(** One coroutine: its user, its room, and where it is. *)
Record Task := mkTask {
  task_user : User;
  task_room : string;
  task_pc : Pc
}.

(** The dictionaries and the coroutines, by socket. *)
Record World := mkWorld {
  hub : Hub;
  tasks : gmap Conn Task
}.

Definition empty_world : World := mkWorld empty_hub ∅.

(** What resumes a coroutine.  Each event names the socket whose coroutine
    goes on, and carries what [now_iso ()] returns while it runs. *)
Inductive Event :=
| EvOpen (ws : Conn) (session : option User) (room_id ts : string)
                          (* [ws.accept ()] returned *)
| EvSent (ws : Conn) (ok : bool) (ts : string)
                          (* the [send_json] the coroutine of [ws] awaits
                             returned ([ok]) or raised *)
| EvFrame (ws : Conn) (data ts ts' : string)
                          (* [receive_text] returned [data] *)
| EvDisconnect (ws : Conn) (ts : string)
                          (* [receive_text] raised [WebSocketDisconnect] *)
| EvError (ws : Conn) (ts : string).
                          (* [receive_text] raised another exception *)

Section Coroutines.

Context {lib : Library}.

(** The second loop of a pass (lines 209-210 and 1067-1068). *)
Definition sweep (room_id : string) (dead : list Conn) (h : Hub) : Hub :=
  set_connections h (discard_loop room_id dead (rooms_connections h)).

(** A pass at the head of its loop. *)
Definition begin_pass (room_id : string) (msg : Msg) (h : Hub) : Pass :=
  mkPass msg (conns_of h room_id) (elements (conns_of h room_id)) [].

(** The [for] statement of lines 952-953, asking the iterator of the list
    for item [i].  The list is the one in [rooms_messages]: items appended
    to it meanwhile are found. *)
Definition replay_next (room_id : string) (i : nat) (h : Hub) : Turn :=
  match history_of h room_id !! i with
  | Some msg => mkTurn h (AtReplay i msg) []
  | None => mkTurn h AtReceive []
  end.

(** What follows a pass that came to its end. *)
Definition after_pass (site : Site) (ws : Conn) (room_id : string) (h : Hub)
  : Turn :=
  match site with
  | InJoin => replay_next room_id 0 h
  | InFanout => mkTurn h AtReceive []
  | InLeave false => mkTurn h Returned []
  | InLeave true => mkTurn h Returned [Close ws CLOSE_SERVER_ERROR]
  end.

(** The [for] statement of a pass: the next socket to send to; or the end
    of the loop, then the second loop and what follows the pass; or the
    [RuntimeError] of the iterator, which no [try] of the pass covers:
    [on_raise] is what the caller does with it. *)
Definition pass_next (site : Site) (ws : Conn) (room_id : string) (p : Pass)
  (h : Hub) (on_raise : Turn) : Turn :=
  match set_next (pass_over p) (pass_todo p) (conns_of h room_id) with
  | NextItem conn rest =>
      mkTurn h (AtSend site conn
                  (mkPass (pass_msg p) (pass_over p) rest (pass_dead p))) []
  | NextStop => after_pass site ws room_id (sweep room_id (pass_dead p) h)
  | NextRaise => on_raise
  | NextUnknown => mkTurn h Unknown []
  end.

(** The two [except] branches (lines 1069-1081 and 1082-1098), from their
    first line to the first [await].  An exception raised inside an
    [except] branch leaves the coroutine. *)
Definition teardown (after_error : bool) (ws : Conn) (user : User)
  (room_id ts : string) (h : Hub) : Turn :=
  match rooms_connections h !! room_id with
  | None => mkTurn h Raised []
  | Some conns =>
      let h1 := after_discards ws (user_id user) room_id conns h in
      if decide (user_sockets_of h1 room_id (user_id user) = ∅) then
        let h2 := after_pop (user_id user) room_id h1 in
        pass_next (InLeave after_error) ws room_id
          (begin_pass room_id (left_event user ts) h2) h2 (mkTurn h2 Raised [])
      else after_pass (InLeave after_error) ws room_id h1
  end.

(** Lines 903-943, from the return of [accept] to the first [await]. *)
Definition ws_open (ws : Conn) (session : option User) (room_id ts : string)
  (h : Hub) : Turn :=
  match session with
  | None => mkTurn h Returned [Close ws CLOSE_UNAUTHENTICATED]
  | Some user =>
      if negb (uuid_ok room_id) then
        mkTurn h Returned [Close ws CLOSE_INVALID_ROOM]
      else
        let h1 := ensure_room room_id h in
        if decide (room_id ∈ rooms_deleted h1) then
          mkTurn h1 Returned [Close ws CLOSE_TOMBSTONED]
        else if decide (user_id user ∈ banned_of h1 room_id) then
          mkTurn h1 Returned [Close ws CLOSE_BANNED]
        else
          let h2 := register ws user room_id h1 in
          pass_next InJoin ws room_id
            (begin_pass room_id (joined_event user ts) h2) h2
            (mkTurn h2 Raised [])
  end.

(** Lines 958-1064, from the return of [receive_text] to the first
    [await].  The loop of the fan-out is inside the [try] of line 956: what
    it raises goes to [except Exception]. *)
Definition on_frame (ws : Conn) (user : User) (room_id data ts ts' : string)
  (h : Hub) : Turn :=
  let msg := build_msg data user ts in
  match append_history room_id msg h with
  | None => teardown true ws user room_id ts' h
  | Some h1 =>
      pass_next InFanout ws room_id (begin_pass room_id msg h1) h1
        (teardown true ws user room_id ts' h1)
  end.

(** A [send_json] inside a pass returned or raised: the [except] of the
    body appends to [dead], then the [for] statement runs again. *)
Definition on_sent (ws : Conn) (user : User) (room_id ts : string)
  (site : Site) (conn : Conn) (p : Pass) (ok : bool) (h : Hub) : Turn :=
  let dead := if ok then pass_dead p else pass_dead p ++ [conn] in
  let t :=
    pass_next site ws room_id
      (mkPass (pass_msg p) (pass_over p) (pass_todo p) dead) h
      match site with
      | InFanout => teardown true ws user room_id ts h
      | _ => mkTurn h Raised []
      end in
  mkTurn (turn_hub t) (turn_pc t) (Send conn (pass_msg p) ok :: turn_actions t).

(** The [send_json] of the replay returned or raised.  Line 953 is inside
    no [try]. *)
Definition on_replayed (ws : Conn) (room_id : string) (i : nat) (msg : Msg)
  (ok : bool) (h : Hub) : Turn :=
  if ok then
    let t := replay_next room_id (S i) h in
    mkTurn (turn_hub t) (turn_pc t) (Send ws msg true :: turn_actions t)
  else mkTurn h Raised [Send ws msg false].

(** The world after a turn of the coroutine of [ws]. *)
Definition settled (ws : Conn) (user : User) (room_id : string) (t : Turn)
  (w : World) : World :=
  mkWorld (turn_hub t) (<[ws := mkTask user room_id (turn_pc t)]> (tasks w)).

Definition settle (ws : Conn) (user : User) (room_id : string) (t : Turn)
  (w : World) : World * list Action :=
  (settled ws user room_id t w, turn_actions t).

(** One step of the world.  An event that does not fit the place where the
    coroutine is suspended is no step; a socket is opened once; a coroutine
    that ended does nothing more. *)
Definition wstep (ev : Event) (w : World) : World * list Action :=
  match ev with
  | EvOpen ws session room_id ts =>
      match tasks w !! ws with
      | Some _ => (w, [])
      | None =>
          let t := ws_open ws session room_id ts (hub w) in
          match session with
          | Some user => settle ws user room_id t w
          | None => (mkWorld (turn_hub t) (tasks w), turn_actions t)
          end
      end
  | EvSent ws ok ts =>
      match tasks w !! ws with
      | Some (mkTask user room_id (AtSend site conn p)) =>
          settle ws user room_id
            (on_sent ws user room_id ts site conn p ok (hub w)) w
      | Some (mkTask user room_id (AtReplay i msg)) =>
          settle ws user room_id (on_replayed ws room_id i msg ok (hub w)) w
      | _ => (w, [])
      end
  | EvFrame ws data ts ts' =>
      match tasks w !! ws with
      | Some (mkTask user room_id AtReceive) =>
          settle ws user room_id (on_frame ws user room_id data ts ts' (hub w)) w
      | _ => (w, [])
      end
  | EvDisconnect ws ts =>
      match tasks w !! ws with
      | Some (mkTask user room_id AtReceive) =>
          settle ws user room_id (teardown false ws user room_id ts (hub w)) w
      | _ => (w, [])
      end
  | EvError ws ts =>
      match tasks w !! ws with
      | Some (mkTask user room_id AtReceive) =>
          settle ws user room_id (teardown true ws user room_id ts (hub w)) w
      | _ => (w, [])
      end
  end.

(** The events of a schedule, one after the other. *)
Fixpoint wrun (evs : list Event) (w : World) : World * list Action :=
  match evs with
  | [] => (w, [])
  | ev :: rest =>
      let '(w1, acts1) := wstep ev w in
      let '(w2, acts2) := wrun rest w1 in
      (w2, acts1 ++ acts2)
  end.

(** The events that carry a pass of the coroutine of [ws] over [targets]
    when nothing else happens: one [EvSent] per socket, which fails where
    [fails] says. *)
Definition pass_events (ws : Conn) (ts : string) (fails : Conn → bool)
  (targets : list Conn) : list Event :=
  map (λ conn, EvSent ws (negb (fails conn)) ts) targets.

(** The events that carry a replay of [n] items to its end. *)
Definition replay_events (ws : Conn) (ts : string) (n : nat) : list Event :=
  replicate n (EvSent ws true ts).

(** The place where the coroutine of [ws] is, if it has one. *)
Definition pc_of (w : World) (ws : Conn) : option Pc :=
  task_pc <$> tasks w !! ws.

(** The socket whose coroutine an event resumes. *)
Definition event_ws (ev : Event) : Conn :=
  match ev with
  | EvOpen ws _ _ _ => ws
  | EvSent ws _ _ => ws
  | EvFrame ws _ _ _ => ws
  | EvDisconnect ws _ => ws
  | EvError ws _ => ws
  end.

End Coroutines.

Arguments wstep : simpl never.
Arguments pass_next : simpl never.
Arguments teardown : simpl never.
Arguments ws_open : simpl never.
Arguments on_frame : simpl never.
Arguments on_sent : simpl never.

(** ** A concrete environment and concrete inputs

    The library functions instantiated on the few values the examples
    below feed them, and the users, sockets and room ids of the examples. *)

Module Demo.

(** The canonical 8-4-4-4-12 spelling, which [uuid.UUID] accepts. *)
Definition is_hex (c : Ascii.ascii) : bool :=
  let n := Ascii.nat_of_ascii c in
  (Nat.leb 48 n && Nat.leb n 57) || (Nat.leb 97 n && Nat.leb n 102)
  || (Nat.leb 65 n && Nat.leb n 70).

Fixpoint canonical_from (pos : nat) (s : string) : bool :=
  match s with
  | EmptyString => Nat.eqb pos 36
  | String c rest =>
      (if existsb (Nat.eqb pos) [8; 13; 18; 23]
       then Nat.eqb (Ascii.nat_of_ascii c) 45 else is_hex c)
      && canonical_from (S pos) rest
  end.

Definition uuid_canonical (room_id : string) : bool := canonical_from 0 room_id.

(** [json.loads] on the frames of the examples; every other frame used
    below is not JSON. *)
Definition loads_table (data : string) : option JValue :=
  if String.eqb data "[1]" then Some (JArr [JInt 1])
  else if String.eqb data "{}" then Some (JObj [])
  else if String.eqb data "null" then Some JNull
  else None.

(** [float] on a float and on the default [0] of the [location] branch. *)
Definition float_table (v : JValue) : option float64 :=
  match v with
  | JFloat f => Some f
  | JInt 0 => Some (Float64 0)
  | _ => None
  end.

Definition library : Library := Build_Library uuid_canonical loads_table float_table.

Definition alice : User := mkUser "u-alice" "alice" "".
Definition bob : User := mkUser "u-bob" "bob" "/uploads/bob.png".

Definition room : string := "6f1c2a34-9b7d-4e51-8c3a-0d2e4f6a8b10".

(** No socket is broken. *)
Definition healthy : Conn → bool := λ _, false.
(** Exactly socket [ws] is broken. *)
Definition broken (ws : Conn) : Conn → bool := λ c, Nat.eqb c ws.

(** Alice creates [room]; she joins from socket 1 and says hello. *)
Definition one_device : Hub :=
  (run (lib := library)
     [OpNewRoom (Some alice) room;
      OpConnect 1 (Some alice) room "t1" healthy;
      OpReceive 1 alice room "hello" "t2" "t2" healthy]
     empty_hub).1.

(** Then Bob joins from socket 2. *)
Definition two_users : Hub :=
  (run (lib := library)
     [OpConnect 2 (Some bob) room "t3" healthy] one_device).1.

End Demo.

(** ** More concrete inputs *)

Module Scenes.

(** The double quote. *)
Definition quote : string := String (Ascii.ascii_of_nat 34) "".

(** The frame [{"type":"location","lat":"north"}]. *)
Definition location_frame : string :=
  "{" +:+ quote +:+ "type" +:+ quote +:+ ":" +:+ quote +:+ "location" +:+ quote
  +:+ "," +:+ quote +:+ "lat" +:+ quote +:+ ":" +:+ quote +:+ "north" +:+ quote
  +:+ "}".

(** [json.loads] on that frame and on the frames of [Demo]. *)
Definition loads_table (data : string) : option JValue :=
  if String.eqb data location_frame
  then Some (JObj [("type", JStr "location"); ("lat", JStr "north")])
  else Demo.loads_table data.

Definition library : Library :=
  Build_Library Demo.uuid_canonical loads_table Demo.float_table.

(** Another well-formed room id. *)
Definition other_room : string := "0a1b2c3d-0000-4000-8000-00000000beef".


Definition carol : User := mkUser "u-carol" "carol" "".
Definition dave : User := mkUser "u-dave" "dave" "".

(** Alice, Bob and Carol have joined [Demo.room] one after the other, on
    sockets 1, 2 and 3; their coroutines wait in the receive loop. *)
Definition three_waiting : World :=
  (wrun (lib := Demo.library)
     (EvOpen 1 (Some Demo.alice) Demo.room "t1"
      :: replicate 1 (EvSent 1 true "t1")
      ++ EvOpen 2 (Some Demo.bob) Demo.room "t2"
      :: replicate 2 (EvSent 2 true "t2")
      ++ EvOpen 3 (Some carol) Demo.room "t3"
      :: replicate 3 (EvSent 3 true "t3"))
     empty_world).1.

(** Alice is alone in [Demo.room] and has said two things. *)
Definition alice_talks : list Event :=
  [EvOpen 1 (Some Demo.alice) Demo.room "t1"; EvSent 1 true "t1";
   EvFrame 1 "first" "t2" "t2"; EvSent 1 true "t2";
   EvFrame 1 "second" "t3" "t3"; EvSent 1 true "t3"].

(** Bob joins on socket 2: the announcement goes to both sockets, and the
    replay is suspended at its first send. *)
Definition bob_joins : list Event :=
  [EvOpen 2 (Some Demo.bob) Demo.room "t4";
   EvSent 2 true "t4"; EvSent 2 true "t4"].



End Scenes.

(** * Properties *)

(** Decides a closed decidable proposition by evaluating it. *)
Ltac by_computation := apply (bool_decide_unpack _); vm_compute; exact I.

(** ** Dictionaries and [ensure_room] *)

Lemma setdefault_lookup {V} (k k' : string) (v : V) (d : gmap string V) :
  setdefault k v d !! k' =
  if decide (k = k') then Some (default v (d !! k)) else d !! k'.
Proof.
  unfold setdefault. destruct (d !! k) eqn:E; case_decide; subst; simpl.
  - by rewrite E.
  - done.
  - by rewrite lookup_insert_eq.
  - by rewrite lookup_insert_ne.
Qed.

Lemma setdefault_default {V} (k k' : string) (v : V) (d : gmap string V) :
  default v (setdefault k v d !! k') = default v (d !! k').
Proof.
  rewrite setdefault_lookup. case_decide; subst; [|done].
  by destruct (d !! k').
Qed.

Lemma ensure_room_conns room_id h r :
  conns_of (ensure_room room_id h) r = conns_of h r.
Proof. apply setdefault_default. Qed.

Lemma ensure_room_history room_id h r :
  history_of (ensure_room room_id h) r = history_of h r.
Proof. apply setdefault_default. Qed.

Lemma ensure_room_banned room_id h r :
  banned_of (ensure_room room_id h) r = banned_of h r.
Proof. apply setdefault_default. Qed.

Lemma ensure_room_user_sockets room_id h r uid :
  user_sockets_of (ensure_room room_id h) r uid = user_sockets_of h r uid.
Proof.
  unfold user_sockets_of, ensure_room; simpl. by rewrite setdefault_default.
Qed.

Lemma ensure_room_user_meta room_id h r uid :
  user_meta_of (ensure_room room_id h) r uid = user_meta_of h r uid.
Proof.
  unfold user_meta_of, ensure_room; simpl. by rewrite setdefault_default.
Qed.

(** ** [broadcast] *)

Lemma send_loop_actions fails msg targets dead :
  (send_loop fails msg targets dead).1 =
  map (λ c, Send c msg (negb (fails c))) targets.
Proof.
  revert dead. induction targets as [|c rest IH]; intros dead; [done|].
  simpl. specialize (IH (if negb (fails c) then dead else dead ++ [c])).
  destruct (send_loop _ _ rest _) as [acts dead']. simpl in *. by rewrite IH.
Qed.

Lemma send_loop_dead_elem fails msg targets dead c :
  c ∈ (send_loop fails msg targets dead).2 ↔
  c ∈ dead ∨ (c ∈ targets ∧ fails c = true).
Proof.
  revert dead. induction targets as [|t rest IH]; intros dead; simpl.
  - split; [by left|]. intros [?|[H _]]; [done|]. by apply elem_of_nil in H.
  - specialize (IH (if negb (fails t) then dead else dead ++ [t])).
    destruct (send_loop _ _ rest _) as [acts dead']. simpl in *.
    rewrite IH, elem_of_cons. destruct (fails t) eqn:Ft; simpl.
    + rewrite elem_of_app, list_elem_of_singleton. split.
      * intros [[?| ->]|[? ?]]; [by left|right; split; [by left|done]|].
        right. split; [by right|done].
      * intros [?|[[ -> |?] ?]]; [by left; left|by left; right|by right].
    + split.
      * intros [?|[? ?]]; [by left|]. right. split; [by right|done].
      * intros [?|[[ -> |?] F]]; [by left|congruence|by right].
Qed.

Lemma discard_loop_lookup room_id dead conns r :
  discard_loop room_id dead conns !! r =
  if decide (room_id = r)
  then (λ s, s ∖ list_to_set dead) <$> conns !! r
  else conns !! r.
Proof.
  revert conns. induction dead as [|c rest IH]; intros conns; simpl.
  - case_decide; [|done]. destruct (conns !! r); simpl; [|done].
    f_equal. set_solver.
  - rewrite IH. case_decide; subst.
    + rewrite lookup_alter_eq. destruct (conns !! r); simpl; [|done].
      f_equal. set_solver.
    + by rewrite lookup_alter_ne.
Qed.

(** The sockets of a room once a pass is over: those whose send succeeded. *)
Lemma broadcast_conns room_id msg fails h r c :
  c ∈ conns_of (broadcast room_id msg fails h).1 r ↔
  c ∈ conns_of h r ∧ (r = room_id → fails c = false).
Proof.
  unfold broadcast.
  pose proof (send_loop_dead_elem fails msg (elements (conns_of h room_id)) []) as Hd.
  destruct (send_loop _ _ _ _) as [acts dead]. simpl in *.
  unfold conns_of at 1. simpl. rewrite discard_loop_lookup.
  case_decide; subst.
  - fold (conns_of h r). unfold conns_of.
    destruct (rooms_connections h !! r) as [s|] eqn:E; simpl.
    + rewrite elem_of_difference, elem_of_list_to_set, Hd.
      unfold conns_of. rewrite E. simpl. rewrite elem_of_elements.
      split.
      * intros [Hin Hn]. split; [done|]. intros _.
        destruct (fails c) eqn:F; [|done]. exfalso. apply Hn. by right.
      * intros [Hin Hf]. split; [done|]. intros [H0|[_ F]].
        -- by apply elem_of_nil in H0.
        -- rewrite Hf in F; done.
    + set_solver.
  - fold (conns_of h r). split; [|by intros [? _]].
    intros ?. split; [done|]. intros ->. done.
Qed.

Lemma broadcast_actions room_id msg fails h :
  (broadcast room_id msg fails h).2 =
  map (λ c, Send c msg (negb (fails c))) (elements (conns_of h room_id)).
Proof.
  unfold broadcast.
  pose proof (send_loop_actions fails msg (elements (conns_of h room_id)) []) as Ha.
  destruct (send_loop _ _ _ _) as [acts dead]. done.
Qed.

(** A pass writes [rooms_connections] and nothing else. *)
Lemma broadcast_frame room_id msg fails h :
  let h' := (broadcast room_id msg fails h).1 in
  rooms_messages h' = rooms_messages h ∧
  rooms_owner h' = rooms_owner h ∧
  rooms_banned h' = rooms_banned h ∧
  rooms_user_sockets h' = rooms_user_sockets h ∧
  rooms_user_meta h' = rooms_user_meta h ∧
  rooms_deleted h' = rooms_deleted h.
Proof.
  unfold broadcast. destruct (send_loop _ _ _ _) as [acts dead]. done.
Qed.

Lemma attempts_sends msg (oks : Conn → bool) (targets : list Conn) :
  attempts (map (λ c, Send c msg (oks c)) targets) = map (λ c, (c, msg)) targets.
Proof. induction targets as [|c rest IH]; simpl; [done|]. by rewrite IH. Qed.

(** ** Registration and replay *)

Lemma register_conns ws user room_id h r :
  conns_of (register ws user room_id (ensure_room room_id h)) r =
  if decide (room_id = r) then {[ws]} ∪ conns_of h r else conns_of h r.
Proof.
  unfold conns_of, register, ensure_room; simpl. case_decide; subst.
  - rewrite lookup_alter_eq, setdefault_lookup. case_decide; [|done].
    simpl. by destruct (rooms_connections h !! r).
  - rewrite lookup_alter_ne by done. apply setdefault_default.
Qed.

Lemma register_user_sockets ws user room_id h r uid :
  user_sockets_of (register ws user room_id (ensure_room room_id h)) r uid =
  if decide (room_id = r ∧ user_id user = uid)
  then {[ws]} ∪ user_sockets_of h r uid
  else user_sockets_of h r uid.
Proof.
  unfold user_sockets_of, register, ensure_room; simpl.
  destruct (decide (room_id = r)) as [->|Hr].
  - rewrite lookup_insert_eq. simpl.
    rewrite !setdefault_default.
    destruct (decide (user_id user = uid)) as [->|Hu].
    + rewrite lookup_insert_eq. by rewrite decide_True by done.
    + rewrite lookup_insert_ne by done. by rewrite decide_False by tauto.
  - rewrite lookup_insert_ne by done. rewrite decide_False by tauto.
    by rewrite !setdefault_default.
Qed.


(** ** What a socket was delivered *)

Lemma delivered_to_app ws acts1 acts2 :
  delivered_to ws (acts1 ++ acts2) = delivered_to ws acts1 ++ delivered_to ws acts2.
Proof.
  induction acts1 as [|a rest IH]; simpl; [done|].
  destruct a as [c m [|]|c code]; simpl; try done.
  destruct (Nat.eqb c ws); simpl; by rewrite IH.
Qed.

Lemma delivered_to_replay ws history :
  delivered_to ws (map (λ m, Send ws m true) history) = history.
Proof.
  induction history as [|m rest IH]; simpl; [done|].
  by rewrite Nat.eqb_refl, IH.
Qed.


Lemma delivered_to_others ws msg (oks : Conn → bool) (targets : list Conn) :
  ws ∉ targets →
  delivered_to ws (map (λ c, Send c msg (oks c)) targets) = [].
Proof.
  induction targets as [|c rest IH]; simpl; [done|].
  rewrite not_elem_of_cons. intros [Hne Hrest].
  destruct (oks c); [|by apply IH].
  destruct (Nat.eqb_spec c ws) as [->|_]; [done|by apply IH].
Qed.


(** One pass over distinct sockets delivers the event once to a healthy
    member and not at all to anyone else. *)
Lemma delivered_to_pass ws msg (oks : Conn → bool) (targets : list Conn) :
  NoDup targets → ws ∈ targets → oks ws = true →
  delivered_to ws (map (λ c, Send c msg (oks c)) targets) = [msg].
Proof.
  induction targets as [|c rest IH]; simpl.
  - intros _ H. by apply elem_of_nil in H.
  - rewrite NoDup_cons, elem_of_cons. intros [Hc Hnd] Hin Hok.
    destruct (Nat.eqb_spec c ws) as [->|Hne].
    + rewrite Hok. by rewrite delivered_to_others.
    + destruct Hin as [->|Hin]; [done|].
      destruct (oks c); by apply IH.
Qed.

(** ** Moderation *)

Lemma close_all_only_closes code conns :
  only_closes code conns (close_all code conns) ∧ attempts (close_all code conns) = [].
Proof.
  unfold only_closes, close_all. split.
  - intros a. rewrite list_elem_of_fmap. intros (ws & -> & Hws).
    exists ws. by rewrite <- elem_of_elements.
  - induction (elements conns) as [|c rest IH]; simpl; done.
Qed.

Lemma same_membership_ensure_room room_id h :
  same_membership h (ensure_room room_id h).
Proof.
  intros r u.
  by rewrite ensure_room_conns, ensure_room_user_sockets,
       ensure_room_user_meta, ensure_room_history.
Qed.

Lemma setdefault_keeps {V} (k k' : string) (v x : V) (d : gmap string V) :
  d !! k' = Some x → setdefault k v d !! k' = Some x.
Proof.
  intros Hx. rewrite setdefault_lookup. case_decide; subst; [|done].
  by rewrite Hx.
Qed.

Lemma keeps_entries_ensure_room room_id h :
  keeps_entries h (ensure_room room_id h).
Proof. intros r. split_and!; intros x; apply setdefault_keeps. Qed.

Lemma add_ban_banned room_id uid h r :
  banned_of (add_ban room_id uid (ensure_room room_id h)) r =
  if decide (room_id = r) then {[uid]} ∪ banned_of h r else banned_of h r.
Proof.
  unfold banned_of, add_ban, ensure_room; simpl. case_decide; subst.
  - rewrite lookup_alter_eq, setdefault_lookup. case_decide; [|done].
    simpl. by destruct (rooms_banned h !! r).
  - rewrite lookup_alter_ne by done. apply setdefault_default.
Qed.

(** C10: neither [kick_user] nor [ban_user] touches membership.  After the
    call every room has the sockets, the per-user sockets, the user
    metadata and the history it had, and every entry those dictionaries
    held is still there unchanged; owners and tombstones are as before;
    [kick_user] leaves every ban set alone and [ban_user] changes only the
    ban set of its room, by adding the user.  The call sends no event: all
    it does to sockets is close those of the target user, which therefore
    stay registered until their own handlers tear them down.  A call that
    is let through (a logged-in caller the owner test does not stop) closes
    every socket the target user has in the room, each one once, with code
    4000 for a kick and 4003 for a ban; a call that is refused closes
    nothing. *)
Theorem C10_kick_and_ban_leave_membership_alone caller room_id uid h :
  let k := kick_user caller room_id uid h in
  let b := ban_user caller room_id uid h in
  same_membership h (hub_after k) ∧
  same_membership h (hub_after b) ∧
  keeps_entries h (hub_after k) ∧
  keeps_entries h (hub_after b) ∧
  (∀ r, banned_of (hub_after k) r = banned_of h r) ∧
  (∀ r, r ≠ room_id → banned_of (hub_after b) r = banned_of h r) ∧
  (outcome b = HttpOk →
   banned_of (hub_after b) room_id = {[uid]} ∪ banned_of h room_id) ∧
  (outcome b ≠ HttpOk → hub_after b = h) ∧
  (outcome k ≠ HttpOk → hub_after k = h) ∧
  rooms_owner (hub_after k) = rooms_owner h ∧
  rooms_owner (hub_after b) = rooms_owner h ∧
  rooms_deleted (hub_after k) = rooms_deleted h ∧
  rooms_deleted (hub_after b) = rooms_deleted h ∧
  attempts (actions k) = [] ∧
  attempts (actions b) = [] ∧
  only_closes CLOSE_KICKED (user_sockets_of h room_id uid) (actions k) ∧
  only_closes CLOSE_BANNED (user_sockets_of h room_id uid) (actions b) ∧
  (∀ user, caller = Some user → owner_forbids h room_id user = false →
     outcome k = HttpOk ∧ outcome b = HttpOk ∧
     (∀ ws, ws ∈ user_sockets_of h room_id uid →
            Close ws CLOSE_KICKED ∈ actions k) ∧
     (∀ ws, ws ∈ user_sockets_of h room_id uid →
            Close ws CLOSE_BANNED ∈ actions b) ∧
     NoDup (actions k) ∧ NoDup (actions b)) ∧
  (outcome k ≠ HttpOk → actions k = []) ∧
  (outcome b ≠ HttpOk → actions b = []).
Proof.
  assert (∀ code conns, only_closes code conns []) as Hnil.
  { intros code conns a Ha. by apply elem_of_nil in Ha. }
  assert (same_membership h h) as Hrefl by (by intros r u).
  assert (keeps_entries h h) as Hkeep by (by intros r).
  unfold kick_user, ban_user.
  destruct caller as [user|]; [|by split_and!].
  destruct (owner_forbids h room_id user) eqn:Hforbid.
  { split_and!; try done. intros user' [= <-]. congruence. }
  cbn [hub_after actions outcome].
  assert (same_membership h (add_ban room_id uid (ensure_room room_id h))) as Hb.
  { intros r u. apply (same_membership_ensure_room room_id h r u). }
  assert (user_sockets_of (add_ban room_id uid (ensure_room room_id h)) room_id uid
          = user_sockets_of h room_id uid) as ->.
  { apply Hb. }
  rewrite ensure_room_user_sockets.
  destruct (close_all_only_closes CLOSE_KICKED (user_sockets_of h room_id uid))
    as (Hk1 & Hk2).
  destruct (close_all_only_closes CLOSE_BANNED (user_sockets_of h room_id uid))
    as (Hb1 & Hb2).
  split_and!; try done; try apply same_membership_ensure_room;
    try apply (keeps_entries_ensure_room room_id h).
  - intros r. apply ensure_room_banned.
  - intros r Hr. rewrite add_ban_banned. by rewrite decide_False.
  - intros _. rewrite add_ban_banned. by rewrite decide_True.
  - intros _ _ _. unfold close_all.
    split_and!; try done.
    + intros ws Hws. apply list_elem_of_fmap. exists ws.
      by rewrite elem_of_elements.
    + intros ws Hws. apply list_elem_of_fmap. exists ws.
      by rewrite elem_of_elements.
    + apply NoDup_fmap_2; [by intros ?? [= ->]|apply NoDup_elements].
    + apply NoDup_fmap_2; [by intros ?? [= ->]|apply NoDup_elements].
Qed.

(** C7 (amended): [destroy_room] never answers "not found".  It fails only
    with 401 for a caller without a session and with 403 for a caller who is
    not the recorded owner, in both cases changing nothing; otherwise it
    succeeds, whether or not the room has any state: it closes every socket
    of the room with code 1000, drops the room from every dictionary and
    tombstones the id.  On a room that does not exist it succeeds, closes
    nothing and tombstones the id. *)
Theorem C7_destroy_never_reports_not_found caller room_id h :
  let s := destroy_room caller room_id h in
  outcome s ≠ HttpError 404 ∧
  (caller = None → outcome s = HttpError 401 ∧ hub_after s = h ∧ actions s = []) ∧
  (∀ u, caller = Some u → owner_forbids h room_id u = true →
        outcome s = HttpError 403 ∧ hub_after s = h ∧ actions s = []) ∧
  (∀ u, caller = Some u → owner_forbids h room_id u = false →
        outcome s = HttpOk ∧
        actions s = close_all CLOSE_DESTROYED (conns_of h room_id) ∧
        room_id ∈ rooms_deleted (hub_after s) ∧
        rooms_messages (hub_after s) !! room_id = None ∧
        rooms_connections (hub_after s) !! room_id = None ∧
        rooms_owner (hub_after s) !! room_id = None ∧
        rooms_banned (hub_after s) !! room_id = None ∧
        rooms_user_sockets (hub_after s) !! room_id = None ∧
        rooms_user_meta (hub_after s) !! room_id = None) ∧
  (∀ u, caller = Some u → room_absent h room_id →
        outcome s = HttpOk ∧ actions s = [] ∧
        room_id ∈ rooms_deleted (hub_after s)).
Proof.
  unfold destroy_room. destruct caller as [user|].
  - destruct (owner_forbids h room_id user) eqn:Ho.
    + split_and!; try done; intros u [= <-] Hx; try done; try congruence.
      exfalso. unfold owner_forbids in Ho. destruct Hx as (_ & _ & Hown & _).
      by rewrite Hown in Ho.
    + cbn [hub_after actions outcome rooms_deleted rooms_messages
           rooms_connections rooms_owner rooms_banned rooms_user_sockets
           rooms_user_meta].
      rewrite !lookup_delete_eq.
      split_and!; try done; intros u [= <-] Hx; try done; try congruence.
      * split_and!; try done. set_solver.
      * destruct Hx as (_ & Hc & _).
        unfold close_all, conns_of. rewrite Hc. simpl.
        rewrite elements_empty. split_and!; try done. set_solver.
  - split_and!; done.
Qed.

(** A pass over a room without a connection set changes nothing. *)
Lemma broadcast_absent room_id msg fails h :
  rooms_connections h !! room_id = None →
  (broadcast room_id msg fails h).1 = h.
Proof.
  intros Hc. unfold broadcast, conns_of. rewrite Hc. simpl.
  rewrite elements_empty. simpl. by destruct h.
Qed.

(** ** Teardown *)

Lemma discard_user_socket_view ws room_id uid sockets r u :
  default ∅ (default ∅ (discard_user_socket ws room_id uid sockets !! r) !! u) =
  if decide (room_id = r ∧ uid = u)
  then default ∅ (default ∅ (sockets !! r) !! u) ∖ {[ws]}
  else default ∅ (default ∅ (sockets !! r) !! u).
Proof.
  unfold discard_user_socket.
  destruct (decide (room_id = r)) as [->|Hr].
  - rewrite lookup_alter_eq. destruct (sockets !! r) as [inner|]; simpl.
    + destruct (decide (uid = u)) as [->|Hu].
      * rewrite lookup_alter_eq, decide_True by done.
        destruct (inner !! u); simpl; [done|]. set_solver.
      * rewrite lookup_alter_ne by done. by rewrite decide_False by tauto.
    + case_decide; [|done]. rewrite lookup_empty. simpl. set_solver.
  - rewrite lookup_alter_ne by done. by rewrite decide_False by tauto.
Qed.

(** Once a pass has dropped the broken socket [ws] from the room, the
    teardown of [ws] does exactly what it would have done without the pass. *)
Lemma leave_after_eviction ws user room_id ts fails' msg fails h :
  (∀ c, fails c = true → c = ws) →
  leave ws user room_id ts fails' (broadcast room_id msg fails h).1 =
  leave ws user room_id ts fails' h.
Proof.
  intros Hws. unfold broadcast.
  pose proof (send_loop_dead_elem fails msg (elements (conns_of h room_id)) []) as Hd.
  destruct (send_loop _ _ _ _) as [acts dead]. cbn [fst snd] in *.
  assert (∀ c, c ∈ dead → c = ws) as Hdead.
  { intros c Hc. apply Hd in Hc as [Hc|[_ Hc]]; [by apply elem_of_nil in Hc|].
    by apply Hws. }
  unfold leave, set_connections.
  cbn [rooms_connections rooms_messages rooms_owner rooms_banned
       rooms_user_sockets rooms_user_meta rooms_deleted].
  rewrite discard_loop_lookup, decide_True by done.
  destruct (rooms_connections h !! room_id) as [conns|] eqn:Hc; simpl; [|done].
  assert (<[room_id := conns ∖ list_to_set dead ∖ {[ws]}]>
            (discard_loop room_id dead (rooms_connections h))
          = <[room_id := conns ∖ {[ws]}]> (rooms_connections h)) as ->; [|done].
  apply map_eq. intros r. destruct (decide (room_id = r)) as [->|Hr].
  - rewrite !lookup_insert_eq. f_equal. apply set_eq. intros c.
    rewrite !elem_of_difference, elem_of_list_to_set, elem_of_singleton.
    split; [tauto|]. intros [? Hne]. split_and!; try done.
    intros Hin. by apply Hne, Hdead.
  - rewrite !lookup_insert_ne by done. rewrite discard_loop_lookup.
    by rewrite decide_False.
Qed.

(** ** Tombstones *)

Lemma sealed_broadcast r room_id msg fails h :
  sealed r h → sealed r (broadcast room_id msg fails h).1.
Proof.
  intros [Hd Hc]. split.
  - destruct (broadcast_frame room_id msg fails h) as (_ & _ & _ & _ & _ & ->).
    done.
  - apply set_eq. intros c. rewrite broadcast_conns, Hc. set_solver.
Qed.

Lemma sealed_ensure_room r room_id h :
  sealed r h → sealed r (ensure_room room_id h).
Proof. intros [Hd Hc]. split; [done|]. by rewrite ensure_room_conns. Qed.

Lemma sealed_leave r ws user room_id ts fails h h' acts :
  leave ws user room_id ts fails h = Some (h', acts) →
  sealed r h → sealed r h'.
Proof.
  unfold leave. destruct (rooms_connections h !! room_id) as [conns|] eqn:E;
    [|done].
  cbv zeta. intros Hl Hs.
  assert (∀ sockets metas,
            sealed r (mkHub (rooms_messages h)
                        (<[room_id := conns ∖ {[ws]}]> (rooms_connections h))
                        (rooms_owner h) (rooms_banned h) sockets metas
                        (rooms_deleted h))) as Hmid.
  { intros sockets metas. destruct Hs as [Hd Hc]. split; [done|].
    unfold conns_of in *. simpl.
    destruct (decide (room_id = r)) as [->|Hr].
    - rewrite lookup_insert_eq. rewrite E in Hc. simpl in *. set_solver.
    - by rewrite lookup_insert_ne. }
  case_decide.
  - injection Hl as Hl. apply (f_equal fst) in Hl. cbn [fst] in Hl. subst h'.
    apply sealed_broadcast.
    cbn [rooms_messages rooms_connections rooms_owner rooms_banned
         rooms_user_sockets rooms_user_meta rooms_deleted]. apply Hmid.
  - injection Hl as <- _. apply Hmid.
Qed.

Section HubProperties.

Context {lib : Library}.

(** ** The receive loop *)

(** One turn of the loop on a room that has a history: the event is put at
    the end of the history and fanned out; the loop goes on. *)
Lemma ws_receive_present ws user room_id data ts ts' fails h hist :
  rooms_messages h !! room_id = Some hist →
  let s := ws_receive ws user room_id data ts ts' fails h in
  outcome s = WsActive ∧
  rooms_messages (hub_after s) =
    <[room_id := hist ++ [build_msg data user ts]]> (rooms_messages h) ∧
  actions s =
    map (λ c, Send c (build_msg data user ts) (negb (fails c)))
        (elements (conns_of h room_id)).
Proof.
  intros Hh. unfold ws_receive, append_history. rewrite Hh.
  match goal with
  | |- context [broadcast ?r ?m ?f ?x] =>
      pose proof (broadcast_frame r m f x) as Hf;
      pose proof (broadcast_actions r m f x) as Ha;
      destruct (broadcast r m f x) as [h2 acts]
  end.
  simpl in *. destruct Hf as (Hm & _). by rewrite Hm, Ha.
Qed.

Lemma classify_unrecognized d user ts :
  existsb (λ kind, type_is kind d) recognized_kinds = false →
  classify (JObj d) user ts = Some None.
Proof.
  simpl. rewrite !orb_false_iff.
  intros (H1 & H2 & H3 & H4 & H5 & H6 & _).
  unfold classify, location_step, when_type. simpl.
  by rewrite H1, H2, H3, H4, H5, H6.
Qed.

Lemma classify_not_dict payload user ts :
  as_dict payload = None → classify payload user ts = Some None.
Proof.
  intros H. unfold classify, location_step, when_type. by rewrite H.
Qed.

Lemma build_msg_fallback data user ts :
  recognized_payload data = false →
  build_msg data user ts = fallback_event data user ts.
Proof.
  unfold recognized_payload, build_msg.
  destruct (json_loads data) as [payload|]; [|done].
  destruct payload; intros H; try (by rewrite classify_not_dict).
  by rewrite classify_unrecognized.
Qed.

(** C9: a frame that is not JSON, that decodes to something other than an
    object, or whose [type] is none of message, media, album, location,
    typing, read, becomes the plaintext [message] event whose [text] is the
    frame itself; on a room with a history that event is appended and
    fanned out and the socket stays in its receive loop. *)
Theorem C9_unrecognized_frame_is_plaintext_message data user ts :
  recognized_payload data = false →
  build_msg data user ts = fallback_event data user ts ∧
  dict_get "type" (build_msg data user ts) = Some (JStr "message") ∧
  dict_get "text" (build_msg data user ts) = Some (JStr data) ∧
  dict_get "enc" (build_msg data user ts) = Some (JBool false) ∧
  ∀ ws room_id ts' fails h hist,
    rooms_messages h !! room_id = Some hist →
    let s := ws_receive ws user room_id data ts ts' fails h in
    outcome s = WsActive ∧
    history_of (hub_after s) room_id = hist ++ [fallback_event data user ts] ∧
    actions s =
      map (λ c, Send c (fallback_event data user ts) (negb (fails c)))
          (elements (conns_of h room_id)).
Proof.
  intros H. rewrite (build_msg_fallback _ _ _ H).
  repeat split; try done.
  all: destruct (ws_receive_present ws user room_id data ts ts' fails h hist)
         as (Ho & Hm & Ha); try done.
  - unfold history_of. rewrite Hm, lookup_insert_eq. simpl.
    by rewrite (build_msg_fallback _ _ _ H).
  - by rewrite Ha, (build_msg_fallback _ _ _ H).
Qed.

(** ** Runs *)

Lemma run_cons op ops h :
  run (op :: ops) h =
  ((run ops (apply_op op h).1).1, (apply_op op h).2 ++ (run ops (apply_op op h).1).2).
Proof.
  change (run (op :: ops) h) with
    (let '(h1, acts1) := apply_op op h in
     let '(h2, acts2) := run ops h1 in (h2, acts1 ++ acts2)).
  destruct (apply_op op h) as [h1 acts1]. cbn [fst snd].
  by destruct (run ops h1) as [h2 acts2].
Qed.

Lemma history_after_receives ws user room_id ts ts' fails datas h hist :
  rooms_messages h !! room_id = Some hist →
  rooms_messages (run (receive_all ws user room_id ts ts' fails datas) h).1
    !! room_id = Some (hist ++ map (λ data, build_msg data user ts) datas).
Proof.
  revert h hist. induction datas as [|data rest IH]; intros h hist Hh.
  - simpl. by rewrite app_nil_r.
  - unfold receive_all in *. simpl map. rewrite run_cons. simpl.
    destruct (ws_receive_present ws user room_id data ts ts' fails h hist Hh)
      as (_ & Hm & _).
    rewrite (IH _ (hist ++ [build_msg data user ts])).
    + by rewrite <- app_assoc.
    + by rewrite Hm, lookup_insert_eq.
Qed.

(** C2 (amended): the history of a room has no capacity.  Every turn of the
    receive loop puts its event at the end of the list and removes nothing,
    so after any number of frames the history is the old one followed by
    one event per frame, in order. *)
Theorem C2_history_grows_with_every_event ws user room_id ts ts' fails datas h hist :
  rooms_messages h !! room_id = Some hist →
  let h' := (run (receive_all ws user room_id ts ts' fails datas) h).1 in
  history_of h' room_id = hist ++ map (λ data, build_msg data user ts) datas ∧
  length (history_of h' room_id) = length hist + length datas.
Proof.
  intros Hh h'. unfold history_of, h'.
  rewrite (history_after_receives _ _ _ _ _ _ _ _ _ Hh). simpl.
  split; [done|]. by rewrite length_app, length_map.
Qed.

(** ** Joining *)

(** An accepted connect: registration, the announcement to the whole room,
    then the replay to the new socket. *)
Lemma ws_connect_accepted ws user room_id ts fails h :
  uuid_ok room_id = true →
  room_id ∉ rooms_deleted h →
  user_id user ∉ banned_of h room_id →
  let s := ws_connect ws (Some user) room_id ts fails h in
  let h2 := register ws user room_id (ensure_room room_id h) in
  hub_after s = (broadcast room_id (joined_event user ts) fails h2).1 ∧
  actions s =
    map (λ c, Send c (joined_event user ts) (negb (fails c)))
        (elements ({[ws]} ∪ conns_of h room_id))
    ++ (replay ws (fails ws) (history_of h room_id)).1 ∧
  outcome s =
    if (replay ws (fails ws) (history_of h room_id)).2 then WsActive else WsRaised.
Proof.
  intros Hu Hd Hb. unfold ws_connect. rewrite Hu. simpl negb. cbv iota.
  rewrite decide_False by done.
  rewrite decide_False by (by rewrite ensure_room_banned).
  match goal with
  | |- context [broadcast ?r ?m ?f ?x] =>
      pose proof (broadcast_frame r m f x) as Hf;
      pose proof (broadcast_actions r m f x) as Ha;
      destruct (broadcast r m f x) as [h3 acts]
  end.
  simpl in Hf, Ha. destruct Hf as (Hm & _).
  assert (history_of h3 room_id = history_of h room_id) as ->.
  { unfold history_of. rewrite Hm. apply setdefault_default. }
  destruct (replay ws (fails ws) (history_of h room_id)) as [replayed done'].
  simpl. rewrite Ha, register_conns, decide_True by done. done.
Qed.

(** C1 (the join half, as the code has it): an accepted connect announces
    the user to every socket of the room, the new one included, also when
    the user already has a live socket in that room. *)
Theorem C1_join_announced_on_every_connect ws ws0 user room_id ts fails h :
  uuid_ok room_id = true →
  room_id ∉ rooms_deleted h →
  user_id user ∉ banned_of h room_id →
  ws0 ∈ user_sockets_of h room_id (user_id user) →
  ∀ c, c ∈ ({[ws]} ∪ conns_of h room_id : gset Conn) →
       (c, joined_event user ts)
       ∈ attempts (actions (ws_connect ws (Some user) room_id ts fails h)).
Proof.
  intros Hu Hd Hb _ c Hc.
  destruct (ws_connect_accepted ws user room_id ts fails h Hu Hd Hb) as (_ & Ha & _).
  rewrite Ha. clear Ha.
  assert (∀ a b, attempts (a ++ b) = attempts a ++ attempts b) as Happ.
  { intros a b. induction a as [|[]]; simpl; [done| |done]. by rewrite IHa. }
  rewrite Happ, attempts_sends, elem_of_app, list_elem_of_fmap.
  left. exists c. by rewrite elem_of_elements.
Qed.

(** ** Rejected connects *)

Lemma ws_connect_unauthenticated ws room_id ts fails h :
  ws_connect ws None room_id ts fails h =
  mkStep h [Close ws CLOSE_UNAUTHENTICATED] (WsRejected CLOSE_UNAUTHENTICATED).
Proof. done. Qed.

Lemma ws_connect_invalid_room ws user room_id ts fails h :
  uuid_ok room_id = false →
  ws_connect ws (Some user) room_id ts fails h =
  mkStep h [Close ws CLOSE_INVALID_ROOM] (WsRejected CLOSE_INVALID_ROOM).
Proof. intros Hu. unfold ws_connect. by rewrite Hu. Qed.

Lemma ws_connect_tombstoned ws user room_id ts fails h :
  uuid_ok room_id = true →
  room_id ∈ rooms_deleted h →
  ws_connect ws (Some user) room_id ts fails h =
  mkStep (ensure_room room_id h) [Close ws CLOSE_TOMBSTONED]
         (WsRejected CLOSE_TOMBSTONED).
Proof.
  intros Hu Hd. unfold ws_connect. rewrite Hu. simpl negb. cbv iota.
  by rewrite decide_True by done.
Qed.

Lemma ws_connect_banned ws user room_id ts fails h :
  uuid_ok room_id = true →
  room_id ∉ rooms_deleted h →
  user_id user ∈ banned_of h room_id →
  ws_connect ws (Some user) room_id ts fails h =
  mkStep (ensure_room room_id h) [Close ws CLOSE_BANNED] (WsRejected CLOSE_BANNED).
Proof.
  intros Hu Hd Hb. unfold ws_connect. rewrite Hu. simpl negb. cbv iota.
  rewrite decide_False by done.
  by rewrite decide_True by (by rewrite ensure_room_banned).
Qed.

Lemma kick_user_actions caller room_id uid h :
  only_closes CLOSE_KICKED (user_sockets_of h room_id uid)
    (actions (kick_user caller room_id uid h)).
Proof.
  unfold kick_user.
  destruct caller as [user|]; [|by intros a Ha; apply elem_of_nil in Ha].
  destruct (owner_forbids h room_id user);
    [by intros a Ha; apply elem_of_nil in Ha|].
  cbn [actions]. rewrite ensure_room_user_sockets. apply close_all_only_closes.
Qed.

Lemma ban_user_actions caller room_id uid h :
  only_closes CLOSE_BANNED (user_sockets_of h room_id uid)
    (actions (ban_user caller room_id uid h)).
Proof.
  unfold ban_user.
  destruct caller as [user|]; [|by intros a Ha; apply elem_of_nil in Ha].
  destruct (owner_forbids h room_id user);
    [by intros a Ha; apply elem_of_nil in Ha|].
  cbn [actions].
  assert (user_sockets_of (add_ban room_id uid (ensure_room room_id h)) room_id uid
          = user_sockets_of h room_id uid) as ->.
  { apply (same_membership_ensure_room room_id h room_id uid). }
  apply close_all_only_closes.
Qed.

(** C8 (amended): which code closes a socket for which cause.  A connect
    without a session and a connect with a malformed room id are both
    closed with 1008; a tombstoned room closes with 4100, a banned user with
    4003, a kick with 4000.  The last three differ from each other and from
    1008, so those causes can be told apart; the first two cannot. *)
Theorem C8_close_codes_by_cause :
  (∀ ws room_id ts fails h,
     ws_connect ws None room_id ts fails h =
     mkStep h [Close ws CLOSE_UNAUTHENTICATED] (WsRejected CLOSE_UNAUTHENTICATED)) ∧
  (∀ ws user room_id ts fails h,
     uuid_ok room_id = false →
     ws_connect ws (Some user) room_id ts fails h =
     mkStep h [Close ws CLOSE_INVALID_ROOM] (WsRejected CLOSE_INVALID_ROOM)) ∧
  (∀ ws user room_id ts fails h,
     uuid_ok room_id = true → room_id ∈ rooms_deleted h →
     ws_connect ws (Some user) room_id ts fails h =
     mkStep (ensure_room room_id h) [Close ws CLOSE_TOMBSTONED]
            (WsRejected CLOSE_TOMBSTONED)) ∧
  (∀ ws user room_id ts fails h,
     uuid_ok room_id = true → room_id ∉ rooms_deleted h →
     user_id user ∈ banned_of h room_id →
     ws_connect ws (Some user) room_id ts fails h =
     mkStep (ensure_room room_id h) [Close ws CLOSE_BANNED]
            (WsRejected CLOSE_BANNED)) ∧
  (∀ caller room_id uid h,
     only_closes CLOSE_KICKED (user_sockets_of h room_id uid)
       (actions (kick_user caller room_id uid h))) ∧
  (∀ caller room_id uid h,
     only_closes CLOSE_BANNED (user_sockets_of h room_id uid)
       (actions (ban_user caller room_id uid h))) ∧
  CLOSE_UNAUTHENTICATED = CLOSE_INVALID_ROOM ∧
  NoDup [CLOSE_INVALID_ROOM; CLOSE_TOMBSTONED; CLOSE_BANNED; CLOSE_KICKED].
Proof.
  split_and!.
  - apply ws_connect_unauthenticated.
  - apply ws_connect_invalid_room.
  - apply ws_connect_tombstoned.
  - apply ws_connect_banned.
  - apply kick_user_actions.
  - apply ban_user_actions.
  - done.
  - unfold CLOSE_INVALID_ROOM, CLOSE_TOMBSTONED, CLOSE_BANNED, CLOSE_KICKED.
    repeat (apply NoDup_cons; split; [set_solver|]). apply NoDup_nil_2.
Qed.

(** ** Eviction by a failed send *)

(** C5 (amended): a socket dropped because a send to it failed is removed
    from the connection set of the room and from nothing else.  The pass
    leaves the per-user socket sets, the user metadata and the history as
    they were and sends nothing but its own event, so no departure is
    announced.  The membership update belongs to the socket's own teardown:
    run after the eviction it gives the same hub and the same actions as a
    teardown without eviction. *)
Theorem C5_eviction_only_shrinks_the_connection_set room_id msg fails h :
  let h' := (broadcast room_id msg fails h).1 in
  (∀ r c, c ∈ conns_of h' r ↔ c ∈ conns_of h r ∧ (r = room_id → fails c = false)) ∧
  rooms_user_sockets h' = rooms_user_sockets h ∧
  rooms_user_meta h' = rooms_user_meta h ∧
  rooms_messages h' = rooms_messages h ∧
  (∀ c m, (c, m) ∈ attempts (broadcast room_id msg fails h).2 → m = msg) ∧
  (∀ ws user ts fails',
     (∀ c, fails c = true → c = ws) →
     ws_disconnect ws user room_id ts fails' h'
     = ws_disconnect ws user room_id ts fails' h).
Proof.
  intros h'. unfold h'.
  destruct (broadcast_frame room_id msg fails h) as (Hm & _ & _ & Hs & Hu & _).
  split_and!; try done.
  - intros r c. apply broadcast_conns.
  - intros c m. rewrite broadcast_actions, attempts_sends, list_elem_of_fmap.
    by intros (c' & [= _ ->] & _).
  - intros ws user ts fails' Hws. unfold ws_disconnect.
    rewrite (leave_after_eviction ws user room_id ts fails' msg fails h Hws).
    destruct (leave ws user room_id ts fails' h) as [[h1 acts]|] eqn:Hl; [done|].
    rewrite broadcast_absent; [done|].
    unfold leave in Hl.
    destruct (rooms_connections h !! room_id); [exfalso|done].
    cbv zeta in Hl. by case_decide.
Qed.

(** ** A tombstone stays *)

Lemma sealed_ws_teardown r ws user room_id ts fails h :
  sealed r h →
  sealed r (hub_after (ws_disconnect ws user room_id ts fails h)) ∧
  sealed r (hub_after (ws_error ws user room_id ts fails h)).
Proof.
  intros Hs. unfold ws_disconnect, ws_error.
  destruct (leave ws user room_id ts fails h) as [[h' acts]|] eqn:Hl; [|done].
  split; apply (sealed_leave r _ _ _ _ _ _ _ _ Hl Hs).
Qed.

Lemma sealed_ws_receive r ws user room_id data ts ts' fails h :
  sealed r h → sealed r (hub_after (ws_receive ws user room_id data ts ts' fails h)).
Proof.
  intros Hs. unfold ws_receive, append_history.
  destruct (rooms_messages h !! room_id) as [hist|];
    [|by apply sealed_ws_teardown].
  match goal with
  | |- context [broadcast ?rm ?m ?f ?x] =>
      pose proof (sealed_broadcast r rm m f x) as Hb;
      destruct (broadcast rm m f x) as [h2 acts]
  end.
  apply Hb. by destruct Hs.
Qed.

(** A connect to a sealed room is turned away, whoever asks. *)
Lemma ws_connect_sealed ws session room_id ts fails h :
  sealed room_id h →
  let s := ws_connect ws session room_id ts fails h in
  outcome s = WsRejected (sealed_close_code session room_id) ∧
  actions s = [Close ws (sealed_close_code session room_id)] ∧
  sealed room_id (hub_after s).
Proof.
  intros Hs. destruct session as [user|]; [|done].
  unfold sealed_close_code. destruct (uuid_ok room_id) eqn:Hu.
  - rewrite ws_connect_tombstoned by (done || apply Hs).
    split_and!; try done. by apply sealed_ensure_room.
  - by rewrite ws_connect_invalid_room.
Qed.

Lemma sealed_ws_connect r ws session room_id ts fails h :
  sealed r h → sealed r (hub_after (ws_connect ws session room_id ts fails h)).
Proof.
  intros Hs. destruct (decide (room_id = r)) as [->|Hr];
    [by apply ws_connect_sealed|].
  destruct session as [user|]; [|done].
  destruct (uuid_ok room_id) eqn:Hu; [|by rewrite ws_connect_invalid_room].
  destruct (decide (room_id ∈ rooms_deleted h)) as [Hd|Hd].
  { rewrite ws_connect_tombstoned by done. by apply sealed_ensure_room. }
  destruct (decide (user_id user ∈ banned_of h room_id)) as [Hb|Hb].
  { rewrite ws_connect_banned by done. by apply sealed_ensure_room. }
  destruct (ws_connect_accepted ws user room_id ts fails h Hu Hd Hb) as (-> & _).
  apply sealed_broadcast. destruct Hs as [Hdel Hc]. split; [done|].
  by rewrite register_conns, decide_False.
Qed.

Lemma sealed_apply_op r op h :
  redraws r op = false → sealed r h → sealed r (apply_op op h).1.
Proof.
  intros Hop Hs.
  destruct op as [caller fresh|caller room_id|caller room_id|caller room_id uid
                 |caller room_id uid|ws session room_id ts fails
                 |ws user room_id data ts ts' fails|ws user room_id ts fails
                 |ws user room_id ts fails];
    cbn [apply_op forget fst].
  - unfold new_room. destruct caller as [user|]; [|done].
    simpl in Hop. apply String.eqb_neq in Hop. destruct Hs as [Hd Hc].
    split; [|done]. simpl. set_solver.
  - unfold chat_room. destruct caller; [|done].
    destruct (negb (uuid_ok room_id)); [done|]. case_decide; [done|].
    by apply sealed_ensure_room.
  - unfold destroy_room. destruct caller as [user|]; [|done].
    destruct (owner_forbids h room_id user); [done|].
    destruct Hs as [Hd Hc]. split; [simpl; set_solver|].
    unfold conns_of in *. simpl.
    destruct (decide (room_id = r)) as [->|Hr].
    + by rewrite lookup_delete_eq.
    + by rewrite lookup_delete_ne.
  - unfold kick_user. destruct caller as [user|]; [|done].
    destruct (owner_forbids h room_id user); [done|].
    by apply sealed_ensure_room.
  - unfold ban_user. destruct caller as [user|]; [|done].
    destruct (owner_forbids h room_id user); [done|].
    by apply (sealed_ensure_room r room_id h) in Hs.
  - by apply sealed_ws_connect.
  - by apply sealed_ws_receive.
  - by apply sealed_ws_teardown.
  - by apply sealed_ws_teardown.
Qed.

Lemma sealed_run r ops h :
  Forall (λ op, redraws r op = false) ops →
  sealed r h → sealed r (run ops h).1.
Proof.
  revert h. induction ops as [|op rest IH]; intros h Hops Hs; [done|].
  apply Forall_cons in Hops as [Hop Hrest].
  rewrite run_cons. cbn [fst]. apply IH; [done|]. by apply sealed_apply_op.
Qed.

Lemma sealed_destroy_room caller room_id h :
  outcome (destroy_room caller room_id h) = HttpOk →
  sealed room_id (hub_after (destroy_room caller room_id h)).
Proof.
  unfold destroy_room. destruct caller as [user|]; [|done].
  destruct (owner_forbids h room_id user); [done|]. intros _.
  split; [simpl; set_solver|]. unfold conns_of. simpl.
  by rewrite lookup_delete_eq.
Qed.

(** C3 (amended): once [destroy_room] has succeeded for an id, then in
    every state reached by later requests and socket events among which no
    [new_room] draws that id again, the id is in the tombstone set, the room
    has no socket, and every connect with that id is turned away and joins
    nothing: with 4100 when it carries a session and the id is well formed
    (1008 otherwise, from the checks that come first). *)
Theorem C3_tombstone_rejects_every_later_connect caller room_id h0 ops :
  outcome (destroy_room caller room_id h0) = HttpOk →
  Forall (λ op, redraws room_id op = false) ops →
  let h := (run ops (hub_after (destroy_room caller room_id h0))).1 in
  room_id ∈ rooms_deleted h ∧
  conns_of h room_id = ∅ ∧
  ∀ ws session ts fails,
    let s := ws_connect ws session room_id ts fails h in
    outcome s = WsRejected (sealed_close_code session room_id) ∧
    actions s = [Close ws (sealed_close_code session room_id)] ∧
    room_id ∈ rooms_deleted (hub_after s) ∧
    conns_of (hub_after s) room_id = ∅ ∧
    (∀ user, session = Some user → uuid_ok room_id = true →
             outcome s = WsRejected CLOSE_TOMBSTONED).
Proof.
  intros Hok Hops h.
  assert (sealed room_id h) as Hs.
  { apply sealed_run; [done|]. by apply sealed_destroy_room. }
  split; [apply Hs|]. split; [apply Hs|].
  intros ws session ts fails s.
  destruct (ws_connect_sealed ws session room_id ts fails h Hs) as (Ho & Ha & Hd & Hc).
  split_and!; try done.
  intros user -> Hu. fold s in Ho. rewrite Ho. unfold sealed_close_code.
  by rewrite Hu.
Qed.

(** ** Leaving *)


End HubProperties.

(** * Further properties of the hub *)

(** ** The state a pass and a teardown leave *)

(** A pass keeps, in its room, the sockets whose send succeeded. *)
Lemma broadcast_connections room_id msg fails h :
  rooms_connections (broadcast room_id msg fails h).1 =
  alter (filter (λ c, fails c = false)) room_id (rooms_connections h).
Proof.
  unfold broadcast.
  pose proof (send_loop_dead_elem fails msg (elements (conns_of h room_id)) []) as Hd.
  destruct (send_loop _ _ _ _) as [acts dead]. cbn [fst snd] in *.
  unfold set_connections. cbn [rooms_connections].
  apply map_eq. intros r. rewrite discard_loop_lookup.
  destruct (decide (room_id = r)) as [<-|Hr].
  - rewrite lookup_alter_eq. unfold conns_of in Hd.
    destruct (rooms_connections h !! room_id) as [s|]; simpl in *; [|done].
    f_equal. apply set_eq. intros c.
    rewrite elem_of_difference, elem_of_list_to_set, elem_of_filter, Hd.
    rewrite elem_of_elements. split.
    + intros [Hin Hn]. split; [|done]. destruct (fails c) eqn:F; [|done].
      exfalso. apply Hn. by right.
    + intros [F Hin]. split; [done|]. intros [H0|[_ F']].
      * by apply elem_of_nil in H0.
      * congruence.
  - by rewrite lookup_alter_ne.
Qed.


(** A pass on which no send fails changes nothing. *)
Lemma broadcast_healthy room_id msg fails h :
  (∀ c, c ∈ conns_of h room_id → fails c = false) →
  (broadcast room_id msg fails h).1 = h.
Proof.
  intros Hok.
  assert (alter (filter (λ c, fails c = false)) room_id (rooms_connections h)
          = rooms_connections h) as Halter.
  { apply map_eq. intros r. destruct (decide (room_id = r)) as [<-|Hr].
    - rewrite lookup_alter_eq. unfold conns_of in Hok.
      destruct (rooms_connections h !! room_id) as [s|] eqn:E; simpl in *; [|done].
      f_equal. apply set_eq. intros c. rewrite elem_of_filter.
      split; [by intros [_ ?]|]. intros Hin. split; [by apply Hok|done].
    - by rewrite lookup_alter_ne. }
  pose proof (broadcast_connections room_id msg fails h) as Hc.
  rewrite Halter in Hc.
  destruct (broadcast_frame room_id msg fails h) as (Hm & Ho & Hb & Hs & Hu & Hd).
  destruct (broadcast room_id msg fails h) as [h' acts]. cbn [fst] in *.
  destruct h' as [m1 c1 o1 b1 s1 u1 d1], h as [m0 c0 o0 b0 s0 u0 d0].
  simpl in *. by subst.
Qed.

(** What [leave] computes, with its intermediate hubs named. *)
Lemma leave_unfold ws user room_id ts fails h :
  leave ws user room_id ts fails h =
  match rooms_connections h !! room_id with
  | None => None
  | Some conns =>
      let h1 := after_discards ws (user_id user) room_id conns h in
      if decide (user_sockets_of h1 room_id (user_id user) = ∅)
      then Some (broadcast room_id (left_event user ts) fails
                   (after_pop (user_id user) room_id h1))
      else Some (h1, [])
  end.
Proof. reflexivity. Qed.

Lemma after_discards_user_sockets ws uid room_id conns h r u :
  user_sockets_of (after_discards ws uid room_id conns h) r u =
  if decide (room_id = r ∧ uid = u)
  then user_sockets_of h r u ∖ {[ws]} else user_sockets_of h r u.
Proof. apply discard_user_socket_view. Qed.

Lemma after_discards_conns ws uid room_id conns h r :
  rooms_connections h !! room_id = Some conns →
  conns_of (after_discards ws uid room_id conns h) r =
  if decide (room_id = r) then conns_of h r ∖ {[ws]} else conns_of h r.
Proof.
  intros Hc. unfold conns_of, after_discards. simpl. case_decide; subst.
  - by rewrite lookup_insert_eq, Hc.
  - by rewrite lookup_insert_ne.
Qed.

Lemma after_pop_user_meta uid room_id h r u :
  user_meta_of (after_pop uid room_id h) r u =
  if decide (room_id = r ∧ uid = u) then None else user_meta_of h r u.
Proof.
  unfold user_meta_of, after_pop, pop_user_meta. simpl.
  destruct (decide (room_id = r)) as [<-|Hr].
  - rewrite lookup_alter_eq.
    destruct (rooms_user_meta h !! room_id) as [inner|]; simpl.
    + destruct (decide (uid = u)) as [<-|Hu].
      * rewrite decide_True by done. apply lookup_delete_eq.
      * rewrite decide_False by tauto. by apply lookup_delete_ne.
    + by case_decide.
  - rewrite lookup_alter_ne by done. by rewrite decide_False by tauto.
Qed.

(** The two [discard]s of a teardown do nothing for a socket that is
    in neither set. *)
Lemma after_discards_noop ws uid room_id conns h :
  rooms_connections h !! room_id = Some conns →
  ws ∉ conns →
  ws ∉ user_sockets_of h room_id uid →
  after_discards ws uid room_id conns h = h.
Proof.
  intros Hc Hws Hu. unfold after_discards, discard_user_socket.
  assert (<[room_id := conns ∖ {[ws]}]> (rooms_connections h)
          = rooms_connections h) as ->.
  { apply insert_id. rewrite Hc. f_equal. set_solver. }
  assert (alter (alter (λ s, s ∖ {[ws]}) uid) room_id (rooms_user_sockets h)
          = rooms_user_sockets h) as ->; [|by destruct h].
  apply map_eq. intros r. destruct (decide (room_id = r)) as [<-|Hr];
    [|by rewrite lookup_alter_ne].
  rewrite lookup_alter_eq. unfold user_sockets_of in Hu.
  destruct (rooms_user_sockets h !! room_id) as [inner|]; [|done].
  simpl in *. f_equal. apply map_eq. intros u.
  destruct (decide (uid = u)) as [<-|Hne]; [|by rewrite lookup_alter_ne].
  rewrite lookup_alter_eq. destruct (inner !! uid) as [sockets|]; [|done].
  simpl in *. f_equal. set_solver.
Qed.

(** The [pop] of a teardown does nothing for a user without metadata. *)
Lemma after_pop_noop uid room_id h :
  user_meta_of h room_id uid = None → after_pop uid room_id h = h.
Proof.
  intros Hm. unfold after_pop, pop_user_meta.
  assert (alter (delete uid) room_id (rooms_user_meta h) = rooms_user_meta h)
    as ->; [|by destruct h].
  apply map_eq. intros r. destruct (decide (room_id = r)) as [<-|Hr];
    [|by rewrite lookup_alter_ne].
  rewrite lookup_alter_eq. unfold user_meta_of in Hm.
  destruct (rooms_user_meta h !! room_id) as [inner|]; [|done].
  simpl in *. f_equal. by apply delete_id.
Qed.

Section MoreProperties.

Context {lib : Library}.

(** ** Invariants of runs *)

(** A property of the hub that each elementary update keeps is kept by
    every handler.  [guard] restricts the [new_room] and [destroy_room]
    steps considered. *)
Lemma apply_op_invariant (P : Hub → Prop) (guard : Op → Prop) :
  (∀ r h, P h → P (ensure_room r h)) →
  (∀ r m f h, P h → P (broadcast r m f h).1) →
  (∀ ws u r h, r ∉ rooms_deleted h → P (ensure_room r h) →
               P (register ws u r (ensure_room r h))) →
  (∀ ws uid r conns h, rooms_connections h !! r = Some conns → P h →
                       P (after_discards ws uid r conns h)) →
  (∀ uid r h, user_sockets_of h r uid = ∅ → P h → P (after_pop uid r h)) →
  (∀ r data user ts h h',
     append_history r (build_msg data user ts) h = Some h' → P h → P h') →
  (∀ r uid h, P (ensure_room r h) → P (add_ban r uid (ensure_room r h))) →
  (∀ u fresh h, guard (OpNewRoom (Some u) fresh) → P h →
                P (hub_after (new_room (Some u) fresh h))) →
  (∀ u r h, guard (OpDestroy (Some u) r) → owner_forbids h r u = false → P h →
            P (hub_after (destroy_room (Some u) r h))) →
  ∀ op h, guard op → P h → P (apply_op op h).1.
Proof.
  intros Hens Hbro Hreg Hdis Hpop Happ Hban Hnew Hdes op h Hg HP.
  assert (∀ ws user room_id ts fails h0 h' acts,
            leave ws user room_id ts fails h0 = Some (h', acts) → P h0 → P h')
    as Hleave.
  { intros ws user room_id ts fails h0 h' acts. rewrite leave_unfold.
    destruct (rooms_connections h0 !! room_id) as [conns|] eqn:Hc; [|done].
    cbv zeta. case_decide as Hlast.
    - intros [= Heq] HP0. apply (f_equal fst) in Heq. cbn [fst] in Heq.
      subst h'. apply Hbro, Hpop; [done|]. by apply Hdis.
    - intros [= <- _] HP0. by apply Hdis. }
  assert (∀ ws user room_id ts fails h0,
            P h0 → P (hub_after (ws_error ws user room_id ts fails h0)))
    as Herr.
  { intros ws user room_id ts fails h0 HP0. unfold ws_error.
    destruct (leave ws user room_id ts fails h0) as [[h' acts]|] eqn:Hl; [|done].
    by apply (Hleave _ _ _ _ _ _ _ _ Hl). }
  destruct op as [caller fresh|caller room_id|caller room_id|caller room_id uid
                 |caller room_id uid|ws session room_id ts fails
                 |ws user room_id data ts ts' fails|ws user room_id ts fails
                 |ws user room_id ts fails];
    cbn [apply_op forget fst].
  - destruct caller as [u|]; [by apply Hnew|done].
  - unfold chat_room. destruct caller; [|done].
    destruct (negb (uuid_ok room_id)); [done|]. case_decide; [done|].
    by apply Hens.
  - destruct caller as [u|]; [|done].
    destruct (owner_forbids h room_id u) eqn:Ho.
    + unfold destroy_room. by rewrite Ho.
    + by apply Hdes.
  - unfold kick_user. destruct caller as [u|]; [|done].
    destruct (owner_forbids h room_id u); [done|]. by apply Hens.
  - unfold ban_user. destruct caller as [u|]; [|done].
    destruct (owner_forbids h room_id u); [done|]. by apply Hban, Hens.
  - destruct session as [user|]; [|done].
    destruct (uuid_ok room_id) eqn:Hu; [|by rewrite ws_connect_invalid_room].
    destruct (decide (room_id ∈ rooms_deleted h)) as [Hd|Hd].
    { rewrite ws_connect_tombstoned by done. by apply Hens. }
    destruct (decide (user_id user ∈ banned_of h room_id)) as [Hb|Hb].
    { rewrite ws_connect_banned by done. by apply Hens. }
    destruct (ws_connect_accepted ws user room_id ts fails h Hu Hd Hb) as (-> & _).
    apply Hbro, Hreg; [done|]. by apply Hens.
  - unfold ws_receive.
    destruct (append_history room_id (build_msg data user ts) h) as [h1|] eqn:Ha;
      [|by apply Herr].
    pose proof (Happ _ _ _ _ _ _ Ha HP) as HP1.
    pose proof (Hbro room_id (build_msg data user ts) fails h1 HP1) as HP2.
    by destruct (broadcast room_id (build_msg data user ts) fails h1).
  - unfold ws_disconnect.
    destruct (leave ws user room_id ts fails h) as [[h' acts]|] eqn:Hl; [|done].
    by apply (Hleave _ _ _ _ _ _ _ _ Hl).
  - by apply Herr.
Qed.

Lemma run_invariant (P : Hub → Prop) (guard : Op → Prop) :
  (∀ op h, guard op → P h → P (apply_op op h).1) →
  ∀ ops h, Forall guard ops → P h → P (run ops h).1.
Proof.
  intros Hstep ops. induction ops as [|op rest IH]; intros h Hg HP; [done|].
  apply Forall_cons in Hg as [Hop Hrest].
  rewrite run_cons. cbn [fst]. apply IH; [done|]. by apply Hstep.
Qed.

(** ** What the receive loop builds *)

(** Whatever the frame, the event is one of the nine dict literals of the
    loop. *)
Lemma build_msg_shape data user ts :
  let msg := build_msg data user ts in
  msg = fallback_event data user ts ∨
  ∃ d, msg = message_event d user ts ∨ msg = media_event d user ts ∨
       msg = album_event d user ts ∨ msg = location_enc_event d user ts ∨
       (∃ lat lon, msg = location_plain_event lat lon d user ts) ∨
       msg = typing_event d user ts ∨ msg = read_event d user ts.
Proof.
  unfold build_msg. destruct (json_loads data) as [payload|]; [|by left].
  unfold classify, location_step, when_type.
  destruct (as_dict payload) as [d|]; [|by left].
  destruct (type_is "read" d) eqn:T6.
  { destruct (type_is "location" d) eqn:T4.
    - destruct (truthy _); [right; exists d; tauto|].
      destruct (py_float _) as [lat|]; [|by left].
      destruct (py_float _) as [lon|]; [|by left].
      right; exists d; tauto.
    - right; exists d; tauto. }
  destruct (type_is "typing" d) eqn:T5.
  { destruct (type_is "location" d) eqn:T4.
    - destruct (truthy _); [right; exists d; tauto|].
      destruct (py_float _) as [lat|]; [|by left].
      destruct (py_float _) as [lon|]; [|by left].
      right; exists d; tauto.
    - right; exists d; tauto. }
  destruct (type_is "location" d) eqn:T4.
  { destruct (truthy _); [right; exists d; tauto|].
    destruct (py_float _) as [lat|]; [|by left].
    destruct (py_float _) as [lon|]; [|by left].
    right. exists d. do 4 right. left. by exists lat, lon. }
  destruct (type_is "album" d) eqn:T3; [right; exists d; tauto|].
  destruct (type_is "media" d) eqn:T2; [right; exists d; tauto|].
  destruct (type_is "message" d) eqn:T1; [right; exists d; tauto|].
  by left.
Qed.

Lemma build_msg_kind data user ts :
  ∃ kind, kind ∈ recognized_kinds ∧
          dict_get "type" (build_msg data user ts) = Some (JStr kind).
Proof.
  unfold recognized_kinds.
  destruct (build_msg_shape data user ts) as
    [ -> | (d & [ -> | [ -> | [ -> | [ -> | [(lat & lon & ->) | [ -> | -> ]]]]]])];
    (eexists; split; [|reflexivity]; set_solver).
Qed.

(** X1: the server's stamp cannot be overridden by the client.  Whatever
    text a socket sends, the event built from it carries the id and the name
    of the socket's own session user and the server's time, and its [type]
    is one of message, media, album, location, typing, read: never
    [system], and never a field taken from the payload in their place. *)
Theorem X1_event_is_stamped_by_the_server data user ts :
  content_event user ts (build_msg data user ts) ∧
  dict_get "type" (build_msg data user ts) ≠ Some (JStr "system").
Proof.
  destruct (build_msg_kind data user ts) as (kind & Hk & Ht).
  split.
  - split; [by exists kind|].
    destruct (build_msg_shape data user ts) as
      [ -> | (d & [ -> | [ -> | [ -> | [ -> | [(lat & lon & ->) | [ -> | -> ]]]]]])];
      done.
  - rewrite Ht. intros [= ->]. unfold recognized_kinds in Hk. set_solver.
Qed.

(** X2: a [location] frame that is not marked encrypted and whose [lat] or
    [lon] the server cannot convert to a float is not dropped: the
    exception is swallowed and the whole frame goes out as a plaintext
    message. *)
Theorem X2_malformed_location_falls_back_to_plaintext data d user ts :
  json_loads data = Some (JObj d) →
  type_is "location" d = true →
  truthy (dict_get_default "enc" JNull d) = false →
  py_float (dict_get_default "lat" (JInt 0) d) = None ∨
  py_float (dict_get_default "lon" (JInt 0) d) = None →
  build_msg data user ts = fallback_event data user ts.
Proof.
  intros Hj Ht He Hf. unfold build_msg. rewrite Hj.
  unfold classify, location_step, when_type. cbn [as_dict].
  rewrite Ht, He.
  destruct (py_float (dict_get_default "lat" (JInt 0) d)) as [lat|]; [|done].
  destruct Hf as [Hf|Hf]; [done|]. by rewrite Hf.
Qed.

(** ** What a history holds *)

Lemma append_history_view room_id msg h h' r :
  append_history room_id msg h = Some h' →
  history_of h' r =
  if decide (room_id = r) then history_of h r ++ [msg] else history_of h r.
Proof.
  unfold append_history, history_of.
  destruct (rooms_messages h !! room_id) as [hist|] eqn:E; [|done].
  intros [= <-]. simpl. case_decide; subst.
  - by rewrite lookup_insert_eq, E.
  - by rewrite lookup_insert_ne.
Qed.

Lemma destroy_room_history u room_id h r :
  owner_forbids h room_id u = false →
  history_of (hub_after (destroy_room (Some u) room_id h)) r =
  if decide (room_id = r) then [] else history_of h r.
Proof.
  intros Ho. unfold destroy_room. rewrite Ho. unfold history_of. simpl.
  case_decide; subst.
  - by rewrite lookup_delete_eq.
  - by rewrite lookup_delete_ne.
Qed.

Lemma no_system_event_step op h :
  no_system_event h → no_system_event (apply_op op h).1.
Proof.
  apply (apply_op_invariant no_system_event (λ _, True)); try done.
  - intros r h0 HP r' msg. rewrite ensure_room_history. apply HP.
  - intros r m f h0 HP r' msg. unfold history_of.
    destruct (broadcast_frame r m f h0) as (-> & _). apply HP.
  - intros r data user ts h0 h' Ha HP r' msg.
    rewrite (append_history_view _ _ _ _ r' Ha). case_decide; [|apply HP].
    rewrite elem_of_app, list_elem_of_singleton. intros [Hin| ->].
    + by apply (HP r').
    + destruct (build_msg_kind data user ts) as (kind & Hk & ->).
      intros [= ->]. unfold recognized_kinds in Hk. set_solver.
  - intros u r h0 _ Ho HP r' msg. rewrite destroy_room_history by done.
    case_decide; [by intros Hin; apply elem_of_nil in Hin|apply HP].
Qed.

(** X3: a history never holds a [system] event.  In every state the hub
    can reach from its start, each stored event is a content event built by
    the receive loop; the join and leave notices are sent but not stored, so
    no replay ever repeats them. *)
Theorem X3_histories_hold_no_system_event ops :
  no_system_event (run ops empty_hub).1.
Proof.
  apply (run_invariant no_system_event (λ _, True)).
  - intros op h _. apply no_system_event_step.
  - by apply Forall_forall.
  - intros r msg Hin. by apply elem_of_nil in Hin.
Qed.

(** ** Room state is all or nothing *)

Lemma setdefault_dom {V} (k : string) (v : V) (d : gmap string V) :
  dom (setdefault k v d) = {[k]} ∪ dom d.
Proof.
  unfold setdefault. destruct (d !! k) eqn:E.
  - apply elem_of_dom_2 in E. set_solver.
  - apply dom_insert_L.
Qed.




(** ** Who is online *)

Lemma online_entry_id metas uid : online_id (online_entry metas uid) = uid.
Proof. unfold online_entry. by destruct (metas !! uid). Qed.

Lemma online_users_ids h room_id uid :
  uid ∈ map online_id (online_users h room_id) ↔
  user_sockets_of h room_id uid ≠ ∅.
Proof.
  unfold online_users, user_sockets_of.
  set (inner := default ∅ (rooms_user_sockets h !! room_id)).
  set (metas := default ∅ (rooms_user_meta h !! room_id)).
  rewrite list_elem_of_fmap. split.
  - intros (e & -> & He). apply list_elem_of_omap in He as ([u sockets] & Hin & He).
    apply elem_of_map_to_list in Hin. case_decide as Hs; [done|].
    injection He as <-. rewrite online_entry_id, Hin. done.
  - intros Hne. destruct (inner !! uid) as [sockets|] eqn:E; [|done].
    exists (online_entry metas uid). split; [by rewrite online_entry_id|].
    apply list_elem_of_omap. exists (uid, sockets). split.
    + by apply elem_of_map_to_list.
    + by rewrite decide_False.
Qed.

Lemma online_users_NoDup h room_id :
  NoDup (map online_id (online_users h room_id)).
Proof.
  unfold online_users.
  set (inner := default ∅ (rooms_user_sockets h !! room_id)).
  set (metas := default ∅ (rooms_user_meta h !! room_id)).
  pose proof (NoDup_fst_map_to_list inner) as Hnd.
  eapply sublist_NoDup; [exact Hnd|]. clear Hnd.
  induction (map_to_list inner) as [|[u sockets] rest IH]; simpl; [done|].
  case_decide; simpl.
  - by apply sublist_cons.
  - rewrite online_entry_id. by apply sublist_skip.
Qed.

(** What [room_online] answers a logged-in caller: the list of the users
    with a socket when the room has an owner, 404 when it has none. *)
Lemma room_online_owned asker room_id h owner :
  rooms_owner h !! room_id = Some owner →
  owner ≠ "" →
  room_online (Some asker) room_id h = Reply200 (online_users h room_id).
Proof.
  intros Ho Hne. unfold room_online. rewrite Ho.
  by destruct (String.eqb_spec owner "").
Qed.

Lemma room_online_ownerless asker room_id h :
  rooms_owner h !! room_id = None →
  room_online (Some asker) room_id h = ReplyError 404.
Proof. intros Ho. unfold room_online. by rewrite Ho. Qed.

(** The websocket handlers never write [rooms_owner]. *)
Lemma ws_connect_owner ws session room_id ts fails h :
  rooms_owner (hub_after (ws_connect ws session room_id ts fails h))
  = rooms_owner h.
Proof.
  unfold ws_connect. destruct session as [user|]; [|done].
  destruct (negb (uuid_ok room_id)); [done|]. cbv zeta.
  destruct (decide (room_id ∈ rooms_deleted (ensure_room room_id h))); [done|].
  destruct (decide (user_id user ∈ banned_of (ensure_room room_id h) room_id));
    [done|].
  match goal with
  | |- context [broadcast ?r ?m ?f ?x] =>
      pose proof (broadcast_frame r m f x) as (_ & Ho & _);
      destruct (broadcast r m f x) as [h3 acts]
  end.
  destruct (replay ws (fails ws) (history_of h3 room_id)) as [replayed finished].
  cbn [hub_after fst] in *. by rewrite Ho.
Qed.

Lemma ws_disconnect_owner ws user room_id ts fails h :
  rooms_owner (hub_after (ws_disconnect ws user room_id ts fails h))
  = rooms_owner h.
Proof.
  unfold ws_disconnect. rewrite leave_unfold.
  destruct (rooms_connections h !! room_id) as [conns|]; [|done]. cbv zeta.
  destruct (decide _); [|done].
  match goal with
  | |- context [broadcast ?r ?m ?f ?x] =>
      pose proof (broadcast_frame r m f x) as (_ & Ho & _);
      destruct (broadcast r m f x) as [h3 acts]
  end.
  cbn [hub_after fst] in *. by rewrite Ho.
Qed.

(** X6: [room_online] lists exactly the users who have a socket in the
    room, each once, however many devices they use; it answers 404, and
    nothing else, exactly when the room has no recorded owner (a missing or
    an empty one), whoever is connected.  A destroyed room therefore answers
    404. *)
Theorem X6_room_online_lists_users_with_a_socket caller room_id h :
  match room_online (Some caller) room_id h with
  | Reply200 users =>
      (∃ owner, rooms_owner h !! room_id = Some owner ∧ owner ≠ "") ∧
      (∀ uid, uid ∈ map online_id users ↔ user_sockets_of h room_id uid ≠ ∅) ∧
      NoDup (map online_id users)
  | ReplyError status =>
      status = 404%Z ∧
      (rooms_owner h !! room_id = None ∨ rooms_owner h !! room_id = Some "")
  end ∧
  ∀ destroyer,
    outcome (destroy_room destroyer room_id h) = HttpOk →
    room_online (Some caller) room_id
      (hub_after (destroy_room destroyer room_id h)) = ReplyError 404.
Proof.
  split.
  - unfold room_online. destruct (rooms_owner h !! room_id) as [owner|]; [|by split; [|left]].
    destruct (String.eqb_spec owner "") as [->|Hne]; [by split; [|right]|].
    split_and!.
    + by exists owner.
    + apply online_users_ids.
    + apply online_users_NoDup.
  - intros destroyer. unfold destroy_room. destruct destroyer as [u|]; [|done].
    destruct (owner_forbids h room_id u); [done|]. intros _.
    unfold room_online. simpl. by rewrite lookup_delete_eq.
Qed.

(** X7: kicking or banning does not change who is online.  Whatever the
    call answers, [room_online] gives after it what it gave before, for
    every room: the closed sockets stay listed until their own handlers
    have torn them down. *)
Theorem X7_kick_and_ban_do_not_change_who_is_online caller room_id uid h :
  ∀ asker r,
    room_online asker r (hub_after (kick_user caller room_id uid h))
    = room_online asker r h ∧
    room_online asker r (hub_after (ban_user caller room_id uid h))
    = room_online asker r h.
Proof.
  intros asker r. unfold kick_user, ban_user.
  destruct caller as [u|]; [|done].
  destruct (owner_forbids h room_id u); [done|].
  unfold room_online, online_users, add_ban, ensure_room. simpl.
  by rewrite !setdefault_default.
Qed.

(** ** Sockets and their users *)

Lemma register_user_meta ws user room_id h r u :
  user_meta_of (register ws user room_id (ensure_room room_id h)) r u =
  if decide (room_id = r ∧ user_id user = u)
  then Some (mkMeta (username user) (avatar_path user))
  else user_meta_of h r u.
Proof.
  unfold user_meta_of, register, ensure_room; simpl.
  destruct (decide (room_id = r)) as [<-|Hr].
  - rewrite lookup_insert_eq. simpl. rewrite !setdefault_default.
    destruct (decide (user_id user = u)) as [<-|Hu].
    + rewrite lookup_insert_eq. by rewrite decide_True.
    + rewrite lookup_insert_ne by done. by rewrite decide_False by tauto.
  - rewrite lookup_insert_ne by done. rewrite decide_False by tauto.
    by rewrite !setdefault_default.
Qed.

Lemma destroy_room_views u room_id h r v :
  owner_forbids h room_id u = false →
  let h' := hub_after (destroy_room (Some u) room_id h) in
  conns_of h' r = (if decide (room_id = r) then ∅ else conns_of h r) ∧
  user_sockets_of h' r v =
    (if decide (room_id = r) then ∅ else user_sockets_of h r v) ∧
  user_meta_of h' r v =
    (if decide (room_id = r) then None else user_meta_of h r v) ∧
  banned_of h' r = (if decide (room_id = r) then ∅ else banned_of h r).
Proof.
  intros Ho. unfold destroy_room. rewrite Ho.
  unfold conns_of, user_sockets_of, user_meta_of, banned_of. simpl.
  case_decide; subst.
  - by rewrite !lookup_delete_eq.
  - by rewrite !lookup_delete_ne.
Qed.

Lemma registered_step op h : registered h → registered (apply_op op h).1.
Proof.
  apply (apply_op_invariant registered (λ _, True)); try done.
  - intros r h0 [Ha Hb]. split.
    + intros r' c. rewrite ensure_room_conns. intros Hc.
      destruct (Ha r' c Hc) as [u Hu]. exists u.
      by rewrite ensure_room_user_sockets.
    + intros r' u. rewrite ensure_room_user_sockets, ensure_room_user_meta.
      apply Hb.
  - intros r m f h0 [Ha Hb].
    destruct (broadcast_frame r m f h0) as (_ & _ & _ & Hs & Hu & _).
    split.
    + intros r' c Hc. apply broadcast_conns in Hc as [Hc _].
      destruct (Ha r' c Hc) as [u Hin]. exists u.
      unfold user_sockets_of. by rewrite Hs.
    + intros r' u. unfold user_sockets_of, user_meta_of. rewrite Hs, Hu.
      apply Hb.
  - intros ws user r h0 _ [Ha Hb]. split.
    + intros r' c. rewrite register_conns. intros Hc.
      destruct (decide (r = r' ∧ c = ws)) as [[<- ->]|Hne].
      * exists (user_id user). rewrite register_user_sockets.
        rewrite decide_True by done. rewrite elem_of_union, elem_of_singleton.
        by left.
      * assert (c ∈ conns_of h0 r') as Hc0.
        { case_decide; [|done]. subst.
          apply elem_of_union in Hc as [Hc|Hc]; [|done].
          apply elem_of_singleton in Hc. tauto. }
        rewrite <- (ensure_room_conns r) in Hc0.
        destruct (Ha r' c Hc0) as [u Hu].
        rewrite ensure_room_user_sockets in Hu. exists u.
        rewrite register_user_sockets.
        destruct (decide (r = r' ∧ user_id user = u));
          [rewrite elem_of_union; by right|done].
    + intros r' u. rewrite register_user_sockets, register_user_meta.
      case_decide; [done|]. intros Hne.
      specialize (Hb r' u).
      rewrite ensure_room_user_sockets, ensure_room_user_meta in Hb. by apply Hb.
  - intros ws uid r conns h0 Hc [Ha Hb]. split.
    + intros r' c. rewrite (after_discards_conns _ _ _ _ _ _ Hc). intros Hin.
      assert (c ∈ conns_of h0 r' ∧ (r = r' → c ≠ ws)) as [Hin0 Hne].
      { case_decide; [|by split]. set_solver. }
      clear Hin. destruct (Ha r' c Hin0) as [u Hu]. exists u.
      rewrite after_discards_user_sockets.
      destruct (decide (r = r' ∧ uid = u)) as [[Hr _]|]; [|done].
      specialize (Hne Hr). set_solver.
    + intros r' u. rewrite after_discards_user_sockets. intros Hne.
      apply Hb. destruct (decide (r = r' ∧ uid = u)); [|done]. set_solver.
  - intros uid r h0 Hempty [Ha Hb]. split; [apply Ha|].
    intros r' u Hne. rewrite after_pop_user_meta.
    destruct (decide (r = r' ∧ uid = u)) as [[<- <-]|]; [done|by apply Hb].
  - intros r data user ts h0 h'. unfold append_history.
    destruct (rooms_messages h0 !! r); [|done]. by intros [= <-].
  - intros u r h0 _ Ho [Ha Hb]. split.
    + intros r' c Hc.
      destruct (destroy_room_views u r h0 r' "" Ho) as (Hconns & _).
      rewrite Hconns in Hc. destruct (decide (r = r')) as [|Hr]; [set_solver|].
      destruct (Ha r' c Hc) as [v Hv]. exists v.
      destruct (destroy_room_views u r h0 r' v Ho) as (_ & -> & _).
      by rewrite decide_False.
    + intros r' v.
      destruct (destroy_room_views u r h0 r' v Ho) as (_ & -> & -> & _).
      case_decide; [done|apply Hb].
Qed.

Lemma registered_run ops : registered (run ops empty_hub).1.
Proof.
  apply (run_invariant registered (λ _, True)).
  - intros op h _. apply registered_step.
  - by apply Forall_forall.
  - split; [intros r c Hc; set_solver|intros r u Hne; done].
Qed.

(** X5: nobody listens anonymously.  In every state the hub can reach,
    each socket that is sent the events of a room is in the socket set of
    some user of that room, and each user who has a socket in a room has
    metadata there: [room_online] finds a name for everyone it lists and
    never falls back to the bare id. *)
Theorem X5_every_socket_has_a_user ops :
  let h := (run ops empty_hub).1 in
  (∀ r c, c ∈ conns_of h r → ∃ u, c ∈ user_sockets_of h r u) ∧
  (∀ r u, user_sockets_of h r u ≠ ∅ → is_Some (user_meta_of h r u)) ∧
  (∀ r e, e ∈ online_users h r →
          ∃ info, user_meta_of h r (online_id e) = Some info ∧
                  e = mkOnline (online_id e) (meta_username info) (meta_avatar info)).
Proof.
  intros h. destruct (registered_run ops) as [Ha Hb]. fold h in Ha, Hb.
  clearbody h. split_and!; [done|done|].
  intros r e He.
  assert (online_id e ∈ map online_id (online_users h r)) as Hid.
  { apply list_elem_of_fmap. by exists e. }
  apply online_users_ids, Hb in Hid as [info Hinfo]. exists info.
  split; [done|].
  unfold online_users in He. apply list_elem_of_omap in He as ([u s0] & _ & He).
  case_decide; [done|]. injection He as <-.
  rewrite online_entry_id in Hinfo. unfold online_entry.
  unfold user_meta_of in Hinfo. by rewrite Hinfo.
Qed.

(** ** Bans *)

Lemma shut_out_step uid room_id op h :
  redraws room_id op = false →
  shut_out uid room_id h → shut_out uid room_id (apply_op op h).1.
Proof.
  apply (apply_op_invariant (shut_out uid room_id)
           (λ op, redraws room_id op = false)); try done.
  - intros r h0. unfold shut_out. by rewrite ensure_room_banned.
  - intros r m f h0. unfold shut_out, banned_of.
    by destruct (broadcast_frame r m f h0) as (_ & _ & -> & _ & _ & ->).
  - intros r data user ts h0 h'. unfold append_history.
    destruct (rooms_messages h0 !! r); [|done]. by intros [= <-].
  - intros r u h0. unfold shut_out. rewrite add_ban_banned, ensure_room_banned.
    intros [Hb|Hd]; [left|by right]. case_decide; set_solver.
  - intros u fresh h0 Hg [Hb|Hd]; [by left|right].
    simpl in Hg. apply String.eqb_neq in Hg. simpl. set_solver.
  - intros u r h0 _ Ho [Hb|Hd].
    + destruct (decide (r = room_id)) as [->|Hr].
      * right. unfold destroy_room. rewrite Ho. simpl. set_solver.
      * left. destruct (destroy_room_views u r h0 room_id "" Ho) as (_ & _ & _ & ->).
        by rewrite decide_False.
    + right. unfold destroy_room. rewrite Ho. simpl. set_solver.
Qed.

(** X8: a ban outlives everything but the room.  Once [ban_user] has
    succeeded, then after any later requests and socket events among which
    no [new_room] draws the room's id again, every connect of the banned
    user to that room is turned away and joins nothing: with 4003 as long as
    the room is not tombstoned, with 4100 once it has been destroyed (the
    ban set goes with the room), with 1008 if the id is not a UUID. *)
Theorem X8_ban_outlives_everything_but_the_room caller room_id uid h0 ops :
  outcome (ban_user caller room_id uid h0) = HttpOk →
  Forall (λ op, redraws room_id op = false) ops →
  let h := (run ops (hub_after (ban_user caller room_id uid h0))).1 in
  ∀ ws user ts fails,
    user_id user = uid →
    let s := ws_connect ws (Some user) room_id ts fails h in
    (∃ code, outcome s = WsRejected code ∧ actions s = [Close ws code] ∧
             code ∈ [CLOSE_BANNED; CLOSE_TOMBSTONED; CLOSE_INVALID_ROOM]) ∧
    same_membership h (hub_after s) ∧
    (uuid_ok room_id = true → room_id ∉ rooms_deleted h →
     outcome s = WsRejected CLOSE_BANNED).
Proof.
  intros Hok Hops h ws user ts fails Huid s.
  assert (shut_out uid room_id h) as Hout.
  { unfold h. apply (run_invariant (shut_out uid room_id)
                       (λ op, redraws room_id op = false)); [|done|].
    - intros op h1. apply shut_out_step.
    - left. revert Hok. unfold ban_user. destruct caller as [u|]; [|done].
      destruct (owner_forbids h0 room_id u); [done|]. intros _.
      cbn [hub_after]. rewrite add_ban_banned, decide_True by done. set_solver. }
  clearbody h. unfold s. subst uid.
  destruct (uuid_ok room_id) eqn:Hu.
  - destruct (decide (room_id ∈ rooms_deleted h)) as [Hd|Hd].
    + rewrite ws_connect_tombstoned by done. split_and!.
      * exists CLOSE_TOMBSTONED. split_and!; try done. set_solver.
      * apply same_membership_ensure_room.
      * done.
    + destruct Hout as [Hb|Hdel]; [|done].
      rewrite ws_connect_banned by done. split_and!.
      * exists CLOSE_BANNED. split_and!; try done. set_solver.
      * apply same_membership_ensure_room.
      * done.
  - rewrite ws_connect_invalid_room by done. split_and!.
    + exists CLOSE_INVALID_ROOM. split_and!; try done. set_solver.
    + by intros r u.
    + done.
Qed.

(** ** Kick against ban *)



(** ** Ownership *)

Lemma owner_forbids_others h room_id owner other :
  rooms_owner h !! room_id = Some owner → owner ≠ "" →
  user_id other ≠ owner → owner_forbids h room_id other = true.
Proof.
  intros Ho Hne Hother. unfold owner_forbids. rewrite Ho.
  apply andb_true_iff. split; apply negb_true_iff, String.eqb_neq; done.
Qed.

Lemma owner_step owner room_id op h :
  owner ≠ "" →
  redraws room_id op = false ∧ destroyed_by owner room_id op = false →
  rooms_owner h !! room_id = Some owner →
  rooms_owner (apply_op op h).1 !! room_id = Some owner.
Proof.
  intros Hne.
  apply (apply_op_invariant (λ h, rooms_owner h !! room_id = Some owner)
           (λ op, redraws room_id op = false ∧
                  destroyed_by owner room_id op = false)); try done.
  - intros r m f h0.
    by destruct (broadcast_frame r m f h0) as (_ & -> & _).
  - intros r data user ts h0 h'. unfold append_history.
    destruct (rooms_messages h0 !! r); [|done]. by intros [= <-].
  - intros u fresh h0 [Hg _] Ho. simpl in Hg. apply String.eqb_neq in Hg.
    simpl. by rewrite lookup_insert_ne.
  - intros u r h0 [_ Hg] Hforbid Ho. unfold destroy_room. rewrite Hforbid.
    simpl. destruct (decide (r = room_id)) as [->|Hr].
    + exfalso. simpl in Hg. rewrite String.eqb_refl in Hg. simpl in Hg.
      apply String.eqb_neq in Hg.
      by rewrite (owner_forbids_others h0 room_id owner u) in Hforbid.
    + by rewrite lookup_delete_ne.
Qed.

(** X10: only its owner can end a room or moderate it.  After [new_room]
    by a user with a non-empty id, whatever happens next short of that
    user destroying the room or [new_room] drawing the id again, the room
    keeps its owner, and [destroy_room], [kick_user] and [ban_user] answer
    every other caller with 403, changing nothing and closing nothing.  A
    room without a recorded owner is moderated by any logged-in caller. *)
Theorem X10_only_the_owner_moderates owner room_id h0 ops :
  user_id owner ≠ "" →
  Forall (λ op, redraws room_id op = false ∧
                destroyed_by (user_id owner) room_id op = false) ops →
  let h := (run ops (hub_after (new_room (Some owner) room_id h0))).1 in
  rooms_owner h !! room_id = Some (user_id owner) ∧
  (∀ other uid,
     user_id other ≠ user_id owner →
     destroy_room (Some other) room_id h = mkStep h [] (HttpError 403) ∧
     kick_user (Some other) room_id uid h = mkStep h [] (HttpError 403) ∧
     ban_user (Some other) room_id uid h = mkStep h [] (HttpError 403)) ∧
  (∀ anyone uid h',
     rooms_owner h' !! room_id = None →
     outcome (destroy_room (Some anyone) room_id h') = HttpOk ∧
     outcome (kick_user (Some anyone) room_id uid h') = HttpOk ∧
     outcome (ban_user (Some anyone) room_id uid h') = HttpOk).
Proof.
  intros Hne Hops h.
  assert (rooms_owner h !! room_id = Some (user_id owner)) as Ho.
  { unfold h.
    apply (run_invariant (λ h, rooms_owner h !! room_id = Some (user_id owner))
             (λ op, redraws room_id op = false ∧
                    destroyed_by (user_id owner) room_id op = false)); [|done|].
    - intros op h1. by apply owner_step.
    - simpl. apply lookup_insert_eq. }
  clearbody h. split_and!; [done| |].
  - intros other uid Hother.
    pose proof (owner_forbids_others h room_id _ other Ho Hne Hother) as Hf.
    unfold destroy_room, kick_user, ban_user. by rewrite Hf.
  - intros anyone uid h' Hnone.
    unfold destroy_room, kick_user, ban_user, owner_forbids. by rewrite Hnone.
Qed.

(** ** Delivery over many frames *)

Lemma ws_receive_conns ws user room_id data ts ts' fails h hist r c :
  rooms_messages h !! room_id = Some hist →
  c ∈ conns_of (hub_after (ws_receive ws user room_id data ts ts' fails h)) r ↔
  c ∈ conns_of h r ∧ (r = room_id → fails c = false).
Proof.
  intros Hm. unfold ws_receive, append_history. rewrite Hm.
  match goal with
  | |- context [broadcast ?rm ?m ?f ?x] =>
      pose proof (broadcast_conns rm m f x r c) as Hb;
      destruct (broadcast rm m f x) as [h2 acts]
  end.
  exact Hb.
Qed.




(** ** A destroyed room is silent *)

Lemma sealed_silent r h :
  sealed r h →
  ∀ ws user data ts ts' fails msg,
    (broadcast r msg fails h).2 = [] ∧
    attempts (actions (ws_receive ws user r data ts ts' fails h)) = [] ∧
    attempts (actions (ws_disconnect ws user r ts fails h)) = [] ∧
    attempts (actions (ws_error ws user r ts fails h)) = [].
Proof.
  intros [Hd Hc] ws user data ts ts' fails msg.
  assert (∀ m f h0, conns_of h0 r = ∅ → (broadcast r m f h0).2 = []) as Hquiet.
  { intros m f h0 H0. by rewrite broadcast_actions, H0, elements_empty. }
  assert (∀ t f, attempts (match leave ws user r t f h with
                           | Some (_, acts) => acts
                           | None => []
                           end) = []) as Hleave.
  { intros t f. rewrite leave_unfold.
    destruct (rooms_connections h !! r) as [conns|] eqn:E; [|done].
    cbv zeta. case_decide; [|done].
    match goal with
    | |- context [broadcast ?rm ?m ?f0 ?x] =>
        pose proof (Hquiet m f0 x) as Hq;
        destruct (broadcast rm m f0 x) as [h2 acts]
    end.
    cbn [snd] in Hq. rewrite Hq; [done|].
    unfold conns_of, after_pop, after_discards. simpl.
    rewrite lookup_insert_eq. simpl. unfold conns_of in Hc. rewrite E in Hc.
    simpl in Hc. set_solver. }
  assert (attempts (actions (ws_error ws user r ts fails h)) = []) as Herr.
  { specialize (Hleave ts fails). unfold ws_error.
    destruct (leave ws user r ts fails h) as [[h' acts]|]; [|done].
    cbn [actions].
    assert (∀ a b, attempts (a ++ b) = attempts a ++ attempts b) as Happ.
    { intros a b. induction a as [|[]]; simpl; [done| |done]. by rewrite IHa. }
    by rewrite Happ, Hleave. }
  split_and!.
  - by apply Hquiet.
  - unfold ws_receive, append_history.
    destruct (rooms_messages h !! r) as [hist|].
    + match goal with
      | |- context [broadcast ?rm ?m ?f ?x] =>
          pose proof (Hquiet m f x) as Hq;
          destruct (broadcast rm m f x) as [h2 acts]
      end.
      cbn [actions snd] in *. by rewrite Hq.
    + specialize (Hleave ts' fails). unfold ws_error.
      destruct (leave ws user r ts' fails h) as [[h' acts]|]; [|done].
      cbn [actions].
      assert (∀ a b, attempts (a ++ b) = attempts a ++ attempts b) as Happ.
      { intros a b. induction a as [|[]]; simpl; [done| |done]. by rewrite IHa. }
      by rewrite Happ, Hleave.
  - specialize (Hleave ts fails). unfold ws_disconnect.
    by destruct (leave ws user r ts fails h) as [[h' acts]|].
  - done.
Qed.

(** X14: a destroyed room is silent.  Once [destroy_room] has succeeded,
    then after any later requests and socket events among which no
    [new_room] draws the id again, nothing is sent to anybody in that room:
    a frame from a socket that was still open, its disconnect or its error
    teardown, and any pass over the room attempt no send at all. *)
Theorem X14_nothing_is_sent_in_a_destroyed_room caller room_id h0 ops :
  outcome (destroy_room caller room_id h0) = HttpOk →
  Forall (λ op, redraws room_id op = false) ops →
  let h := (run ops (hub_after (destroy_room caller room_id h0))).1 in
  ∀ ws user data ts ts' fails msg,
    (broadcast room_id msg fails h).2 = [] ∧
    attempts (actions (ws_receive ws user room_id data ts ts' fails h)) = [] ∧
    attempts (actions (ws_disconnect ws user room_id ts fails h)) = [] ∧
    attempts (actions (ws_error ws user room_id ts fails h)) = [].
Proof.
  intros Hok Hops h. apply sealed_silent.
  apply sealed_run; [done|]. by apply sealed_destroy_room.
Qed.

(** ** Tearing down twice *)

(** The teardown of a socket that is in neither set of its room. *)
Lemma leave_of_a_stranger ws user room_id ts fails h conns :
  rooms_connections h !! room_id = Some conns →
  ws ∉ conns →
  ws ∉ user_sockets_of h room_id (user_id user) →
  leave ws user room_id ts fails h =
  if decide (user_sockets_of h room_id (user_id user) = ∅)
  then Some (broadcast room_id (left_event user ts) fails
               (after_pop (user_id user) room_id h))
  else Some (h, []).
Proof.
  intros Hc Hws Hu. rewrite leave_unfold, Hc. cbv zeta.
  by rewrite (after_discards_noop ws (user_id user) room_id conns h Hc Hws Hu).
Qed.

(** X12: tearing a socket down twice only repeats the notice.  A second
    teardown of the same socket ends the way the first did and leaves the
    history, the per-user sockets, the metadata, the bans, the owners and
    the tombstones as the first left them.  When the user has a socket left
    in the room it does nothing at all.  When he has none, it sends the
    departure notice once more, to every socket still in the room; the
    sockets on which this second send fails are dropped from the connection
    set, and if none fails the hub is exactly as the first teardown left
    it. *)
Theorem X12_second_teardown_repeats_only_the_notice
  ws user room_id ts ts' fails fails' h :
  let once := ws_disconnect ws user room_id ts fails h in
  let twice := ws_disconnect ws user room_id ts' fails' (hub_after once) in
  outcome twice = outcome once ∧
  rooms_messages (hub_after twice) = rooms_messages (hub_after once) ∧
  rooms_user_sockets (hub_after twice) = rooms_user_sockets (hub_after once) ∧
  rooms_user_meta (hub_after twice) = rooms_user_meta (hub_after once) ∧
  rooms_banned (hub_after twice) = rooms_banned (hub_after once) ∧
  rooms_owner (hub_after twice) = rooms_owner (hub_after once) ∧
  rooms_deleted (hub_after twice) = rooms_deleted (hub_after once) ∧
  (outcome once = WsEnded →
   if decide (user_sockets_of (hub_after once) room_id (user_id user) = ∅)
   then actions twice =
          map (λ c, Send c (left_event user ts') (negb (fails' c)))
              (elements (conns_of (hub_after once) room_id)) ∧
        rooms_connections (hub_after twice) =
          alter (filter (λ c, fails' c = false)) room_id
                (rooms_connections (hub_after once))
   else actions twice = [] ∧ hub_after twice = hub_after once) ∧
  (outcome once ≠ WsEnded →
   actions twice = [] ∧ hub_after twice = hub_after once) ∧
  ((∀ c, c ∈ conns_of (hub_after once) room_id → fails' c = false) →
   hub_after twice = hub_after once).
Proof.
  intros once twice. unfold twice, once, ws_disconnect.
  rewrite (leave_unfold ws user room_id ts fails h).
  destruct (rooms_connections h !! room_id) as [conns|] eqn:Hc.
  2:{ cbn [hub_after]. rewrite leave_unfold, Hc. by split_and!. }
  cbv zeta.
  set (h1 := after_discards ws (user_id user) room_id conns h).
  assert (rooms_connections h1 !! room_id = Some (conns ∖ {[ws]})) as Hc1.
  { unfold h1, after_discards. simpl. apply lookup_insert_eq. }
  assert (ws ∉ user_sockets_of h1 room_id (user_id user)) as Hu1.
  { unfold h1. rewrite after_discards_user_sockets, decide_True by done.
    set_solver. }
  destruct (decide (user_sockets_of h1 room_id (user_id user) = ∅)) as [Hlast|Hmore].
  - set (h2 := after_pop (user_id user) room_id h1).
    pose proof (broadcast_frame room_id (left_event user ts) fails h2)
      as (Hm & Ho & Hb & Hs & Hu & Hd).
    pose proof (broadcast_connections room_id (left_event user ts) fails h2) as Hconn.
    destruct (broadcast room_id (left_event user ts) fails h2) as [h3 acts] eqn:Hb3.
    cbn [fst snd hub_after outcome actions] in *.
    assert (rooms_connections h3 !! room_id
            = Some (filter (λ c, fails c = false) (conns ∖ {[ws]}))) as Hc3.
    { rewrite Hconn, lookup_alter_eq. unfold h2, after_pop.
      cbn [rooms_connections]. by rewrite Hc1. }
    assert (user_sockets_of h3 room_id (user_id user) = ∅) as Hu3.
    { unfold user_sockets_of. rewrite Hs. exact Hlast. }
    assert (user_meta_of h3 room_id (user_id user) = None) as Hm3.
    { unfold user_meta_of. rewrite Hu. fold (user_meta_of h2 room_id (user_id user)).
      unfold h2. rewrite after_pop_user_meta. by rewrite decide_True. }
    rewrite (leave_of_a_stranger ws user room_id ts' fails' h3 _ Hc3);
      [|set_solver|rewrite Hu3; set_solver].
    rewrite decide_True by done.
    rewrite (after_pop_noop _ _ _ Hm3).
    pose proof (broadcast_frame room_id (left_event user ts') fails' h3)
      as (Hm' & Ho' & Hb' & Hs' & Hu' & Hd').
    pose proof (broadcast_connections room_id (left_event user ts') fails' h3)
      as Hconn'.
    pose proof (broadcast_actions room_id (left_event user ts') fails' h3) as Hacts.
    pose proof (broadcast_healthy room_id (left_event user ts') fails' h3) as Hsame.
    destruct (broadcast room_id (left_event user ts') fails' h3) as [h4 acts4].
    cbn [fst snd hub_after outcome actions] in *.
    split_and!; try done.
    intros _. by rewrite decide_True.
  - cbn [hub_after outcome actions].
    rewrite (leave_of_a_stranger ws user room_id ts' fails' h1 _ Hc1);
      [|set_solver|done].
    rewrite decide_False by done. cbn [hub_after outcome actions].
    split_and!; try done. intros _. by rewrite decide_False.
Qed.

(** ** Joining and leaving again *)

Lemma register_connections_lookup ws user room_id h :
  rooms_connections (register ws user room_id (ensure_room room_id h)) !! room_id
  = Some ({[ws]} ∪ conns_of h room_id).
Proof.
  unfold register, ensure_room, conns_of. simpl.
  rewrite lookup_alter_eq, setdefault_lookup, decide_True by done. simpl.
  by destruct (rooms_connections h !! room_id).
Qed.

(** X11: joining and leaving again restores the membership.  When a
    socket that is not yet in a room joins it and then disconnects, no send
    failing meanwhile, every room has the sockets, the per-user sockets, the
    history and the bans it had before; in between the socket was a member.
    The departure is announced to the sockets of the room exactly when the
    user had no other socket there. *)
Theorem X11_join_then_leave_restores_membership
  ws user room_id ts ts' fails fails' h :
  uuid_ok room_id = true →
  room_id ∉ rooms_deleted h →
  user_id user ∉ banned_of h room_id →
  ws ∉ conns_of h room_id →
  ws ∉ user_sockets_of h room_id (user_id user) →
  (∀ c, fails c = false) →
  (∀ c, fails' c = false) →
  let joined := ws_connect ws (Some user) room_id ts fails h in
  let left := ws_disconnect ws user room_id ts' fails' (hub_after joined) in
  outcome left = WsEnded ∧
  ws ∈ conns_of (hub_after joined) room_id ∧
  ws ∈ user_sockets_of (hub_after joined) room_id (user_id user) ∧
  (∀ r u,
     conns_of (hub_after left) r = conns_of h r ∧
     user_sockets_of (hub_after left) r u = user_sockets_of h r u ∧
     history_of (hub_after left) r = history_of h r ∧
     banned_of (hub_after left) r = banned_of h r) ∧
  actions left =
    if decide (user_sockets_of h room_id (user_id user) = ∅)
    then map (λ c, Send c (left_event user ts') true)
             (elements (conns_of h room_id))
    else [].
Proof.
  intros Hu Hd Hb Hws Hus Hok Hok' joined left.
  set (h2 := register ws user room_id (ensure_room room_id h)).
  assert (hub_after joined = h2) as Hj.
  { unfold joined.
    destruct (ws_connect_accepted ws user room_id ts fails h Hu Hd Hb) as (-> & _).
    apply broadcast_healthy. intros c _. apply Hok. }
  pose proof (register_connections_lookup ws user room_id h) as Hc2.
  fold h2 in Hc2.
  set (h1 := after_discards ws (user_id user) room_id
               ({[ws]} ∪ conns_of h room_id) h2).
  assert (∀ r u,
            conns_of h1 r = conns_of h r ∧
            user_sockets_of h1 r u = user_sockets_of h r u ∧
            history_of h1 r = history_of h r ∧
            banned_of h1 r = banned_of h r) as Hviews.
  { intros r u. unfold h1.
    rewrite (after_discards_conns _ _ _ _ _ _ Hc2), after_discards_user_sockets.
    unfold h2. rewrite register_conns, register_user_sockets.
    split_and!.
    - destruct (decide (room_id = r)) as [<-|]; [set_solver|done].
    - destruct (decide (room_id = r ∧ user_id user = u)) as [[<- <-]|];
        [set_solver|done].
    - apply ensure_room_history.
    - apply ensure_room_banned. }
  assert (left = match (if decide (user_sockets_of h1 room_id (user_id user) = ∅)
                        then Some (broadcast room_id (left_event user ts') fails'
                                     (after_pop (user_id user) room_id h1))
                        else Some (h1, []))
                 with
                 | Some (h', acts) => mkStep h' acts WsEnded
                 | None => mkStep h2 [] WsRaised
                 end) as Hleft.
  { unfold left, ws_disconnect. rewrite Hj, leave_unfold, Hc2. done. }
  assert (user_sockets_of h1 room_id (user_id user)
          = user_sockets_of h room_id (user_id user)) as Hsame by apply Hviews.
  split_and!.
  - rewrite Hleft. case_decide; [|done].
    by destruct (broadcast room_id (left_event user ts') fails' _).
  - rewrite Hj. unfold h2. rewrite register_conns, decide_True by done.
    set_solver.
  - rewrite Hj. unfold h2. rewrite register_user_sockets, decide_True by done.
    set_solver.
  - intros r u. rewrite Hleft.
    destruct (decide (user_sockets_of h1 room_id (user_id user) = ∅)); [|apply Hviews].
    rewrite (surjective_pairing (broadcast _ _ _ _)). cbn [hub_after].
    rewrite broadcast_healthy by (intros c _; apply Hok').
    apply (Hviews r u).
  - rewrite Hleft, Hsame.
    destruct (decide (user_sockets_of h room_id (user_id user) = ∅)); [|done].
    rewrite (surjective_pairing (broadcast _ _ _ _)). cbn [actions].
    rewrite broadcast_actions.
    assert (conns_of (after_pop (user_id user) room_id h1) room_id
            = conns_of h room_id) as -> by apply (Hviews room_id "").
    apply map_ext_in. intros c _. by rewrite Hok'.
Qed.

(** ** The history of a room *)

Lemma leave_messages ws user room_id ts fails h h' acts :
  leave ws user room_id ts fails h = Some (h', acts) →
  rooms_messages h' = rooms_messages h.
Proof.
  rewrite leave_unfold.
  destruct (rooms_connections h !! room_id) as [conns|]; [|done].
  cbv zeta. case_decide.
  - intros [= Heq]. apply (f_equal fst) in Heq. cbn [fst] in Heq. subst h'.
    by destruct (broadcast_frame room_id (left_event user ts) fails
                   (after_pop (user_id user) room_id
                      (after_discards ws (user_id user) room_id conns h)))
      as (-> & _).
  - by intros [= <- _].
Qed.

Lemma history_step r op h hist :
  destroys r op = false →
  rooms_messages h !! r = Some hist →
  rooms_messages (apply_op op h).1 !! r =
  Some (hist ++ events_of (option_list (frame_in r op))).
Proof.
  intros Hg Hm.
  assert (∀ ws user room_id ts fails,
            rooms_messages (hub_after (ws_error ws user room_id ts fails h)) !! r
            = Some hist ∧
            rooms_messages (hub_after (ws_disconnect ws user room_id ts fails h)) !! r
            = Some hist) as Hdown.
  { intros ws user room_id ts fails. unfold ws_error, ws_disconnect.
    destruct (leave ws user room_id ts fails h) as [[h' acts]|] eqn:Hl; [|done].
    cbn [hub_after]. by rewrite (leave_messages _ _ _ _ _ _ _ _ Hl). }
  destruct op as [caller fresh|caller room_id|caller room_id|caller room_id uid
                 |caller room_id uid|ws session room_id ts fails
                 |ws user room_id data ts ts' fails|ws user room_id ts fails
                 |ws user room_id ts fails];
    cbn [apply_op forget fst frame_in option_list events_of map];
    rewrite ?app_nil_r.
  - unfold new_room. by destruct caller.
  - unfold chat_room. destruct caller; [|done].
    destruct (negb (uuid_ok room_id)); [done|]. case_decide; [done|].
    cbn [hub_after]. unfold ensure_room. simpl. by apply setdefault_keeps.
  - unfold destroy_room. destruct caller as [u|]; [|done].
    destruct (owner_forbids h room_id u); [done|]. simpl in *.
    apply String.eqb_neq in Hg. by rewrite lookup_delete_ne.
  - unfold kick_user. destruct caller as [u|]; [|done].
    destruct (owner_forbids h room_id u); [done|].
    cbn [hub_after]. unfold ensure_room. simpl. by apply setdefault_keeps.
  - unfold ban_user. destruct caller as [u|]; [|done].
    destruct (owner_forbids h room_id u); [done|].
    cbn [hub_after]. unfold add_ban, ensure_room. simpl. by apply setdefault_keeps.
  - assert (rooms_messages (ensure_room room_id h) !! r = Some hist) as He.
    { unfold ensure_room. simpl. by apply setdefault_keeps. }
    destruct session as [user|]; [|done].
    destruct (uuid_ok room_id) eqn:Hu; [|by rewrite ws_connect_invalid_room].
    destruct (decide (room_id ∈ rooms_deleted h)) as [Hd|Hd].
    { by rewrite ws_connect_tombstoned. }
    destruct (decide (user_id user ∈ banned_of h room_id)) as [Hb|Hb].
    { by rewrite ws_connect_banned. }
    destruct (ws_connect_accepted ws user room_id ts fails h Hu Hd Hb) as (-> & _).
    by destruct (broadcast_frame room_id (joined_event user ts) fails
                   (register ws user room_id (ensure_room room_id h)))
      as (-> & _).
  - destruct (String.eqb_spec room_id r) as [->|Hr].
    + destruct (ws_receive_present ws user r data ts ts' fails h hist Hm)
        as (_ & -> & _).
      cbn [option_list events_of map frame_data frame_user frame_ts].
      apply lookup_insert_eq.
    + cbn [option_list events_of map]. rewrite app_nil_r.
      unfold ws_receive, append_history.
      destruct (rooms_messages h !! room_id) as [other|]; [|apply Hdown].
      match goal with
      | |- context [broadcast ?rm ?m ?f ?x] =>
          pose proof (broadcast_frame rm m f x) as (Hf & _);
          destruct (broadcast rm m f x) as [h2 acts]
      end.
      cbn [hub_after fst] in *. rewrite Hf. simpl. by rewrite lookup_insert_ne.
  - apply Hdown.
  - apply Hdown.
Qed.

(** X16: the history of a room is the list of the frames it received.
    From a state in which the room has a history, after any requests and
    socket events that do not destroy the room, the history is the old one
    followed by the events built from the frames that came in for that
    room, in arrival order, and by nothing else: joins, leaves, kicks, bans,
    page views, new rooms and traffic in other rooms leave it alone. *)
Theorem X16_history_is_the_frames_received room_id ops h hist :
  rooms_messages h !! room_id = Some hist →
  Forall (λ op, destroys room_id op = false) ops →
  rooms_messages (run ops h).1 !! room_id =
  Some (hist ++ events_of (frames_in room_id ops)).
Proof.
  revert h hist. induction ops as [|op rest IH]; intros h hist Hm Hops.
  - simpl. by rewrite app_nil_r.
  - apply Forall_cons in Hops as [Hop Hrest].
    rewrite run_cons. cbn [fst].
    rewrite (IH _ _ (history_step room_id op h hist Hop Hm) Hrest).
    f_equal. rewrite <- app_assoc. f_equal.
    unfold frames_in, events_of. cbn [omap list_omap].
    destruct (frame_in room_id op); simpl; done.
Qed.

(** ** Connects that fail *)

(** X17: a connect that is turned away closes its socket and does nothing
    else but create the room's empty dictionaries.  Whenever
    [websocket_endpoint] rejects a connect, it sends nothing and closes
    that one socket with the code it reports, which is 1008, 4100 or 4003.
    Rejected with 1008 (no session, or a room id that is no UUID), it leaves
    the hub exactly as it was.  Rejected with 4100 or 4003, it leaves the hub
    as [ensure_room] leaves it, because [ensure_room] runs before the
    tombstone and the ban are looked at: the room has its five dictionaries
    afterwards, empty ones where it had none, so that a frame for that room
    is stored from then on instead of raising; no entry that existed, no
    ban, no owner and no tombstone is changed. *)
Theorem X17_rejected_connect_only_ensures_the_room
  ws session room_id ts fails h code :
  let s := ws_connect ws session room_id ts fails h in
  outcome s = WsRejected code →
  actions s = [Close ws code] ∧
  code ∈ [CLOSE_UNAUTHENTICATED; CLOSE_TOMBSTONED; CLOSE_BANNED] ∧
  (code = CLOSE_UNAUTHENTICATED → hub_after s = h) ∧
  (code ≠ CLOSE_UNAUTHENTICATED →
   hub_after s = ensure_room room_id h ∧
   rooms_messages (hub_after s) !! room_id
   = Some (history_of h room_id) ∧
   rooms_connections (hub_after s) !! room_id
   = Some (conns_of h room_id) ∧
   room_id ∈ dom (rooms_banned (hub_after s)) ∧
   room_id ∈ dom (rooms_user_sockets (hub_after s)) ∧
   room_id ∈ dom (rooms_user_meta (hub_after s)) ∧
   ∀ ws' user' data ts1 ts2 fails',
     outcome (ws_receive ws' user' room_id data ts1 ts2 fails' (hub_after s))
     = WsActive) ∧
  same_membership h (hub_after s) ∧
  keeps_entries h (hub_after s) ∧
  (∀ r, banned_of (hub_after s) r = banned_of h r) ∧
  rooms_owner (hub_after s) = rooms_owner h ∧
  rooms_deleted (hub_after s) = rooms_deleted h.
Proof.
  intros s. unfold s.
  assert (same_membership h h) as Hrefl by (by intros r u).
  assert (keeps_entries h h) as Hkeep by (by intros r).
  assert (rooms_messages (ensure_room room_id h) !! room_id
          = Some (history_of h room_id)) as Hhist.
  { unfold ensure_room. cbn [rooms_messages]. rewrite setdefault_lookup.
    by rewrite decide_True. }
  assert (hub_after (mkStep (ensure_room room_id h) [Close ws code]
                            (WsRejected code)) = ensure_room room_id h ∧
          rooms_messages (ensure_room room_id h) !! room_id
          = Some (history_of h room_id) ∧
          rooms_connections (ensure_room room_id h) !! room_id
          = Some (conns_of h room_id) ∧
          room_id ∈ dom (rooms_banned (ensure_room room_id h)) ∧
          room_id ∈ dom (rooms_user_sockets (ensure_room room_id h)) ∧
          room_id ∈ dom (rooms_user_meta (ensure_room room_id h)) ∧
          ∀ ws' user' data ts1 ts2 fails',
            outcome (ws_receive ws' user' room_id data ts1 ts2 fails'
                       (ensure_room room_id h)) = WsActive) as Hensured.
  { split_and!; try done.
    - unfold ensure_room. cbn [rooms_connections]. rewrite setdefault_lookup.
      by rewrite decide_True.
    - unfold ensure_room. cbn [rooms_banned]. rewrite setdefault_dom. set_solver.
    - unfold ensure_room. cbn [rooms_user_sockets]. rewrite setdefault_dom.
      set_solver.
    - unfold ensure_room. cbn [rooms_user_meta]. rewrite setdefault_dom.
      set_solver.
    - intros ws' user' data ts1 ts2 fails'.
      by destruct (ws_receive_present ws' user' room_id data ts1 ts2 fails'
                     (ensure_room room_id h) _ Hhist) as (Ho & _). }
  destruct session as [user|].
  2:{ intros [= <-]. split_and!; try done. set_solver. }
  destruct (uuid_ok room_id) eqn:Hu.
  2:{ rewrite ws_connect_invalid_room by done. intros [= <-].
      split_and!; try done. set_solver. }
  destruct (decide (room_id ∈ rooms_deleted h)) as [Hd|Hd].
  { rewrite ws_connect_tombstoned by done. intros [= <-].
    split_and!; try done.
    - set_solver.
    - apply same_membership_ensure_room.
    - apply (keeps_entries_ensure_room room_id h).
    - intros r. apply ensure_room_banned. }
  destruct (decide (user_id user ∈ banned_of h room_id)) as [Hb|Hb].
  { rewrite ws_connect_banned by done. intros [= <-].
    split_and!; try done.
    - set_solver.
    - apply same_membership_ensure_room.
    - apply (keeps_entries_ensure_room room_id h).
    - intros r. apply ensure_room_banned. }
  destruct (ws_connect_accepted ws user room_id ts fails h Hu Hd Hb) as (_ & _ & ->).
  by destruct (replay ws (fails ws) (history_of h room_id)).2.
Qed.


(** ** Presence after a join and after a leave *)

Lemma register_user_sockets_lookup ws user room_id h :
  default ∅ (rooms_user_sockets (register ws user room_id (ensure_room room_id h))
             !! room_id) !! user_id user
  = Some ({[ws]} ∪ user_sockets_of h room_id (user_id user)).
Proof.
  unfold register, ensure_room, user_sockets_of. simpl.
  rewrite lookup_insert_eq. simpl. rewrite lookup_insert_eq.
  by rewrite !setdefault_default.
Qed.

(** X19: an accepted connect puts the user online under the name of the
    session.  Whatever sends fail, after an accepted connect the socket is
    in the user's socket set, the room's metadata for the user are the
    username and the avatar of the connecting session (replacing older
    ones), and the history, the bans and the sockets of every other user
    are as before.  In a room with a recorded owner [room_online] then
    lists the user with exactly that name and avatar; a room without one (a
    room only the page view or the connect itself created) answers 404 to
    [room_online] although the user is in it. *)
Theorem X19_accepted_connect_puts_the_user_online ws user room_id ts fails h :
  uuid_ok room_id = true →
  room_id ∉ rooms_deleted h →
  user_id user ∉ banned_of h room_id →
  let h' := hub_after (ws_connect ws (Some user) room_id ts fails h) in
  user_sockets_of h' room_id (user_id user)
  = {[ws]} ∪ user_sockets_of h room_id (user_id user) ∧
  user_meta_of h' room_id (user_id user)
  = Some (mkMeta (username user) (avatar_path user)) ∧
  (∀ asker owner,
     rooms_owner h !! room_id = Some owner → owner ≠ "" →
     ∃ users,
       room_online (Some asker) room_id h' = Reply200 users ∧
       mkOnline (user_id user) (username user) (avatar_path user) ∈ users) ∧
  (∀ asker,
     rooms_owner h !! room_id = None →
     room_online (Some asker) room_id h' = ReplyError 404) ∧
  (∀ r u, (r, u) ≠ (room_id, user_id user) →
          user_sockets_of h' r u = user_sockets_of h r u ∧
          user_meta_of h' r u = user_meta_of h r u) ∧
  (∀ r, history_of h' r = history_of h r ∧ banned_of h' r = banned_of h r).
Proof.
  intros Hu Hd Hb h'. unfold h'.
  pose proof (ws_connect_owner ws (Some user) room_id ts fails h) as Howner.
  destruct (ws_connect_accepted ws user room_id ts fails h Hu Hd Hb) as (Hafter & _).
  rewrite Hafter in Howner. rewrite Hafter. clear Hafter.
  set (h2 := register ws user room_id (ensure_room room_id h)) in *.
  destruct (broadcast_frame room_id (joined_event user ts) fails h2)
    as (Hm & _ & Hban & Hs & Hmeta & _).
  set (h3 := (broadcast room_id (joined_event user ts) fails h2).1) in *.
  assert (∀ r u, user_sockets_of h3 r u = user_sockets_of h2 r u) as Hus.
  { intros r u. unfold user_sockets_of. by rewrite Hs. }
  assert (∀ r u, user_meta_of h3 r u = user_meta_of h2 r u) as Hum.
  { intros r u. unfold user_meta_of. by rewrite Hmeta. }
  split_and!.
  - rewrite Hus. unfold h2. by rewrite register_user_sockets, decide_True.
  - rewrite Hum. unfold h2. by rewrite register_user_meta, decide_True.
  - intros asker owner Ho Hne. exists (online_users h3 room_id). split.
    { apply (room_online_owned _ _ _ owner); [|done]. by rewrite Howner. }
    unfold online_users. rewrite Hs, Hmeta. apply list_elem_of_omap.
    exists (user_id user, {[ws]} ∪ user_sockets_of h room_id (user_id user)).
    split.
    + apply elem_of_map_to_list. apply register_user_sockets_lookup.
    + rewrite decide_False by set_solver. f_equal. unfold online_entry.
      pose proof (register_user_meta ws user room_id h room_id (user_id user)) as Hr.
      rewrite decide_True in Hr by done. unfold user_meta_of in Hr.
      fold h2 in Hr. by rewrite Hr.
  - intros asker Ho. apply room_online_ownerless. by rewrite Howner.
  - intros r u Hne. rewrite Hus, Hum. unfold h2.
    rewrite register_user_sockets, register_user_meta.
    rewrite !decide_False; [done| |]; intros [<- <-]; done.
  - intros r. unfold history_of, banned_of. rewrite Hm, Hban.
    split; [apply ensure_room_history|apply ensure_room_banned].
Qed.

(** X20: a teardown takes the socket out and the user offline with his
    last socket.  After the disconnect of a socket from a room that has a
    connection set, the socket is in neither the room's set nor the user's;
    with the last socket the user's metadata go; every other user keeps
    his sockets and his metadata, and the history is untouched.  In a room
    with a recorded owner the user is still listed by [room_online] exactly
    when another socket of his remains; a room without one answers 404 to
    [room_online] whatever sockets remain. *)
Theorem X20_teardown_takes_the_user_offline_with_the_last_socket
  ws user room_id ts fails h conns :
  rooms_connections h !! room_id = Some conns →
  let h' := hub_after (ws_disconnect ws user room_id ts fails h) in
  (ws ∉ conns_of h' room_id) ∧
  user_sockets_of h' room_id (user_id user)
  = user_sockets_of h room_id (user_id user) ∖ {[ws]} ∧
  (∀ asker owner,
     rooms_owner h !! room_id = Some owner → owner ≠ "" →
     ∃ users,
       room_online (Some asker) room_id h' = Reply200 users ∧
       (user_id user ∈ map online_id users ↔
        user_sockets_of h room_id (user_id user) ∖ {[ws]} ≠ ∅)) ∧
  (∀ asker,
     rooms_owner h !! room_id = None →
     room_online (Some asker) room_id h' = ReplyError 404) ∧
  (user_sockets_of h room_id (user_id user) ∖ {[ws]} = ∅ →
   user_meta_of h' room_id (user_id user) = None) ∧
  (∀ r u, (r, u) ≠ (room_id, user_id user) →
          user_sockets_of h' r u = user_sockets_of h r u ∧
          user_meta_of h' r u = user_meta_of h r u) ∧
  rooms_messages h' = rooms_messages h.
Proof.
  intros Hc h'.
  assert ((ws ∉ conns_of h' room_id) ∧
          user_sockets_of h' room_id (user_id user)
          = user_sockets_of h room_id (user_id user) ∖ {[ws]} ∧
          (user_sockets_of h room_id (user_id user) ∖ {[ws]} = ∅ →
           user_meta_of h' room_id (user_id user) = None) ∧
          (∀ r u, (r, u) ≠ (room_id, user_id user) →
                  user_sockets_of h' r u = user_sockets_of h r u ∧
                  user_meta_of h' r u = user_meta_of h r u) ∧
          rooms_messages h' = rooms_messages h) as (Hgone & Hmine' & Hmeta' & Hrest & Hmsgs).
  { unfold h', ws_disconnect. rewrite leave_unfold, Hc. cbv zeta.
    set (h1 := after_discards ws (user_id user) room_id conns h).
    assert (user_sockets_of h1 room_id (user_id user)
            = user_sockets_of h room_id (user_id user) ∖ {[ws]}) as Hmine.
    { unfold h1. by rewrite after_discards_user_sockets, decide_True. }
    assert (∀ r u, (r, u) ≠ (room_id, user_id user) →
                   user_sockets_of h1 r u = user_sockets_of h r u) as Hothers.
    { intros r u Hne. unfold h1. rewrite after_discards_user_sockets.
      rewrite decide_False; [done|]. intros [<- <-]. done. }
    assert (ws ∉ conns_of h1 room_id) as Hout.
    { unfold h1. rewrite (after_discards_conns _ _ _ _ _ _ Hc), decide_True by done.
      set_solver. }
    destruct (decide (user_sockets_of h1 room_id (user_id user) = ∅)) as [Hlast|Hmore].
    - set (h2 := after_pop (user_id user) room_id h1).
      destruct (broadcast_frame room_id (left_event user ts) fails h2)
        as (Hm & _ & _ & Hs & Hmeta & _).
      pose proof (broadcast_conns room_id (left_event user ts) fails h2 room_id ws)
        as Hin.
      destruct (broadcast room_id (left_event user ts) fails h2) as [h3 acts].
      cbn [fst hub_after] in *.
      assert (∀ r u, user_sockets_of h3 r u = user_sockets_of h1 r u) as Hus.
      { intros r u. unfold user_sockets_of. by rewrite Hs. }
      assert (∀ r u, user_meta_of h3 r u = user_meta_of h2 r u) as Hum.
      { intros r u. unfold user_meta_of. by rewrite Hmeta. }
      split_and!.
      + intros Hws. apply Hin in Hws as [Hws _]. by apply Hout.
      + by rewrite Hus.
      + intros _. rewrite Hum. unfold h2.
        by rewrite after_pop_user_meta, decide_True.
      + intros r u Hne. rewrite Hus, Hum. split; [by apply Hothers|].
        unfold h2. rewrite after_pop_user_meta.
        rewrite decide_False; [done|]. intros [<- <-]. done.
      + by rewrite Hm.
    - cbn [hub_after]. split_and!.
      + done.
      + done.
      + intros Hempty. by rewrite Hmine in Hmore.
      + intros r u Hne. split; [by apply Hothers|done].
      + done. }
  split_and!; try done.
  - intros asker owner Hown Hne. exists (online_users h' room_id). split.
    + apply (room_online_owned _ _ _ owner); [|done].
      unfold h'. by rewrite ws_disconnect_owner.
    + by rewrite online_users_ids, Hmine'.
  - intros asker Hown. apply room_online_ownerless.
    unfold h'. by rewrite ws_disconnect_owner.
Qed.

(** ** The captcha *)

(** X15: the captcha question is always two digits from 1 to 9.  Whatever
    the two [uuid4] draws, both terms of the sum shown on the login page
    lie between 1 and 9, so the answer kept in the cookie lies between 2
    and 18. *)
Theorem X15_captcha_terms_are_single_digits (u1 u2 : Z) :
  let '(a, b) := captcha_terms u1 u2 in
  (1 ≤ a ≤ 9)%Z ∧ (1 ≤ b ≤ 9)%Z ∧
  captcha_answer u1 u2 = (a + b)%Z ∧ (2 ≤ captcha_answer u1 u2 ≤ 18)%Z.
Proof.
  unfold captcha_answer, captcha_terms. cbn [fst snd].
  pose proof (Z.mod_pos_bound u1 9 eq_refl).
  pose proof (Z.mod_pos_bound (u2 `div` 10) 9 eq_refl).
  lia.
Qed.

End MoreProperties.

(** * The handlers as coroutines *)

Section CoroutineProperties.

Context {lib : Library}.

(** ** Schedules *)

Lemma wrun_app evs1 evs2 w :
  wrun (evs1 ++ evs2) w =
  ((wrun evs2 (wrun evs1 w).1).1, (wrun evs1 w).2 ++ (wrun evs2 (wrun evs1 w).1).2).
Proof.
  revert w. induction evs1 as [|ev rest IH]; intros w; simpl.
  - by destruct (wrun evs2 w).
  - destruct (wstep ev w) as [w1 acts1]. rewrite IH.
    destruct (wrun rest w1) as [w2 acts2]. simpl.
    by rewrite app_assoc.
Qed.

Lemma wrun_cons ev evs w :
  wrun (ev :: evs) w =
  ((wrun evs (wstep ev w).1).1, (wstep ev w).2 ++ (wrun evs (wstep ev w).1).2).
Proof.
  simpl. destruct (wstep ev w) as [w1 acts1]. simpl.
  by destruct (wrun evs w1) as [w2 acts2].
Qed.

Lemma attempts_app acts1 acts2 :
  attempts (acts1 ++ acts2) = attempts acts1 ++ attempts acts2.
Proof.
  induction acts1 as [|[] rest IH]; simpl; [done| |done]. by rewrite IH.
Qed.

Lemma wstep_open ws user room_id ts w :
  tasks w !! ws = None →
  wstep (EvOpen ws (Some user) room_id ts) w =
  settle ws user room_id (ws_open ws (Some user) room_id ts (hub w)) w.
Proof. intros Ht. unfold wstep. by rewrite Ht. Qed.

Lemma wstep_sent ws user room_id site conn p ok ts w :
  tasks w !! ws = Some (mkTask user room_id (AtSend site conn p)) →
  wstep (EvSent ws ok ts) w =
  settle ws user room_id (on_sent ws user room_id ts site conn p ok (hub w)) w.
Proof. intros Ht. unfold wstep. by rewrite Ht. Qed.

(** ** A pass nobody interferes with *)

Lemma sweep_nil room_id h : sweep room_id [] h = h.
Proof. unfold sweep, set_connections. simpl. by destruct h. Qed.

Lemma set_next_unchanged (s : gset Conn) todo :
  set_next s todo s =
  match todo with [] => NextStop | conn :: rest => NextItem conn rest end.
Proof. unfold set_next. by rewrite !decide_True. Qed.

Lemma send_loop_cons fails msg conn rest dead :
  send_loop fails msg (conn :: rest) dead =
  let later :=
    send_loop fails msg rest (if negb (fails conn) then dead else dead ++ [conn]) in
  (Send conn msg (negb (fails conn)) :: later.1, later.2).
Proof. simpl. by destruct (send_loop fails msg rest _). Qed.

(** A pass that is suspended on a set nobody changed, and is resumed until
    its end with no other coroutine running in between, makes the sends of
    [send_loop], then the discards of the second loop, as [broadcast]
    does. *)
Lemma pass_uninterrupted site ws user room_id ts fails msg over todo :
  ∀ conn dead w,
    tasks w !! ws
    = Some (mkTask user room_id (AtSend site conn (mkPass msg over todo dead))) →
    conns_of (hub w) room_id = over →
    wrun (pass_events ws ts fails (conn :: todo)) w =
    let done := send_loop fails msg (conn :: todo) dead in
    let t := after_pass site ws room_id (sweep room_id done.2 (hub w)) in
    (settled ws user room_id t w, done.1 ++ turn_actions t).
Proof.
  induction todo as [|next rest IH]; intros conn dead w Ht Hover.
  - cbn [pass_events map wrun]. unfold wstep. rewrite Ht.
    unfold settle, settled, on_sent, pass_next.
    cbn [pass_over pass_todo pass_dead pass_msg].
    rewrite Hover, set_next_unchanged.
    cbn [send_loop fst snd turn_hub turn_pc turn_actions].
    rewrite app_nil_r. by destruct (fails conn).
  - rewrite send_loop_cons. cbv zeta.
    change (pass_events ws ts fails (conn :: next :: rest))
      with (EvSent ws (negb (fails conn)) ts :: pass_events ws ts fails (next :: rest)).
    rewrite wrun_cons. unfold wstep at 1 2 3. rewrite Ht.
    unfold settle, settled, on_sent, pass_next.
    cbn [pass_over pass_todo pass_dead pass_msg].
    rewrite Hover, set_next_unchanged.
    cbn [fst snd turn_hub turn_pc turn_actions].
    set (dead1 := if negb (fails conn) then dead else dead ++ [conn]).
    set (w1 := mkWorld (hub w)
                 (<[ws := mkTask user room_id
                            (AtSend site next (mkPass msg over rest dead1))]>
                    (tasks w))).
    rewrite (IH next dead1 w1); [|apply lookup_insert_eq|done].
    cbv zeta. cbn [fst snd]. unfold settled, w1. cbn [hub tasks].
    by rewrite insert_insert_eq.
Qed.

(** The same pass, stopped before its end: after [k] of its sends it is
    suspended at the next one, and no dictionary has changed. *)
Lemma pass_partway site ws user room_id ts fails msg over todo :
  ∀ (k : nat) conn dead w,
    tasks w !! ws
    = Some (mkTask user room_id (AtSend site conn (mkPass msg over todo dead))) →
    conns_of (hub w) room_id = over →
    (k ≤ length todo)%nat →
    ∃ conn',
      (conn :: todo) !! k = Some conn' ∧
      wrun (take k (pass_events ws ts fails (conn :: todo))) w =
      let done := send_loop fails msg (take k (conn :: todo)) dead in
      (mkWorld (hub w)
         (<[ws := mkTask user room_id
                    (AtSend site conn'
                       (mkPass msg over (drop (S k) (conn :: todo)) done.2))]>
            (tasks w)),
       done.1).
Proof.
  induction todo as [|next rest IH]; intros k conn dead w Ht Hover Hk.
  - assert (k = 0) as -> by (simpl in Hk; lia).
    exists conn. split; [done|]. cbn [take wrun send_loop fst snd drop].
    rewrite insert_id by done. by destruct w.
  - destruct k as [|k].
    { exists conn. split; [done|]. cbn [take wrun send_loop fst snd drop].
      rewrite insert_id by done. by destruct w. }
    cbn [length] in Hk.
    change (take (S k) (pass_events ws ts fails (conn :: next :: rest)))
      with (EvSent ws (negb (fails conn)) ts
            :: take k (pass_events ws ts fails (next :: rest))).
    change (take (S k) (conn :: next :: rest))
      with (conn :: take k (next :: rest)).
    rewrite send_loop_cons. cbv zeta.
    rewrite wrun_cons. unfold wstep at 1 2 3. rewrite Ht.
    unfold settle, settled, on_sent, pass_next.
    cbn [pass_over pass_todo pass_dead pass_msg].
    rewrite Hover, set_next_unchanged.
    cbn [fst snd turn_hub turn_pc turn_actions].
    set (dead1 := if negb (fails conn) then dead else dead ++ [conn]).
    set (w1 := mkWorld (hub w)
                 (<[ws := mkTask user room_id
                            (AtSend site next (mkPass msg over rest dead1))]>
                    (tasks w))).
    destruct (IH k next dead1 w1) as (conn' & Hnth & Hrun);
      [apply lookup_insert_eq|done|lia|].
    exists conn'. split; [done|]. rewrite Hrun. cbv zeta.
    cbn [fst snd]. unfold w1. cbn [hub tasks].
    by rewrite insert_insert_eq.
Qed.

(** [broadcast] in terms of its two loops. *)
Lemma broadcast_sweep room_id msg fails h :
  broadcast room_id msg fails h =
  let done := send_loop fails msg (elements (conns_of h room_id)) [] in
  (sweep room_id done.2 h, done.1).
Proof.
  unfold broadcast, sweep.
  by destruct (send_loop fails msg (elements (conns_of h room_id)) []).
Qed.

(** ** A replay nobody interferes with *)


(** ** A join nobody interferes with *)

(** An accepted socket is registered and its coroutine is suspended at the
    first send of the announcement. *)
Lemma ws_open_accepted ws user room_id ts h :
  uuid_ok room_id = true →
  room_id ∉ rooms_deleted h →
  user_id user ∉ banned_of h room_id →
  ∃ conn rest,
    elements ({[ws]} ∪ conns_of h room_id) = conn :: rest ∧
    ws_open ws (Some user) room_id ts h =
    mkTurn (register ws user room_id (ensure_room room_id h))
      (AtSend InJoin conn
         (mkPass (joined_event user ts) ({[ws]} ∪ conns_of h room_id) rest []))
      [].
Proof.
  intros Hu Hd Hb. unfold ws_open. rewrite Hu. simpl negb. cbv iota zeta.
  rewrite decide_False by done.
  rewrite decide_False by (by rewrite ensure_room_banned).
  unfold pass_next, begin_pass. cbn [pass_over pass_todo pass_dead pass_msg].
  rewrite register_conns, decide_True by done.
  rewrite set_next_unchanged.
  destruct (elements ({[ws]} ∪ conns_of h room_id)) as [|conn rest] eqn:He.
  - apply elements_empty_inv in He. set_solver.
  - by exists conn, rest.
Qed.

(** The announcement of a join during which no other coroutine runs: it
    goes to every socket of the room, the new one included, and leaves the
    coroutine at the head of the replay. *)
Lemma join_announced ws user room_id ts ts1 fails w :
  tasks w !! ws = None →
  uuid_ok room_id = true →
  room_id ∉ rooms_deleted (hub w) →
  user_id user ∉ banned_of (hub w) room_id →
  let members := elements ({[ws]} ∪ conns_of (hub w) room_id) in
  let h3 :=
    (broadcast room_id (joined_event user ts) fails
       (register ws user room_id (ensure_room room_id (hub w)))).1 in
  wrun (EvOpen ws (Some user) room_id ts :: pass_events ws ts1 fails members) w
  = (mkWorld h3
       (<[ws := mkTask user room_id (turn_pc (replay_next room_id 0 h3))]>
          (tasks w)),
     map (λ c, Send c (joined_event user ts) (negb (fails c))) members) ∧
  history_of h3 room_id = history_of (hub w) room_id.
Proof.
  intros Hnew Hu Hd Hb members h3. subst members.
  set (h2 := register ws user room_id (ensure_room room_id (hub w))) in *.
  assert (history_of h3 room_id = history_of (hub w) room_id) as Hh.
  { destruct (broadcast_frame room_id (joined_event user ts) fails h2) as (Hm & _).
    unfold h3, history_of. rewrite Hm. unfold h2, register. cbn [rooms_messages].
    apply ensure_room_history. }
  split; [|done].
  destruct (ws_open_accepted ws user room_id ts (hub w) Hu Hd Hb)
    as (conn & rest & He & Hopen).
  fold h2 in Hopen.
  rewrite wrun_cons, wstep_open by done.
  unfold settle, settled. rewrite Hopen, He.
  cbn [fst snd turn_hub turn_pc turn_actions app].
  rewrite (pass_uninterrupted InJoin ws user room_id ts1 fails
             (joined_event user ts) ({[ws]} ∪ conns_of (hub w) room_id) rest
             conn []);
    [|apply lookup_insert_eq
     |unfold h2; cbn [hub]; by rewrite register_conns, decide_True].
  cbv zeta. unfold settled. cbn [hub tasks fst snd].
  assert (sweep room_id
            (send_loop fails (joined_event user ts) (conn :: rest) []).2 h2 = h3)
    as ->.
  { unfold h3. rewrite broadcast_sweep. cbv zeta. cbn [fst].
    unfold h2 at 2. by rewrite register_conns, decide_True, He. }
  rewrite send_loop_actions, insert_insert_eq.
  unfold after_pass, replay_next.
  by destruct (history_of h3 room_id !! 0); cbn [turn_hub turn_pc turn_actions];
    rewrite app_nil_r.
Qed.


(** ** A frame and its fan-out *)

(** A frame for a room that has a history is put at its end; the coroutine
    is then suspended at the first send of the fan-out, or back at
    [receive_text] when the room has no socket. *)
Lemma on_frame_present ws user room_id data ts ts' h hist :
  rooms_messages h !! room_id = Some hist →
  let msg := build_msg data user ts in
  ∃ h1,
    append_history room_id msg h = Some h1 ∧
    rooms_messages h1 = <[room_id := hist ++ [msg]]> (rooms_messages h) ∧
    rooms_connections h1 = rooms_connections h ∧
    rooms_banned h1 = rooms_banned h ∧
    rooms_user_sockets h1 = rooms_user_sockets h ∧
    rooms_deleted h1 = rooms_deleted h ∧
    on_frame ws user room_id data ts ts' h =
    match elements (conns_of h room_id) with
    | [] => mkTurn h1 AtReceive []
    | conn :: rest =>
        mkTurn h1 (AtSend InFanout conn (mkPass msg (conns_of h room_id) rest [])) []
    end.
Proof.
  intros Hh msg. unfold on_frame, append_history. rewrite Hh. fold msg.
  eexists. split; [reflexivity|]. split_and!; try reflexivity.
  unfold pass_next, begin_pass. cbn [pass_over pass_todo pass_dead pass_msg].
  match goal with
  | |- context [conns_of ?x room_id] =>
      change (conns_of x room_id) with (conns_of h room_id)
  end.
  rewrite set_next_unchanged.
  destruct (elements (conns_of h room_id)) as [|conn rest]; [|done].
  unfold after_pass. by rewrite sweep_nil.
Qed.

(** A frame whose fan-out no other coroutine interferes with does what
    [ws_receive] says. *)
Lemma frame_uninterrupted ws user room_id data ts ts' ts1 fails w hist :
  tasks w !! ws = Some (mkTask user room_id AtReceive) →
  rooms_messages (hub w) !! room_id = Some hist →
  let s := ws_receive ws user room_id data ts ts' fails (hub w) in
  wrun (EvFrame ws data ts ts'
        :: pass_events ws ts1 fails (elements (conns_of (hub w) room_id))) w
  = (mkWorld (hub_after s) (<[ws := mkTask user room_id AtReceive]> (tasks w)),
     actions s).
Proof.
  intros Ht Hh s.
  destruct (on_frame_present ws user room_id data ts ts' (hub w) hist Hh)
    as (h1 & Happ & _ & Hc & _ & _ & _ & Hframe).
  assert (conns_of h1 room_id = conns_of (hub w) room_id) as Hconns
    by (unfold conns_of; by rewrite Hc).
  unfold s, ws_receive. rewrite Happ, broadcast_sweep. cbv zeta.
  rewrite Hconns. cbn [hub_after actions].
  rewrite wrun_cons. unfold wstep at 1 2 3. rewrite Ht.
  unfold settle, settled. rewrite Hframe.
  destruct (elements (conns_of (hub w) room_id)) as [|conn rest].
  - cbn [pass_events map wrun fst snd turn_hub turn_pc turn_actions send_loop app].
    by rewrite sweep_nil.
  - cbn [fst snd turn_hub turn_pc turn_actions app].
    rewrite (pass_uninterrupted InFanout ws user room_id ts1 fails
               (build_msg data user ts) (conns_of (hub w) room_id) rest conn []);
      [|apply lookup_insert_eq|done].
    cbv zeta. unfold settled, after_pass.
    cbn [hub tasks turn_hub turn_pc turn_actions].
    by rewrite insert_insert_eq, app_nil_r.
Qed.

(** The same frame with its fan-out stopped after [k] sends. *)
Lemma fanout_partway ws user room_id data ts ts' ts1 fails w hist (k : nat) :
  tasks w !! ws = Some (mkTask user room_id AtReceive) →
  rooms_messages (hub w) !! room_id = Some hist →
  (k < length (elements (conns_of (hub w) room_id)))%nat →
  let msg := build_msg data user ts in
  let targets := elements (conns_of (hub w) room_id) in
  ∃ h1 conn,
    append_history room_id msg (hub w) = Some h1 ∧
    targets !! k = Some conn ∧
    wrun (EvFrame ws data ts ts' :: take k (pass_events ws ts1 fails targets)) w
    = (mkWorld h1
         (<[ws := mkTask user room_id
                    (AtSend InFanout conn
                       (mkPass msg (conns_of (hub w) room_id)
                          (drop (S k) targets)
                          (send_loop fails msg (take k targets) []).2))]>
            (tasks w)),
       (send_loop fails msg (take k targets) []).1).
Proof.
  intros Ht Hh Hk msg targets.
  destruct (on_frame_present ws user room_id data ts ts' (hub w) hist Hh)
    as (h1 & Happ & _ & Hc & _ & _ & _ & Hframe).
  assert (conns_of h1 room_id = conns_of (hub w) room_id) as Hconns
    by (unfold conns_of; by rewrite Hc).
  fold msg in Happ, Hframe. fold targets in Hframe.
  rewrite wrun_cons. unfold wstep at 1 2 3. rewrite Ht.
  unfold settle, settled. rewrite Hframe.
  unfold targets in Hk. fold targets in Hk.
  destruct targets as [|first rest] eqn:Htargets; [simpl in Hk; lia|].
  cbn [fst snd turn_hub turn_pc turn_actions app].
  destruct (pass_partway InFanout ws user room_id ts1 fails msg
              (conns_of (hub w) room_id) rest k first []
              (mkWorld h1
                 (<[ws := mkTask user room_id
                            (AtSend InFanout first
                               (mkPass msg (conns_of (hub w) room_id) rest []))]>
                    (tasks w))))
    as (conn & Hnth & Hrun);
    [apply lookup_insert_eq|done|simpl in Hk; lia|].
  exists h1, conn. split; [done|]. split; [done|].
  rewrite Hrun. cbv zeta. cbn [hub tasks]. by rewrite insert_insert_eq.
Qed.

(** ** The teardown *)

(** The first turn of a teardown: the socket is out of the connection set,
    nothing has been sent yet, and the coroutine has returned or is
    suspended at the first send of the departure notice. *)
Lemma teardown_turn after_error ws user room_id ts h conns :
  rooms_connections h !! room_id = Some conns →
  let t := teardown after_error ws user room_id ts h in
  rooms_connections (turn_hub t) !! room_id = Some (conns ∖ {[ws]}) ∧
  rooms_messages (turn_hub t) = rooms_messages h ∧
  attempts (turn_actions t) = [] ∧
  (turn_pc t = Returned ∨
   ∃ conn p, turn_pc t = AtSend (InLeave after_error) conn p ∧
             pass_msg p = left_event user ts).
Proof.
  intros Hc t. unfold t, teardown. rewrite Hc. cbv zeta.
  set (h1 := after_discards ws (user_id user) room_id conns h).
  assert (rooms_connections h1 !! room_id = Some (conns ∖ {[ws]})) as Hc1.
  { unfold h1, after_discards. cbn [rooms_connections]. apply lookup_insert_eq. }
  destruct (decide (user_sockets_of h1 room_id (user_id user) = ∅)).
  - unfold pass_next, begin_pass. cbn [pass_over pass_todo pass_dead pass_msg].
    rewrite set_next_unchanged.
    destruct (elements (conns_of (after_pop (user_id user) room_id h1) room_id))
      as [|conn rest].
    + rewrite sweep_nil. unfold after_pass.
      destruct after_error; cbn [turn_hub turn_pc turn_actions attempts];
        split_and!; try done; by left.
    + cbn [turn_hub turn_pc turn_actions attempts].
      split_and!; try done. right. by eexists _, _.
  - unfold after_pass.
    destruct after_error; cbn [turn_hub turn_pc turn_actions attempts];
      split_and!; try done; by left.
Qed.

(** A fan-out that is resumed on a connection set of another size does
    not go on: the [for] statement raises, and [except Exception] tears the
    socket of the coroutine down. *)
Lemma fanout_resumed_on_a_resized_set ws user room_id conn p ok ts w conns :
  tasks w !! ws = Some (mkTask user room_id (AtSend InFanout conn p)) →
  rooms_connections (hub w) !! room_id = Some conns →
  size conns ≠ size (pass_over p) →
  let t := teardown true ws user room_id ts (hub w) in
  wstep (EvSent ws ok ts) w =
  (settled ws user room_id t w, Send conn (pass_msg p) ok :: turn_actions t) ∧
  rooms_connections (turn_hub t) !! room_id = Some (conns ∖ {[ws]}) ∧
  rooms_messages (turn_hub t) = rooms_messages (hub w) ∧
  attempts (turn_actions t) = [] ∧
  (turn_pc t = Returned ∨
   ∃ conn' p', turn_pc t = AtSend (InLeave true) conn' p' ∧
               pass_msg p' = left_event user ts).
Proof.
  intros Ht Hc Hsize t.
  split; [|by apply teardown_turn].
  rewrite (wstep_sent _ _ _ _ _ _ _ _ _ Ht).
  unfold settle, on_sent, pass_next, set_next.
  cbn [pass_over pass_todo pass_dead pass_msg].
  unfold conns_of. rewrite Hc. cbn [default from_option id].
  by rewrite decide_False.
Qed.

(** ** C4 *)

(** C4 (as the code has it): a pass walks the connection set itself, not a
    copy of it.  Take a frame for a room that has a history, received by a
    coroutine that waits in its receive loop.

    Left alone, the fan-out attempts the send on every socket of the room,
    once each, whatever sends fail; the failed sockets are removed when the
    last send is over, and the coroutine waits for the next frame.  As long
    as a send is still to come the connection set is untouched, also after
    sends that failed.

    But when, a send of the fan-out being under way, another socket joins
    the room or a socket of the room disconnects, the [for] statement
    raises as soon as that send is over.  The event is in the history, and
    the sockets the loop had not reached are never sent it.  The second loop
    does not run: no socket is removed for a failed send.  The exception
    ends the receive loop of the sender, whose socket is torn down by
    [except Exception]. *)
Theorem C4_fanout_is_aborted_by_a_concurrent_join_or_leave
  ws user room_id data ts ts' ts1 fails w hist :
  tasks w !! ws = Some (mkTask user room_id AtReceive) →
  rooms_messages (hub w) !! room_id = Some hist →
  let msg := build_msg data user ts in
  let conns := conns_of (hub w) room_id in
  let targets := elements conns in
  let sends := pass_events ws ts1 fails targets in
  let aborted (k : nat) (others : list Event) (ok : bool) (ts3 : string)
        (now : gset Conn) :=
    let broken :=
      wrun (EvFrame ws data ts ts'
            :: take k sends ++ others ++ [EvSent ws ok ts3]) w in
    attempts broken.2 = map (λ c, (c, msg)) (take (S k) targets) ∧
    history_of (hub broken.1) room_id = hist ++ [msg] ∧
    conns_of (hub broken.1) room_id = now ∖ {[ws]} ∧
    (pc_of broken.1 ws = Some Returned ∨
     ∃ conn p, pc_of broken.1 ws = Some (AtSend (InLeave true) conn p) ∧
               pass_msg p = left_event user ts3) in
  (let alone := wrun (EvFrame ws data ts ts' :: sends) w in
   attempts alone.2 = map (λ c, (c, msg)) targets ∧
   NoDup targets ∧
   pc_of alone.1 ws = Some AtReceive ∧
   history_of (hub alone.1) room_id = hist ++ [msg] ∧
   ∀ c, c ∈ conns_of (hub alone.1) room_id ↔ c ∈ conns ∧ fails c = false) ∧
  ∀ k : nat,
    (k < length targets)%nat →
    (let part := wrun (EvFrame ws data ts ts' :: take k sends) w in
     rooms_connections (hub part.1) = rooms_connections (hub w) ∧
     attempts part.2 = map (λ c, (c, msg)) (take k targets)) ∧
    (∀ ws' user' ts2 ts3 ok,
       tasks w !! ws' = None →
       ws' ∉ conns →
       uuid_ok room_id = true →
       room_id ∉ rooms_deleted (hub w) →
       user_id user' ∉ banned_of (hub w) room_id →
       aborted k [EvOpen ws' (Some user') room_id ts2] ok ts3 ({[ws']} ∪ conns)) ∧
    (∀ ws' user' ts2 ts3 ok,
       tasks w !! ws' = Some (mkTask user' room_id AtReceive) →
       ws' ≠ ws →
       ws' ∈ conns →
       aborted k [EvDisconnect ws' ts2] ok ts3 (conns ∖ {[ws']})).
Proof.
  intros Ht Hh msg conns targets sends aborted. split.
  - cbv zeta. unfold sends, targets, conns.
    rewrite (frame_uninterrupted ws user room_id data ts ts' ts1 fails w hist Ht Hh).
    cbv zeta. cbn [fst snd].
    destruct (ws_receive_present ws user room_id data ts ts' fails (hub w) hist Hh)
      as (_ & Hm & Ha).
    split_and!.
    + by rewrite Ha, attempts_sends.
    + apply NoDup_elements.
    + unfold pc_of. cbn [tasks]. by rewrite lookup_insert_eq.
    + cbn [hub]. unfold history_of. by rewrite Hm, lookup_insert_eq.
    + intros c. cbn [hub]. rewrite (ws_receive_conns _ _ _ _ _ _ _ _ hist) by done.
      split; [intros [? Hf]; split; [done|by apply Hf]|by intros [? ?]].
  - intros k Hk.
    destruct (fanout_partway ws user room_id data ts ts' ts1 fails w hist k Ht Hh Hk)
      as (h1 & conn & Happ & Hnth & Hrun).
    fold msg conns in Happ, Hnth, Hrun. fold targets in Hnth, Hrun.
    fold sends in Hrun.
    destruct (on_frame_present ws user room_id data ts ts' (hub w) hist Hh)
      as (h1' & Happ' & Hm1 & Hc1 & Hb1 & _ & Hd1 & _).
    fold msg in Happ', Hm1. rewrite Happ in Happ'. injection Happ' as <-.
    set (p := mkPass msg conns (drop (S k) targets)
                (send_loop fails msg (take k targets) []).2) in *.
    set (wk := mkWorld h1
                 (<[ws := mkTask user room_id (AtSend InFanout conn p)]> (tasks w)))
      in *.
    assert (conns_of h1 room_id = conns) as Hconns
      by (unfold conns, conns_of; by rewrite Hc1).
    assert (history_of h1 room_id = hist ++ [msg]) as Hhist1
      by (unfold history_of; by rewrite Hm1, lookup_insert_eq).
    (* What follows once the set has another size. *)
    assert (∀ others ok ts3 wo now,
              (wrun others wk).1 = wo →
              attempts (wrun others wk).2 = [] →
              tasks wo !! ws
              = Some (mkTask user room_id (AtSend InFanout conn p)) →
              rooms_connections (hub wo) !! room_id = Some now →
              size now ≠ size conns →
              history_of (hub wo) room_id = hist ++ [msg] →
              aborted k others ok ts3 now) as Haborted.
    { intros others ok ts3 wo now Hwo Hquiet Htask Hnow Hsize Hhisto.
      unfold aborted. cbv zeta.
      destruct (fanout_resumed_on_a_resized_set ws user room_id conn p ok ts3
                  wo now Htask Hnow Hsize)
        as (Hstep & Hgone & Hmsgs & Hatt & Hpc).
      rewrite app_comm_cons, wrun_app, Hrun. cbn [fst snd].
      rewrite wrun_app, Hwo. cbn [fst snd wrun]. rewrite Hstep.
      cbn [fst snd]. unfold settled. cbn [hub tasks].
      split_and!.
      - rewrite !attempts_app, send_loop_actions, attempts_sends, Hquiet.
        cbn [attempts app]. rewrite Hatt.
        by rewrite (take_S_r _ _ _ Hnth), map_app.
      - unfold history_of. rewrite Hmsgs. exact Hhisto.
      - unfold conns_of. by rewrite Hgone.
      - unfold pc_of. cbn [tasks]. rewrite lookup_insert_eq.
        cbn [fmap option_fmap option_map task_pc].
        destruct Hpc as [->|(c' & p' & -> & Hp')]; [by left|].
        right. by exists c', p'. }
    split_and!.
    + cbv zeta. rewrite Hrun. cbn [fst snd hub].
      split; [done|]. by rewrite send_loop_actions, attempts_sends.
    + intros ws' user' ts2 ts3 ok Hnew Hout Hu Hd Hb.
      assert (ws ≠ ws') as Hne by (intros ->; congruence).
      destruct (ws_open_accepted ws' user' room_id ts2 h1)
        as (c0 & rest0 & _ & Hopen);
        [done|by rewrite Hd1|by unfold banned_of; rewrite Hb1|].
      assert (wrun [EvOpen ws' (Some user') room_id ts2] wk
              = (settled ws' user' room_id
                   (ws_open ws' (Some user') room_id ts2 h1) wk, [])) as Hjoin.
      { cbn [wrun]. rewrite wstep_open
          by (unfold wk; cbn [tasks]; by rewrite lookup_insert_ne).
        unfold settle. replace (hub wk) with h1 by done.
        rewrite Hopen. by cbn [turn_actions]. }
      apply (Haborted _ _ _
               (settled ws' user' room_id
                  (ws_open ws' (Some user') room_id ts2 h1) wk)).
      * by rewrite Hjoin.
      * by rewrite Hjoin.
      * unfold settled, wk. cbn [tasks]. rewrite lookup_insert_ne by done.
        apply lookup_insert_eq.
      * unfold settled. cbn [hub]. rewrite Hopen. cbn [turn_hub].
        by rewrite register_connections_lookup, Hconns.
      * rewrite size_union by set_solver. rewrite size_singleton. lia.
      * unfold settled. cbn [hub]. rewrite Hopen. cbn [turn_hub].
        unfold history_of, register. cbn [rooms_messages].
        fold (history_of (ensure_room room_id h1) room_id).
        by rewrite ensure_room_history.
    + intros ws' user' ts2 ts3 ok Hthere Hne Hin.
      assert (rooms_connections h1 !! room_id = Some conns) as Hlook.
      { rewrite Hc1. unfold conns, conns_of in Hin |- *.
        destruct (rooms_connections (hub w) !! room_id); [done|].
        by apply elem_of_empty in Hin. }
      destruct (teardown_turn false ws' user' room_id ts2 h1 conns Hlook)
        as (Hgone & Hmsgs & Hatt & _).
      set (t := teardown false ws' user' room_id ts2 h1) in *.
      assert (wrun [EvDisconnect ws' ts2] wk
              = (settled ws' user' room_id t wk, turn_actions t ++ [])) as Hleave.
      { cbn [wrun]. unfold wstep.
        replace (tasks wk !! ws') with (Some (mkTask user' room_id AtReceive))
          by (unfold wk; cbn [tasks]; by rewrite lookup_insert_ne).
        done. }
      apply (Haborted _ _ _ (settled ws' user' room_id t wk)).
      * by rewrite Hleave.
      * by rewrite Hleave, app_nil_r.
      * unfold settled, wk. cbn [tasks]. rewrite lookup_insert_ne by done.
        apply lookup_insert_eq.
      * unfold settled. cbn [hub]. exact Hgone.
      * rewrite size_difference by set_solver. rewrite size_singleton.
        assert (size conns ≠ 0) as Hpos.
        { intros Hz. apply size_empty_inv in Hz. set_solver. }
        lia.
      * unfold settled. cbn [hub]. unfold history_of. rewrite Hmsgs.
        exact Hhist1.
Qed.

(** ** C6 *)


(** ** Coroutines that end with an exception *)

(** A coroutine that returned or raised is not resumed. *)
Lemma ended_is_final ev w :
  pc_of w (event_ws ev) = Some Raised ∨ pc_of w (event_ws ev) = Some Returned →
  wstep ev w = (w, []).
Proof.
  unfold pc_of, wstep. intros Hpc.
  destruct ev as [ws session r ts|ws ok ts|ws data ts ts'|ws ts|ws ts];
    cbn [event_ws] in Hpc;
    destruct (tasks w !! ws) as [[u r' pc]|]; try done;
    cbn [fmap option_fmap option_map task_pc] in Hpc;
    destruct Hpc as [[= ->]|[= ->]]; done.
Qed.

Lemma ended_stays ws evs w :
  pc_of w ws = Some Raised ∨ pc_of w ws = Some Returned →
  (∀ ev, ev ∈ evs → event_ws ev = ws) →
  wrun evs w = (w, []).
Proof.
  intros Hpc. induction evs as [|ev rest IH]; intros Hall; [done|].
  rewrite wrun_cons, ended_is_final
    by (rewrite (Hall ev) by (by left); done).
  cbn [fst snd]. rewrite IH; [done|].
  intros ev' Hin. apply Hall. by right.
Qed.

(** A replay nobody interferes with, stopped after [k] of its sends. *)
Lemma replay_partway ws user room_id ts rest :
  ∀ (k : nat) pre msg w,
    tasks w !! ws = Some (mkTask user room_id (AtReplay (length pre) msg)) →
    history_of (hub w) room_id = pre ++ msg :: rest →
    (k ≤ length rest)%nat →
    ∃ msg',
      (msg :: rest) !! k = Some msg' ∧
      wrun (replay_events ws ts k) w =
      (mkWorld (hub w)
         (<[ws := mkTask user room_id (AtReplay (length pre + k) msg')]> (tasks w)),
       map (λ m, Send ws m true) (take k (msg :: rest))).
Proof.
  induction rest as [|next rest IH]; intros k pre msg w Ht Hh Hk.
  - assert (k = 0) as -> by (simpl in Hk; lia).
    exists msg. split; [done|]. cbn [replay_events replicate wrun take map].
    rewrite Nat.add_0_r, insert_id by done. by destruct w.
  - destruct k as [|k].
    { exists msg. split; [done|]. cbn [replay_events replicate wrun take map].
      rewrite Nat.add_0_r, insert_id by done. by destruct w. }
    cbn [length] in Hk.
    change (replay_events ws ts (S k))
      with (EvSent ws true ts :: replay_events ws ts k).
    rewrite wrun_cons. unfold wstep at 1 2 3. rewrite Ht.
    unfold settle, settled, on_replayed, replay_next. rewrite Hh.
    assert ((pre ++ msg :: next :: rest) !! S (length pre) = Some next) as ->.
    { rewrite lookup_app_r by lia.
      by replace (S (length pre) - length pre) with 1 by lia. }
    cbn [fst snd turn_hub turn_pc turn_actions].
    destruct (IH k (pre ++ [msg]) next
                (mkWorld (hub w)
                   (<[ws := mkTask user room_id (AtReplay (S (length pre)) next)]>
                      (tasks w))))
      as (msg' & Hnth & Hrun).
    + cbn [tasks]. rewrite length_app. cbn [length].
      rewrite Nat.add_1_r. apply lookup_insert_eq.
    + cbn [hub]. by rewrite Hh, <- app_assoc.
    + lia.
    + exists msg'. split; [done|]. rewrite Hrun. cbn [hub tasks fst snd].
      rewrite insert_insert_eq, length_app. cbn [length take map app].
      by replace (length pre + 1 + k) with (length pre + S k) by lia.
Qed.

(** X21: a socket that breaks during its replay is never torn down.  Take
    a join nobody interferes with, on which the announcement reaches the
    new socket and [k] events of the history are replayed to it before a
    send of the replay raises.  The exception leaves the coroutine, for
    line 953 is inside no [try]: the socket was delivered the notice of its
    join and the first [k] events; it stays in the connection set of the
    room and in the socket set of its user, whose metadata stay; and its
    coroutine does nothing more, so that no teardown ever takes it out. *)
Theorem X21_socket_broken_during_replay_is_never_torn_down
  ws user room_id ts ts1 fails w (k : nat) :
  tasks w !! ws = None →
  uuid_ok room_id = true →
  room_id ∉ rooms_deleted (hub w) →
  user_id user ∉ banned_of (hub w) room_id →
  fails ws = false →
  (k < length (history_of (hub w) room_id))%nat →
  let hist := history_of (hub w) room_id in
  let members := elements ({[ws]} ∪ conns_of (hub w) room_id) in
  let broken :=
    wrun (EvOpen ws (Some user) room_id ts
          :: pass_events ws ts1 fails members
          ++ replay_events ws ts1 k ++ [EvSent ws false ts1]) w in
  pc_of broken.1 ws = Some Raised ∧
  delivered_to ws broken.2 = joined_event user ts :: take k hist ∧
  (∃ msg, hist !! k = Some msg ∧ last broken.2 = Some (Send ws msg false)) ∧
  ws ∈ conns_of (hub broken.1) room_id ∧
  ws ∈ user_sockets_of (hub broken.1) room_id (user_id user) ∧
  user_meta_of (hub broken.1) room_id (user_id user)
  = Some (mkMeta (username user) (avatar_path user)) ∧
  ∀ evs, (∀ ev, ev ∈ evs → event_ws ev = ws) →
         wrun evs broken.1 = (broken.1, []).
Proof.
  intros Hnew Hu Hd Hb Hws Hk hist members broken.
  destruct (join_announced ws user room_id ts ts1 fails w Hnew Hu Hd Hb)
    as (Hrun & Hh).
  cbv zeta in Hrun, Hh. fold members in Hrun. subst hist.
  set (h2 := register ws user room_id (ensure_room room_id (hub w))) in *.
  assert (ws ∈ conns_of (broadcast room_id (joined_event user ts) fails h2).1
                 room_id) as Hin.
  { apply broadcast_conns. split; [|done].
    unfold h2. rewrite register_conns, decide_True by done. set_solver. }
  destruct (broadcast_frame room_id (joined_event user ts) fails h2)
    as (_ & _ & _ & Hs & Hmeta & _).
  set (h3 := (broadcast room_id (joined_event user ts) fails h2).1) in *.
  destruct (history_of (hub w) room_id) as [|first more] eqn:Hhist;
    [simpl in Hk; lia|].
  unfold replay_next in Hrun. rewrite Hh in Hrun.
  cbn [lookup list_lookup turn_pc] in Hrun.
  destruct (replay_partway ws user room_id ts1 more k [] first
              (mkWorld h3
                 (<[ws := mkTask user room_id (AtReplay 0 first)]> (tasks w))))
    as (msg & Hnth & Hreplay);
    [apply lookup_insert_eq|done|simpl in Hk; lia|].
  cbn [hub tasks length] in Hreplay. rewrite insert_insert_eq in Hreplay.
  assert (broken
          = (mkWorld h3 (<[ws := mkTask user room_id Raised]> (tasks w)),
             map (λ c, Send c (joined_event user ts) (negb (fails c))) members
             ++ map (λ m, Send ws m true) (take k (first :: more))
             ++ [Send ws msg false])) as Hbroken.
  { unfold broken. rewrite app_comm_cons, wrun_app, Hrun. cbn [fst snd].
    rewrite wrun_app, Hreplay. cbn [fst snd wrun].
    unfold wstep. cbn [tasks]. rewrite lookup_insert_eq.
    unfold settle, settled, on_replayed.
    cbn [hub tasks turn_hub turn_pc turn_actions].
    by rewrite insert_insert_eq. }
  rewrite Hbroken. cbn [fst snd hub].
  split_and!.
  - unfold pc_of. cbn [tasks]. by rewrite lookup_insert_eq.
  - rewrite !delivered_to_app, delivered_to_replay.
    rewrite (delivered_to_pass ws _ (λ c, negb (fails c)));
      [|apply NoDup_elements|apply elem_of_elements; set_solver|by rewrite Hws].
    cbn [delivered_to]. by rewrite app_nil_r.
  - exists msg. split; [done|]. by rewrite !last_app.
  - done.
  - unfold user_sockets_of. rewrite Hs.
    fold (user_sockets_of h2 room_id (user_id user)).
    unfold h2. rewrite register_user_sockets, decide_True by done. set_solver.
  - unfold user_meta_of. rewrite Hmeta.
    fold (user_meta_of h2 room_id (user_id user)).
    unfold h2. by rewrite register_user_meta, decide_True.
  - intros evs Hall. apply (ended_stays ws); [|done].
    left. unfold pc_of. cbn [tasks]. by rewrite lookup_insert_eq.
Qed.

(** The announcement of a join nobody interferes with, stopped after [k]
    of its sends. *)
Lemma join_partway ws user room_id ts ts1 fails w (k : nat) :
  tasks w !! ws = None →
  uuid_ok room_id = true →
  room_id ∉ rooms_deleted (hub w) →
  user_id user ∉ banned_of (hub w) room_id →
  (k < length (elements ({[ws]} ∪ conns_of (hub w) room_id)))%nat →
  let members := elements ({[ws]} ∪ conns_of (hub w) room_id) in
  let notice := joined_event user ts in
  ∃ conn,
    members !! k = Some conn ∧
    wrun (EvOpen ws (Some user) room_id ts
          :: take k (pass_events ws ts1 fails members)) w
    = (mkWorld (register ws user room_id (ensure_room room_id (hub w)))
         (<[ws := mkTask user room_id
                    (AtSend InJoin conn
                       (mkPass notice ({[ws]} ∪ conns_of (hub w) room_id)
                          (drop (S k) members)
                          (send_loop fails notice (take k members) []).2))]>
            (tasks w)),
       (send_loop fails notice (take k members) []).1).
Proof.
  intros Hnew Hu Hd Hb Hk members notice. subst members notice.
  set (notice := joined_event user ts).
  destruct (ws_open_accepted ws user room_id ts (hub w) Hu Hd Hb)
    as (first & rest & He & Hopen).
  fold notice in Hopen.
  rewrite wrun_cons, wstep_open by done.
  unfold settle, settled. rewrite Hopen. rewrite He in Hk |- *.
  cbn [fst snd turn_hub turn_pc turn_actions app].
  destruct (pass_partway InJoin ws user room_id ts1 fails notice
              ({[ws]} ∪ conns_of (hub w) room_id) rest k first []
              (mkWorld (register ws user room_id (ensure_room room_id (hub w)))
                 (<[ws := mkTask user room_id
                            (AtSend InJoin first
                               (mkPass notice ({[ws]} ∪ conns_of (hub w) room_id)
                                  rest []))]>
                    (tasks w))))
    as (conn & Hnth & Hrun);
    [apply lookup_insert_eq
    |cbn [hub]; by rewrite register_conns, decide_True
    |simpl in Hk; lia|].
  exists conn. split; [done|].
  rewrite Hrun. cbv zeta. cbn [hub tasks]. by rewrite insert_insert_eq.
Qed.

(** The pass of a join or of a teardown that is resumed on a connection set
    of another size: the [RuntimeError] leaves the coroutine. *)
Lemma pass_resumed_on_a_resized_set site ws user room_id conn p ok ts w :
  site ≠ InFanout →
  tasks w !! ws = Some (mkTask user room_id (AtSend site conn p)) →
  size (conns_of (hub w) room_id) ≠ size (pass_over p) →
  wstep (EvSent ws ok ts) w =
  (mkWorld (hub w) (<[ws := mkTask user room_id Raised]> (tasks w)),
   [Send conn (pass_msg p) ok]).
Proof.
  intros Hsite Ht Hsize. rewrite (wstep_sent _ _ _ _ _ _ _ _ _ Ht).
  unfold settle, settled, on_sent, pass_next, set_next.
  cbn [pass_over pass_todo pass_dead pass_msg].
  rewrite decide_False by done. by destruct site.
Qed.

(** X22: a join that another join cuts short leaves a socket nobody serves.
    When, a send of the announcement of a join being under way, the
    connect of another socket to the same room is accepted, the [for]
    statement of [broadcast] raises as soon as that send is over, and the
    exception leaves the coroutine of the first socket, for line 943 is
    inside no [try].  The sockets the announcement had not reached do not
    get it; nothing of the history is replayed to the new socket; the
    socket stays in the connection set of the room and in the socket set
    of its user; and its coroutine does nothing more: it reads no frame and
    no teardown ever takes the socket out. *)
Theorem X22_join_cut_short_by_another_join_is_never_served
  ws user ws' user' room_id ts ts1 ts2 ts3 fails ok w (k : nat) :
  tasks w !! ws = None →
  tasks w !! ws' = None →
  ws ≠ ws' →
  ws' ∉ conns_of (hub w) room_id →
  uuid_ok room_id = true →
  room_id ∉ rooms_deleted (hub w) →
  user_id user ∉ banned_of (hub w) room_id →
  user_id user' ∉ banned_of (hub w) room_id →
  (k < length (elements ({[ws]} ∪ conns_of (hub w) room_id)))%nat →
  let members := elements ({[ws]} ∪ conns_of (hub w) room_id) in
  let broken :=
    wrun (EvOpen ws (Some user) room_id ts
          :: take k (pass_events ws ts1 fails members)
          ++ [EvOpen ws' (Some user') room_id ts2; EvSent ws ok ts3]) w in
  pc_of broken.1 ws = Some Raised ∧
  attempts broken.2
  = map (λ c, (c, joined_event user ts)) (take (S k) members) ∧
  conns_of (hub broken.1) room_id
  = {[ws']} ∪ ({[ws]} ∪ conns_of (hub w) room_id) ∧
  ws ∈ user_sockets_of (hub broken.1) room_id (user_id user) ∧
  history_of (hub broken.1) room_id = history_of (hub w) room_id ∧
  ∀ evs, (∀ ev, ev ∈ evs → event_ws ev = ws) →
         wrun evs broken.1 = (broken.1, []).
Proof.
  intros Hnew Hnew' Hne Hout Hu Hd Hb Hb' Hk members broken.
  destruct (join_partway ws user room_id ts ts1 fails w k Hnew Hu Hd Hb Hk)
    as (conn & Hnth & Hrun).
  cbv zeta in Hrun. fold members in Hnth, Hrun.
  set (h2 := register ws user room_id (ensure_room room_id (hub w))) in *.
  set (p := mkPass (joined_event user ts) ({[ws]} ∪ conns_of (hub w) room_id)
              (drop (S k) members)
              (send_loop fails (joined_event user ts) (take k members) []).2) in *.
  assert (conns_of h2 room_id = {[ws]} ∪ conns_of (hub w) room_id) as Hc2
    by (unfold h2; by rewrite register_conns, decide_True).
  destruct (ws_open_accepted ws' user' room_id ts2 h2) as (c0 & rest0 & _ & Hopen).
  { done. }
  { unfold h2, register, ensure_room. by cbn [rooms_deleted]. }
  { unfold h2, banned_of, register. cbn [rooms_banned].
    fold (banned_of (ensure_room room_id (hub w)) room_id).
    by rewrite ensure_room_banned. }
  set (ho := register ws' user' room_id (ensure_room room_id h2)) in *.
  assert (conns_of ho room_id = {[ws']} ∪ ({[ws]} ∪ conns_of (hub w) room_id))
    as Hco by (unfold ho; by rewrite register_conns, decide_True, Hc2).
  set (wk := mkWorld h2
               (<[ws := mkTask user room_id (AtSend InJoin conn p)]> (tasks w)))
    in *.
  set (wo := settled ws' user' room_id (ws_open ws' (Some user') room_id ts2 h2) wk).
  assert (wrun [EvOpen ws' (Some user') room_id ts2] wk = (wo, [])) as Hjoin.
  { cbn [wrun]. rewrite wstep_open
      by (unfold wk; cbn [tasks]; by rewrite lookup_insert_ne).
    unfold settle. replace (hub wk) with h2 by done.
    fold wo. rewrite Hopen. by cbn [turn_actions]. }
  assert (hub wo = ho) as Hhub.
  { unfold wo, settled. cbn [hub]. by rewrite Hopen. }
  assert (tasks wo !! ws = Some (mkTask user room_id (AtSend InJoin conn p)))
    as Htask.
  { unfold wo, settled, wk. cbn [tasks]. rewrite lookup_insert_ne by done.
    apply lookup_insert_eq. }
  assert (broken
          = (mkWorld ho (<[ws := mkTask user room_id Raised]> (tasks wo)),
             (send_loop fails (joined_event user ts) (take k members) []).1
             ++ [Send conn (joined_event user ts) ok])) as Hbroken.
  { unfold broken. rewrite app_comm_cons, wrun_app, Hrun. cbn [fst snd].
    change [EvOpen ws' (Some user') room_id ts2; EvSent ws ok ts3]
      with ([EvOpen ws' (Some user') room_id ts2] ++ [EvSent ws ok ts3]).
    rewrite wrun_app, Hjoin. cbn [fst snd wrun app].
    rewrite (pass_resumed_on_a_resized_set InJoin ws user room_id conn p ok ts3 wo);
      [|done|done|].
    - cbn [fst snd]. by rewrite Hhub, app_nil_r.
    - rewrite Hhub, Hco. cbn [pass_over p].
      rewrite size_union by (clear -Hne Hout; set_solver).
      rewrite size_singleton. lia. }
  rewrite Hbroken. cbn [fst snd hub].
  split_and!.
  - unfold pc_of. cbn [tasks]. by rewrite lookup_insert_eq.
  - rewrite attempts_app, send_loop_actions, attempts_sends. cbn [attempts].
    by rewrite (take_S_r _ _ _ Hnth), map_app.
  - done.
  - unfold ho. rewrite register_user_sockets.
    assert (ws ∈ user_sockets_of h2 room_id (user_id user)) as Hmine.
    { unfold h2. rewrite register_user_sockets, decide_True by done. set_solver. }
    case_decide as Hsame; [|done]. apply elem_of_union. by right.
  - unfold ho, history_of, register. cbn [rooms_messages].
    fold (history_of (ensure_room room_id h2) room_id).
    rewrite ensure_room_history. unfold h2, history_of, register.
    cbn [rooms_messages].
    fold (history_of (ensure_room room_id (hub w)) room_id).
    by rewrite ensure_room_history.
  - intros evs Hall. apply (ended_stays ws); [|done].
    left. unfold pc_of. cbn [tasks]. by rewrite lookup_insert_eq.
Qed.

End CoroutineProperties.

(** ** Concrete runs *)

(** C9 on the frame [hello], which is not JSON. *)
Lemma C9_plaintext_witness :
  recognized_payload (lib := Demo.library) "hello" = false ∧
  build_msg (lib := Demo.library) "hello" Demo.alice "t2"
  = [("type", JStr "message"); ("text", JStr "hello"); ("enc", JBool false);
     ("user_id", JStr "u-alice"); ("username", JStr "alice");
     ("avatar", JStr ""); ("ts", JStr "t2")].
Proof.
  split; [reflexivity|].
  apply (C9_unrecognized_frame_is_plaintext_message
           (lib := Demo.library) "hello" Demo.alice "t2").
  reflexivity.
Defined.

(** C2 on Alice's room after her first message: three more frames. *)
Lemma C2_growth_witness :
  length (history_of Demo.one_device Demo.room) = 1 ∧
  length (history_of
            (run (lib := Demo.library)
               (receive_all 1 Demo.alice Demo.room "t" "t" Demo.healthy
                  ["a"; "b"; "c"]) Demo.one_device).1 Demo.room) = 1 + 3.
Proof.
  split; [reflexivity|].
  apply (C2_history_grows_with_every_event (lib := Demo.library)
           1 Demo.alice Demo.room "t" "t" Demo.healthy ["a"; "b"; "c"]
           Demo.one_device (history_of Demo.one_device Demo.room)).
  vm_compute. reflexivity.
Defined.

(** C2 as stated fails: no capacity bounds the history of Alice's room. *)
Lemma C2_no_capacity :
  ¬ ∃ cap : nat, ∀ datas : list string,
      (length (history_of
                 (run (lib := Demo.library)
                    (receive_all 1 Demo.alice Demo.room "t" "t" Demo.healthy datas)
                    Demo.one_device).1 Demo.room) ≤ cap)%nat.
Proof.
  intros [cap Hcap]. specialize (Hcap (replicate (S cap) "x")).
  unfold history_of in Hcap.
  rewrite (history_after_receives (lib := Demo.library) 1 Demo.alice Demo.room
             "t" "t" Demo.healthy _ Demo.one_device
             (history_of Demo.one_device Demo.room)) in Hcap
    by (vm_compute; reflexivity).
  cbn [from_option id] in Hcap.
  rewrite length_app, length_map, length_replicate in Hcap. lia.
Qed.

(** C1 at the failing input: Alice, already in the room on socket 1, opens
    socket 3; the announcement goes out again, to Bob's socket 2 as well. *)
Lemma C1_second_device_witness :
  1 ∈ user_sockets_of Demo.two_users Demo.room "u-alice" ∧
  (2, system_event "alice entrou na sala" "t4")
  ∈ attempts (actions (ws_connect (lib := Demo.library) 3 (Some Demo.alice)
                         Demo.room "t4" Demo.healthy Demo.two_users)).
Proof.
  split; [by_computation|].
  apply (C1_join_announced_on_every_connect (lib := Demo.library)
           3 1 Demo.alice Demo.room "t4" Demo.healthy Demo.two_users).
  - reflexivity.
  - by_computation.
  - by_computation.
  - by_computation.
  - by_computation.
Defined.

(** C3 as stated fails in two ways.  After Alice destroys her room, a
    [new_room] that draws the same id takes it out of the tombstone set and
    Bob joins it again; and an id that is not a UUID can be destroyed, after
    which a connect with it is closed with 1008, the code of a malformed
    id, not with 4100. *)
Lemma C3_tombstone_undone_by_redraw :
  let destroyed := destroy_room (Some Demo.alice) Demo.room Demo.two_users in
  let again :=
    (run (lib := Demo.library) [OpNewRoom (Some Demo.bob) Demo.room]
       (hub_after destroyed)).1 in
  let joined :=
    ws_connect (lib := Demo.library) 7 (Some Demo.bob) Demo.room "t9"
      Demo.healthy again in
  let lobby := destroy_room (Some Demo.alice) "lobby" empty_hub in
  outcome destroyed = HttpOk ∧
  Demo.room ∈ rooms_deleted (hub_after destroyed) ∧
  Demo.room ∉ rooms_deleted again ∧
  outcome joined = WsActive ∧
  7 ∈ conns_of (hub_after joined) Demo.room ∧
  outcome lobby = HttpOk ∧
  "lobby" ∈ rooms_deleted (hub_after lobby) ∧
  outcome (ws_connect (lib := Demo.library) 7 (Some Demo.bob) "lobby" "t9"
             Demo.healthy (hub_after lobby))
  = WsRejected CLOSE_INVALID_ROOM ∧
  CLOSE_INVALID_ROOM ≠ CLOSE_TOMBSTONED.
Proof.
  cbv zeta. split_and!; try by_computation; vm_compute; reflexivity.
Qed.

(** C3 (amended) on Alice's room: destroyed, then Bob tries to come back,
    Alice kicks him, someone creates another room; Bob's next connect is
    still closed with 4100. *)
Lemma C3_tombstone_witness :
  outcome (destroy_room (Some Demo.alice) Demo.room Demo.two_users) = HttpOk ∧
  outcome
    (ws_connect (lib := Demo.library) 9 (Some Demo.bob) Demo.room "t9" Demo.healthy
       (run (lib := Demo.library)
          [OpConnect 8 (Some Demo.bob) Demo.room "t6" Demo.healthy;
           OpKick (Some Demo.alice) Demo.room "u-bob";
           OpNewRoom (Some Demo.bob) "0a1b2c3d-0000-4000-8000-00000000beef";
           OpDisconnect 2 Demo.bob Demo.room "t7" Demo.healthy]
          (hub_after (destroy_room (Some Demo.alice) Demo.room Demo.two_users))).1)
  = WsRejected CLOSE_TOMBSTONED.
Proof.
  split; [reflexivity|].
  eapply (C3_tombstone_rejects_every_later_connect (lib := Demo.library)
            (Some Demo.alice) Demo.room Demo.two_users).
  - reflexivity.
  - repeat constructor.
  - reflexivity.
  - reflexivity.
Defined.

(** C5 as stated fails: Bob's socket 2 is broken when an event is fanned
    out.  The pass only takes socket 2 out of the connection set: Bob keeps
    his per-user socket and his metadata and nobody is told he left.  His
    graceful leave from the same state empties both and announces it. *)
Lemma C5_eviction_is_not_a_leave :
  let ping := fallback_event "ping" Demo.alice "t5" in
  let pass := broadcast Demo.room ping (Demo.broken 2) Demo.two_users in
  let evicted := fst pass in
  let left := ws_disconnect 2 Demo.bob Demo.room "t5" Demo.healthy Demo.two_users in
  elements (conns_of evicted Demo.room) = [1] ∧
  elements (conns_of (hub_after left) Demo.room) = [1] ∧
  elements (user_sockets_of evicted Demo.room "u-bob") = [2] ∧
  elements (user_sockets_of (hub_after left) Demo.room "u-bob") = [] ∧
  user_meta_of evicted Demo.room "u-bob" = Some (mkMeta "bob" "/uploads/bob.png") ∧
  user_meta_of (hub_after left) Demo.room "u-bob" = None ∧
  attempts (snd pass) = [(2, ping); (1, ping)] ∧
  attempts (actions left) = [(1, left_event Demo.bob "t5")] ∧
  evicted ≠ hub_after left.
Proof.
  cbv zeta. split_and!; try (vm_compute; reflexivity).
  intros Heq.
  apply (f_equal (λ h, elements (user_sockets_of h Demo.room "u-bob"))) in Heq.
  vm_compute in Heq. discriminate Heq.
Qed.

(** C4 at the failing input: Alice, Bob and Carol are in the room and
    Alice sends [hi].  While the first send of the fan-out is under way,
    Dave's connect is accepted.  The event is stored, one socket out of
    three was sent it, and Alice's coroutine has left its receive loop. *)
Lemma C4_aborted_fanout_witness :
  let broken :=
    wrun (lib := Demo.library)
      [EvFrame 1 "hi" "t5" "t5";
       EvOpen 4 (Some Scenes.dave) Demo.room "t6";
       EvSent 1 true "t7"]
      Scenes.three_waiting in
  size (conns_of (hub Scenes.three_waiting) Demo.room) = 3 ∧
  length (attempts broken.2) = 1 ∧
  history_of (hub broken.1) Demo.room = [fallback_event "hi" Demo.alice "t5"] ∧
  pc_of broken.1 1 ≠ Some AtReceive.
Proof.
  intros broken.
  assert (tasks Scenes.three_waiting !! 1
          = Some (mkTask Demo.alice Demo.room AtReceive)) as Ht
    by (vm_compute; reflexivity).
  assert (rooms_messages (hub Scenes.three_waiting) !! Demo.room = Some []) as Hh
    by (vm_compute; reflexivity).
  destruct (C4_fanout_is_aborted_by_a_concurrent_join_or_leave
              (lib := Demo.library)
              1 Demo.alice Demo.room "hi" "t5" "t5" "t7" Demo.healthy
              Scenes.three_waiting [] Ht Hh) as [_ Hpart].
  destruct (Hpart 0) as (_ & Hjoin & _); [vm_compute; lia|].
  destruct (Hjoin 4 Scenes.dave "t6" "t7" true) as (Hatt & Hhist & _ & Hpc);
    [vm_compute; reflexivity|by_computation|reflexivity
    |by_computation|by_computation|].
  split_and!.
  - vm_compute. reflexivity.
  - etransitivity; [exact (f_equal length Hatt)|]. vm_compute. reflexivity.
  - exact Hhist.
  - intros Hloop.
    destruct Hpc as [Hpc|(c & p & Hpc & _)];
      pose proof (eq_trans (eq_sym Hpc) Hloop) as Habsurd; discriminate Habsurd.
Defined.



(** C7 as stated fails: destroying a room nobody ever created succeeds. *)
Lemma C7_destroy_of_missing_room_succeeds :
  let s := destroy_room (Some Demo.alice) "no-such-room" empty_hub in
  room_absent empty_hub "no-such-room" ∧
  outcome s = HttpOk ∧
  outcome s ≠ HttpError 404 ∧
  actions s = [] ∧
  "no-such-room" ∈ rooms_deleted (hub_after s).
Proof.
  cbv zeta. split_and!; try done; by_computation.
Qed.

(** C8 as stated fails: the codes of the five causes are not pairwise
    distinct.  A connect without a session and a connect with a malformed
    room id are closed by the same action. *)
Lemma C8_two_causes_share_a_code :
  ¬ NoDup [CLOSE_UNAUTHENTICATED; CLOSE_INVALID_ROOM; CLOSE_TOMBSTONED;
           CLOSE_BANNED; CLOSE_KICKED] ∧
  actions (ws_connect (lib := Demo.library) 1 None Demo.room "t" Demo.healthy
             empty_hub)
  = actions (ws_connect (lib := Demo.library) 1 (Some Demo.alice) "not-a-uuid"
               "t" Demo.healthy empty_hub).
Proof.
  split; [|reflexivity].
  intros Hnd. apply NoDup_cons in Hnd as [Hnotin _]. apply Hnotin. by left.
Qed.

(** ** Further concrete runs *)

(** X2 on the frame [{"type":"location","lat":"north"}]. *)
Lemma X2_malformed_location_witness :
  json_loads (Library := Scenes.library) Scenes.location_frame
  = Some (JObj [("type", JStr "location"); ("lat", JStr "north")]) ∧
  build_msg (lib := Scenes.library) Scenes.location_frame Demo.alice "t5"
  = fallback_event Scenes.location_frame Demo.alice "t5".
Proof.
  split; [reflexivity|].
  apply (X2_malformed_location_falls_back_to_plaintext (lib := Scenes.library)
           Scenes.location_frame
           [("type", JStr "location"); ("lat", JStr "north")] Demo.alice "t5").
  - reflexivity.
  - reflexivity.
  - reflexivity.
  - left. reflexivity.
Defined.

(** X8 on Alice's room: she bans Bob, he is kicked, someone opens another
    room, a frame comes in; Bob's next connect is closed with 4003. *)
Lemma X8_ban_witness :
  outcome (ban_user (Some Demo.alice) Demo.room "u-bob" Demo.two_users) = HttpOk ∧
  outcome
    (ws_connect (lib := Demo.library) 9 (Some Demo.bob) Demo.room "t9" Demo.healthy
       (run (lib := Demo.library)
          [OpKick (Some Demo.alice) Demo.room "u-bob";
           OpDisconnect 2 Demo.bob Demo.room "t6" Demo.healthy;
           OpNewRoom (Some Demo.bob) Scenes.other_room;
           OpReceive 1 Demo.alice Demo.room "bye" "t7" "t7" Demo.healthy]
          (hub_after (ban_user (Some Demo.alice) Demo.room "u-bob" Demo.two_users))).1)
  = WsRejected CLOSE_BANNED.
Proof.
  split; [reflexivity|].
  eapply (X8_ban_outlives_everything_but_the_room (lib := Demo.library)
            (Some Demo.alice) Demo.room "u-bob" Demo.two_users).
  - reflexivity.
  - repeat constructor.
  - reflexivity.
  - reflexivity.
  - by_computation.
Defined.


(** X10 on a room Alice creates: she joins, Bob joins and tries to
    destroy it, she talks; Bob's next attempt to destroy it is refused. *)
Lemma X10_owner_witness :
  let h :=
    (run (lib := Demo.library)
       [OpConnect 1 (Some Demo.alice) Demo.room "t1" Demo.healthy;
        OpConnect 2 (Some Demo.bob) Demo.room "t3" Demo.healthy;
        OpDestroy (Some Demo.bob) Demo.room;
        OpReceive 1 Demo.alice Demo.room "hello" "t2" "t2" Demo.healthy]
       (hub_after (new_room (Some Demo.alice) Demo.room empty_hub))).1 in
  user_id Demo.alice ≠ "" ∧
  destroy_room (Some Demo.bob) Demo.room h = mkStep h [] (HttpError 403).
Proof.
  cbv zeta. split; [by_computation|].
  eapply (X10_only_the_owner_moderates (lib := Demo.library)
            Demo.alice Demo.room empty_hub).
  - by_computation.
  - repeat constructor.
  - exact "".
  - by_computation.
Defined.

(** X11 on Alice's room: Bob joins from socket 2 and leaves. *)
Lemma X11_round_trip_witness :
  elements (conns_of Demo.one_device Demo.room) = [1] ∧
  conns_of
    (hub_after
       (ws_disconnect 2 Demo.bob Demo.room "t4" Demo.healthy
          (hub_after (ws_connect (lib := Demo.library) 2 (Some Demo.bob) Demo.room
                        "t3" Demo.healthy Demo.one_device))))
    Demo.room
  = conns_of Demo.one_device Demo.room.
Proof.
  split; [reflexivity|].
  pose proof (X11_join_then_leave_restores_membership (lib := Demo.library)
                2 Demo.bob Demo.room "t3" "t4" Demo.healthy Demo.healthy
                Demo.one_device eq_refl) as H.
  destruct H as (_ & _ & _ & Hviews & _).
  - by_computation.
  - by_computation.
  - by_computation.
  - by_computation.
  - intros c. reflexivity.
  - intros c. reflexivity.
  - apply (Hviews Demo.room "").
Defined.


(** X14 on Alice's room: destroyed, then Bob's socket, still open, sends
    a frame. *)
Lemma X14_silence_witness :
  outcome (destroy_room (Some Demo.alice) Demo.room Demo.two_users) = HttpOk ∧
  attempts
    (actions
       (ws_receive (lib := Demo.library) 2 Demo.bob Demo.room "anyone?" "t8" "t8"
          Demo.healthy
          (run (lib := Demo.library)
             [OpKick (Some Demo.bob) Demo.room "u-alice"]
             (hub_after (destroy_room (Some Demo.alice) Demo.room Demo.two_users))).1))
  = [].
Proof.
  split; [reflexivity|].
  eapply (X14_nothing_is_sent_in_a_destroyed_room (lib := Demo.library)
            (Some Demo.alice) Demo.room Demo.two_users
            [OpKick (Some Demo.bob) Demo.room "u-alice"]
            eq_refl ltac:(repeat constructor) 2 Demo.bob "anyone?" "t8" "t8"
            Demo.healthy []).
Defined.

(** X16 on the room of Alice and Bob: two frames for the room, with a
    kick, a join and a frame for another room in between. *)
Lemma X16_history_witness :
  history_of
    (run (lib := Demo.library)
       [OpReceive 1 Demo.alice Demo.room "first" "t5" "t5" Demo.healthy;
        OpKick (Some Demo.alice) Demo.room "u-bob";
        OpConnect 5 (Some Demo.bob) Scenes.other_room "t6" Demo.healthy;
        OpReceive 5 Demo.bob Scenes.other_room "elsewhere" "t7" "t7" Demo.healthy;
        OpReceive 2 Demo.bob Demo.room "second" "t8" "t8" Demo.healthy]
       Demo.two_users).1 Demo.room
  = [fallback_event "hello" Demo.alice "t2";
     fallback_event "first" Demo.alice "t5";
     fallback_event "second" Demo.bob "t8"].
Proof.
  unfold history_of.
  rewrite (X16_history_is_the_frames_received (lib := Demo.library) Demo.room _
             Demo.two_users [fallback_event "hello" Demo.alice "t2"]).
  - reflexivity.
  - vm_compute. reflexivity.
  - repeat constructor.
Defined.

(** X17 on the room of Alice and Bob once Alice has destroyed it: a late
    connect of Bob's is closed with 4100, and the room, which had no
    history any more, has an empty one again. *)
Lemma X17_rejected_witness :
  let h := hub_after (destroy_room (Some Demo.alice) Demo.room Demo.two_users) in
  let s := ws_connect (lib := Demo.library) 4 (Some Demo.bob) Demo.room "t9"
             Demo.healthy h in
  rooms_messages h !! Demo.room = None ∧
  actions s = [Close 4 CLOSE_TOMBSTONED] ∧
  rooms_messages (hub_after s) !! Demo.room = Some [].
Proof.
  intros h s.
  pose proof (X17_rejected_connect_only_ensures_the_room (lib := Demo.library)
                4 (Some Demo.bob) Demo.room "t9" Demo.healthy h
                CLOSE_TOMBSTONED eq_refl) as H.
  destruct H as (Ha & _ & _ & Hensured & _).
  destruct Hensured as (_ & Hm & _); [discriminate|].
  split; [reflexivity|]. split; [exact Ha|exact Hm].
Defined.


(** X19 on Alice's room: Bob joins from socket 2. *)
Lemma X19_online_witness :
  ∃ users,
    room_online (Some Demo.alice) Demo.room
      (hub_after (ws_connect (lib := Demo.library) 2 (Some Demo.bob) Demo.room
                    "t3" Demo.healthy Demo.one_device))
    = Reply200 users ∧
    mkOnline "u-bob" "bob" "/uploads/bob.png" ∈ users.
Proof.
  pose proof (X19_accepted_connect_puts_the_user_online (lib := Demo.library)
                2 Demo.bob Demo.room "t3" Demo.healthy Demo.one_device
                eq_refl) as H.
  destruct H as (_ & _ & Hon & _); [by_computation|by_computation|].
  apply (Hon Demo.alice "u-alice"); [reflexivity|discriminate].
Defined.

(** X20 on the room of Alice and Bob: Bob's only socket disconnects. *)
Lemma X20_offline_witness :
  elements (user_sockets_of Demo.two_users Demo.room "u-bob") = [2] ∧
  ∃ users,
    room_online (Some Demo.alice) Demo.room
      (hub_after (ws_disconnect 2 Demo.bob Demo.room "t4" Demo.healthy
                    Demo.two_users))
    = Reply200 users ∧
    ("u-bob" ∈ map online_id users ↔
     user_sockets_of Demo.two_users Demo.room "u-bob" ∖ {[2]} ≠ ∅).
Proof.
  split; [reflexivity|].
  pose proof (X20_teardown_takes_the_user_offline_with_the_last_socket
                2 Demo.bob Demo.room "t4" Demo.healthy Demo.two_users
                (conns_of Demo.two_users Demo.room)) as H.
  destruct H as (_ & _ & Hon & _); [vm_compute; reflexivity|].
  apply (Hon Demo.alice "u-alice"); [reflexivity|discriminate].
Defined.

(** X21 on Alice's room once she has said two things: Bob joins, is
    replayed the first, and his socket breaks on the second. *)
Lemma X21_broken_replay_witness :
  let w := (wrun (lib := Demo.library) Scenes.alice_talks empty_world).1 in
  let broken :=
    wrun (lib := Demo.library)
      (Scenes.bob_joins ++ [EvSent 2 true "t4"; EvSent 2 false "t4"]) w in
  pc_of broken.1 2 = Some Raised ∧
  delivered_to 2 broken.2
  = [joined_event Demo.bob "t4"; fallback_event "first" Demo.alice "t2"] ∧
  2 ∈ conns_of (hub broken.1) Demo.room.
Proof.
  intros w broken.
  pose proof (X21_socket_broken_during_replay_is_never_torn_down
                (lib := Demo.library)
                2 Demo.bob Demo.room "t4" "t4" Demo.healthy w 1) as H.
  destruct H as (Hpc & Hmine & _ & Hin & _);
    [vm_compute; reflexivity|reflexivity|by_computation|by_computation
    |reflexivity|vm_compute; lia|].
  assert (broken
          = wrun (lib := Demo.library)
              (EvOpen 2 (Some Demo.bob) Demo.room "t4"
               :: pass_events 2 "t4" Demo.healthy
                    (elements ({[2]} ∪ conns_of (hub w) Demo.room))
               ++ replay_events 2 "t4" 1 ++ [EvSent 2 false "t4"]) w) as ->
    by (vm_compute; reflexivity).
  split; [exact Hpc|]. split; [|exact Hin].
  etransitivity; [exact Hmine|]. vm_compute. reflexivity.
Defined.

(** X22 on Alice's room: Bob's connect is accepted, and so is Carol's
    while the first send of Bob's announcement is under way. *)
Lemma X22_cut_short_witness :
  let w := (wrun (lib := Demo.library) Scenes.alice_talks empty_world).1 in
  let broken :=
    wrun (lib := Demo.library)
      [EvOpen 2 (Some Demo.bob) Demo.room "t4";
       EvOpen 3 (Some Scenes.carol) Demo.room "t5";
       EvSent 2 true "t6"] w in
  pc_of broken.1 2 = Some Raised ∧
  length (attempts broken.2) = 1 ∧
  2 ∈ conns_of (hub broken.1) Demo.room ∧
  size (conns_of (hub broken.1) Demo.room) = 3.
Proof.
  intros w broken.
  pose proof (X22_join_cut_short_by_another_join_is_never_served
                (lib := Demo.library)
                2 Demo.bob 3 Scenes.carol Demo.room "t4" "t4" "t5" "t6"
                Demo.healthy true w 0) as H.
  destruct H as (Hpc & Hatt & _);
    [vm_compute; reflexivity|vm_compute; reflexivity|discriminate
    |by_computation|reflexivity|by_computation|by_computation|by_computation
    |vm_compute; lia|].
  split; [exact Hpc|].
  split; [|split; [by_computation|vm_compute; reflexivity]].
  etransitivity; [exact (f_equal length Hatt)|]. vm_compute. reflexivity.
Defined.
